(** * Shield mode-switching and register-access protocol (shield.c / shield.h)

    A shallow embedding of the shield I/O control module.  The C functions
    are state-passing computations over a [World]: the module's global
    register arrays, the level latched on every GPIO line, the persistent
    configuration store, and the chronological trace of every call made
    into the platform (bcm2835 library, libc, logger, configuration store).

    What the platform answers (the level sensed on a line, the bytes
    clocked in over SPI) is not decided by the module; it is supplied by
    a [Platform] that every operation takes as a parameter. *)

From Stdlib Require Import ZArith List String Ascii Bool Lia.
Import ListNotations.
Open Scope Z_scope.

(** ** Constants of shield.h and bcm2835.h *)

Definition GPIO_GEN0 : Z := 17.
Definition GPIO_GEN1 : Z := 18.
Definition GPIO_GEN2 : Z := 27.
Definition GPIO_GEN3 : Z := 22.
Definition GPIO_GEN4 : Z := 23.
Definition GPIO_GEN5 : Z := 24.
Definition GPIO_GEN6 : Z := 25.

Definition HIGH : Z := 1.
Definition LOW : Z := 0.
Definition BCM2835_GPIO_FSEL_OUTP : Z := 1.

(** [#define FALSE (0==1)] *)
Definition FALSE : Z := 0.

(** [enum DigitalMode] *)
Definition DIO : Z := 0.
Definition SPI : Z := 1.
Definition SIO : Z := 2.

(** [enum ShieldMode] *)
Definition INIT_ALL_LOW : Z := 0x00.
Definition NONE : Z := 0x70.
Definition INTERNAL_REG : Z := 0x78.
Definition OUTPUT_REG_1 : Z := 0x79.
Definition OUTPUT_REG_2 : Z := 0x7A.
Definition INPUT_REG : Z := 0x7B.
Definition DAC : Z := 0x7E.
Definition RTC : Z := 0x7D.
Definition ADC : Z := 0x7F.

Definition ShieldMode_values : list Z :=
  [INIT_ALL_LOW; NONE; INTERNAL_REG; OUTPUT_REG_1; OUTPUT_REG_2;
   INPUT_REG; DAC; RTC; ADC].

(** [enum PinDigitalOut]: CN11_2 = 1, CN11_4 = 2, ..., CN20_4 = 20. *)
Definition CN11_2 : Z := 1.
Definition CN11_4 : Z := 2.
Definition CN12_2 : Z := 3.
Definition CN12_4 : Z := 4.
Definition CN13_2 : Z := 5.
Definition CN13_4 : Z := 6.
Definition CN14_2 : Z := 7.
Definition CN14_4 : Z := 8.
Definition CN15_2 : Z := 9.
Definition CN15_4 : Z := 10.
Definition CN16_2 : Z := 11.
Definition CN16_4 : Z := 12.
Definition CN17_2 : Z := 13.
Definition CN17_4 : Z := 14.
Definition CN18_2 : Z := 15.
Definition CN18_4 : Z := 16.
Definition CN19_2 : Z := 17.
Definition CN19_4 : Z := 18.
Definition CN20_2 : Z := 19.
Definition CN20_4 : Z := 20.

Definition MAX_SAMPLING_RETRY_TIME : Z := 3.
Definition MAX_REBOOT_RETRY_TIME : Z := 3.
Definition ADC_MAXIMUM : Z := 4095.

(** [uint8_t adcConversion[]] *)
Definition adcConversion : list Z :=
  [0x86; 0x8E; 0x96; 0x9E; 0xA6; 0xAE; 0xB6; 0xBE].

(** ** Machine integers *)

(** Conversion to [unsigned int] (32 bits). *)
Definition to_uint (z : Z) : Z := z mod 2 ^ 32.

(** Conversion to [int] (32 bits, two's complement). *)
Definition to_int (z : Z) : Z := (z + 2 ^ 31) mod 2 ^ 32 - 2 ^ 31.

(** Conversion to [uint8_t], as on every store into a register array. *)
Definition to_uint8 (z : Z) : Z := z mod 256.

(** ** Events, world and platform *)

Inductive LogLevel := LOG_DEBUG | LOG_NOTICE | LOG_WARNING | LOG_ERROR.

(** One event per call that leaves the module. *)
Inductive Event :=
| Ev_gpio_fsel (pin fsel : Z)
| Ev_gpio_write (pin on : Z)
| Ev_gpio_lev (pin : Z)
| Ev_spi_writenb (buf : list Z)
| Ev_spi_transfer (value : Z)
| Ev_spi_transfern (buf : list Z)
| Ev_spi_end
| Ev_close
| Ev_usleep (usecs : Z)
| Ev_GetParamInt (key : string)
| Ev_SetParam (key : string) (value : Z)
| Ev_system (cmd : string)
| Ev_LOG (lvl : LogLevel).

Record World := mkWorld {
  internalRegister : Z * Z;   (* uint8_t internalRegister[2] *)
  outputRegister1 : Z * Z;    (* uint8_t outputRegister1[2]  *)
  outputRegister2 : Z * Z;    (* uint8_t outputRegister2[2]  *)
  spi_delay_usecs : Z;
  gpio_delay_usecs : Z;
  level : Z -> bool;          (* level last driven on each GPIO line *)
  params : string -> Z;       (* persistent configuration store *)
  trace : list Event          (* platform calls, oldest first *)
}.

(** What the module cannot decide: the level the library senses on a line,
    the bytes the peripheral clocks back, and what the target computes for
    an [int] shift whose amount is not in 0..31 (C leaves it undefined). *)
Record Platform := mkPlatform {
  sense : World -> Z -> bool;
  miso : World -> nat -> Z;
  shl_oob : Z -> Z -> Z;
  shr_oob : Z -> Z -> Z;
  (* bytes 1 and 2 of the DAC command word; AnalogWrite computes them in
     floating point from the clamped millivolt value *)
  dac_data : Z -> Z * Z
}.

(** How a call ends: it returns to its caller, the process leaves through
    [exit], the C code does something the language leaves undefined, or the
    model's loop bound ran out. *)
Inductive Outcome (A : Type) :=
| Returned (a : A) (w : World)
| Exited (status : Z) (w : World)
| Undefined (w : World)
| OutOfFuel.
Arguments Returned {A} a w.
Arguments Exited {A} status w.
Arguments Undefined {A} w.
Arguments OutOfFuel {A}.

Definition M (A : Type) : Type := World -> Outcome A.

Definition ret {A} (a : A) : M A := fun w => Returned a w.

Definition bind {A B} (m : M A) (f : A -> M B) : M B :=
  fun w =>
    match m w with
    | Returned a w' => f a w'
    | Exited s w' => Exited s w'
    | Undefined w' => Undefined w'
    | OutOfFuel => OutOfFuel
    end.

Notation "x <- m ;; k" := (bind m (fun x => k))
  (at level 61, m at next level, right associativity).
Notation "m ;; k" := (bind m (fun _ => k))
  (at level 61, right associativity).

Definition exit {A} (status : Z) : M A := fun w => Exited status w.
Definition undefined {A} : M A := fun w => Undefined w.

Definition gets {A} (f : World -> A) : M A := fun w => Returned (f w) w.

Definition set_trace (t : list Event) (w : World) : World :=
  mkWorld (internalRegister w) (outputRegister1 w) (outputRegister2 w)
          (spi_delay_usecs w) (gpio_delay_usecs w) (level w) (params w) t.

Definition set_level (l : Z -> bool) (w : World) : World :=
  mkWorld (internalRegister w) (outputRegister1 w) (outputRegister2 w)
          (spi_delay_usecs w) (gpio_delay_usecs w) l (params w) (trace w).

Definition set_params (p : string -> Z) (w : World) : World :=
  mkWorld (internalRegister w) (outputRegister1 w) (outputRegister2 w)
          (spi_delay_usecs w) (gpio_delay_usecs w) (level w) p (trace w).

Definition set_internalRegister (r : Z * Z) (w : World) : World :=
  mkWorld r (outputRegister1 w) (outputRegister2 w)
          (spi_delay_usecs w) (gpio_delay_usecs w) (level w) (params w)
          (trace w).

Definition set_outputRegister1 (r : Z * Z) (w : World) : World :=
  mkWorld (internalRegister w) r (outputRegister2 w)
          (spi_delay_usecs w) (gpio_delay_usecs w) (level w) (params w)
          (trace w).

Definition set_outputRegister2 (r : Z * Z) (w : World) : World :=
  mkWorld (internalRegister w) (outputRegister1 w) r
          (spi_delay_usecs w) (gpio_delay_usecs w) (level w) (params w)
          (trace w).

Definition emit (e : Event) : M unit :=
  fun w => Returned tt (set_trace (trace w ++ [e]) w).

Definition modify (f : World -> World) : M unit :=
  fun w => Returned tt (f w).

(** The two bytes of a register array, in transmission order. *)
Definition bytes (r : Z * Z) : list Z := [fst r; snd r].

(** ** Platform calls *)

(** The logger is recorded by level; the message text is not modelled.
    The arguments of a call are evaluated before it: where one of them is
    a row of a constant table, the look-up is [table_entry]. *)
Definition LOG (lvl : LogLevel) : M unit := emit (Ev_LOG lvl).

(** The tables the log messages name modes, ports and pins from. *)
Definition digi_mode_rep : list string := ["DIO"; "SPI"; "SIO"]%string.

Definition digi_port_rep : list string :=
  ["CN11"; "CN12"; "CN13"; "CN14"; "CN15";
   "CN16"; "CN17"; "CN18"; "CN19"; "CN20"]%string.

Definition digi_out_rep : list string :=
  ["CN11_2"; "CN11_4"; "CN12_2"; "CN12_4"; "CN13_2";
   "CN13_4"; "CN14_2"; "CN14_4"; "CN15_2"; "CN15_4";
   "CN16_2"; "CN16_4"; "CN17_2"; "CN17_4"; "CN18_2";
   "CN18_4"; "CN19_2"; "CN19_4"; "CN20_2"; "CN20_4"]%string.

(** [table[index]] for a constant table of strings: the row inside the
    table, undefined behaviour outside it (the row is read by the
    formatter).  The rows of [bit_rep] are not looked up here: their index
    is a nibble of a [uint8_t], always inside its sixteen rows. *)
Definition table_entry (table : list string) (index : Z) : M string :=
  if (0 <=? index) && (index <? Z.of_nat (List.length table)) then
    ret (nth (Z.to_nat index) table EmptyString)
  else undefined.

Definition usleep (usecs : Z) : M unit := emit (Ev_usleep usecs).

Definition bcm2835_gpio_fsel (pin fsel : Z) : M unit :=
  emit (Ev_gpio_fsel pin fsel).

(** [bcm2835_gpio_write] sets the line when [on] is non-zero and clears it
    otherwise. *)
Definition bcm2835_gpio_write (pin on : Z) : M unit :=
  emit (Ev_gpio_write pin on) ;;
  modify (fun w =>
    set_level (fun p => if p =? pin then negb (on =? 0) else level w p) w).

Definition bcm2835_spi_writenb (buf : list Z) : M unit :=
  emit (Ev_spi_writenb buf).

Definition bcm2835_spi_end : M unit := emit Ev_spi_end.
Definition bcm2835_close : M unit := emit Ev_close.

Definition GetParamInt (key : string) : M Z :=
  emit (Ev_GetParamInt key) ;; gets (fun w => params w key).

Definition store_param (key : string) (value : Z) (w : World) : World :=
  set_params (fun k => if String.eqb k key then value else params w k) w.

Definition SetParam (key : string) (value : Z) : M unit :=
  emit (Ev_SetParam key value) ;;
  modify (store_param key value).

Definition system (cmd : string) : M unit := emit (Ev_system cmd).


(** ** C strings

    A [char *] argument is [None] for NULL and [Some s] for a string [s],
    which is taken to hold no NUL character. *)

Definition code (c : ascii) : Z := Z.of_N (N_of_ascii c).

Definition isspace (c : ascii) : bool :=
  (code c =? 32) || ((9 <=? code c) && (code c <=? 13)).

Definition isdigit (c : ascii) : bool := (48 <=? code c) && (code c <=? 57).

Fixpoint skip_spaces (s : string) : string :=
  match s with
  | String c s' => if isspace c then skip_spaces s' else s
  | EmptyString => s
  end.

Fixpoint digits (acc : Z) (s : string) : Z :=
  match s with
  | String c s' =>
      if isdigit c then digits (acc * 10 + (code c - 48)) s' else acc
  | EmptyString => acc
  end.

(** [atoi]: optional white space, optional sign, decimal digits.  The
    result is [None] when the value does not fit an [int], where the C
    library leaves the behaviour undefined. *)
Definition atoi (s : string) : option Z :=
  let v :=
    match skip_spaces s with
    | String c s' =>
        if Ascii.eqb c "-" then - digits 0 s'
        else if Ascii.eqb c "+" then digits 0 s'
        else digits 0 (String c s')
    | EmptyString => 0
    end in
  if (- 2 ^ 31 <=? v) && (v <? 2 ^ 31) then Some v else None.

(** [strncmp]: the difference of the first pair of differing characters
    among the first [n], 0 when there is none. *)
Fixpoint strncmp (s1 s2 : string) (n : nat) {struct n} : Z :=
  match n with
  | O => 0
  | S n' =>
      match s1, s2 with
      | EmptyString, EmptyString => 0
      | EmptyString, String c2 _ => 0 - code c2
      | String c1 _, EmptyString => code c1
      | String c1 s1', String c2 s2' =>
          if Ascii.eqb c1 c2 then strncmp s1' s2' n' else code c1 - code c2
      end
  end.

(** A heap buffer is the list of its characters, terminators included;
    a pointer into it is an offset. *)
Definition buffer_of (s : string) : list ascii :=
  list_ascii_of_string s ++ [zero].

(** The string that starts at the head of [b]: up to the first NUL. *)
Fixpoint cstr (b : list ascii) : string :=
  match b with
  | c :: b' => if Ascii.eqb c zero then EmptyString else String c (cstr b')
  | [] => EmptyString
  end.

Definition string_at (buf : list ascii) (off : nat) : string :=
  cstr (skipn off buf).

Fixpoint strspn1 (delim : ascii) (b : list ascii) : nat :=
  match b with
  | c :: b' => if Ascii.eqb c delim then S (strspn1 delim b') else O
  | [] => O
  end.

Fixpoint strcspn1 (delim : ascii) (b : list ascii) : nat :=
  match b with
  | c :: b' =>
      if Ascii.eqb c delim || Ascii.eqb c zero then O
      else S (strcspn1 delim b')
  | [] => O
  end.

Fixpoint store (b : list ascii) (i : nat) (c : ascii) : list ascii :=
  match b, i with
  | [], _ => []
  | _ :: b', O => c :: b'
  | x :: b', S i' => x :: store b' i' c
  end.

(** One call of [strtok] with the single delimiter [delim], resumed at
    offset [s] of [buf] (offset 0 for the first call on a buffer): the
    token's offset ([None] for NULL), the buffer with the token's end
    overwritten by NUL, and the offset saved for the next call. *)
Definition strtok (delim : ascii) (buf : list ascii) (s : nat)
  : option nat * list ascii * nat :=
  let s := (s + strspn1 delim (skipn s buf))%nat in
  if Ascii.eqb (nth s buf zero) zero then (None, buf, s)
  else
    let e := (s + strcspn1 delim (skipn s buf))%nat in
    if Ascii.eqb (nth e buf zero) zero then (Some s, buf, e)
    else (Some s, store buf e zero, S e).

Section Shield.

Variable P : Platform.

(** [bcm2835_gpio_lev] answers HIGH (1) or LOW (0). *)
Definition bcm2835_gpio_lev (pin : Z) : M Z :=
  fun w =>
    Returned (if sense P w pin then HIGH else LOW)
             (set_trace (trace w ++ [Ev_gpio_lev pin]) w).

(** [bcm2835_spi_transfern] sends the buffer and overwrites it with the
    bytes clocked in. *)
Definition bcm2835_spi_transfern (buf : list Z) : M (list Z) :=
  fun w =>
    Returned (map (fun i => to_uint8 (miso P w i)) (seq 0 (List.length buf)))
             (set_trace (trace w ++ [Ev_spi_transfern buf]) w).

Definition bcm2835_spi_transfer (value : Z) : M Z :=
  fun w =>
    Returned (to_uint8 (miso P w 0%nat))
             (set_trace (trace w ++ [Ev_spi_transfer value]) w).

(** [x << n] and [x >> n] on [int]. *)
Definition shl (x n : Z) : Z :=
  if (0 <=? n) && (n <? 32) then to_int (Z.shiftl x n) else shl_oob P x n.

Definition shr (x n : Z) : Z :=
  if (0 <=? n) && (n <? 32) then Z.shiftr x n else shr_oob P x n.

(** [#define getBit(x,n) ((x >> (n-1)) & 1)], [n] an [unsigned int]. *)
Definition getBit (x n : Z) : Z := Z.land (shr x (to_uint (n - 1))) 1.

(** ** Mode selector *)

Definition ShieldLibClose : M unit :=
  bcm2835_spi_end ;; bcm2835_close.

Definition SetShieldMode (mode : Z) : M unit :=
  bcm2835_gpio_fsel GPIO_GEN0 BCM2835_GPIO_FSEL_OUTP ;;
  bcm2835_gpio_fsel GPIO_GEN1 BCM2835_GPIO_FSEL_OUTP ;;
  bcm2835_gpio_fsel GPIO_GEN2 BCM2835_GPIO_FSEL_OUTP ;;
  bcm2835_gpio_fsel GPIO_GEN3 BCM2835_GPIO_FSEL_OUTP ;;
  bcm2835_gpio_fsel GPIO_GEN4 BCM2835_GPIO_FSEL_OUTP ;;
  bcm2835_gpio_fsel GPIO_GEN5 BCM2835_GPIO_FSEL_OUTP ;;
  bcm2835_gpio_fsel GPIO_GEN6 BCM2835_GPIO_FSEL_OUTP ;;
  bcm2835_gpio_write GPIO_GEN6 HIGH ;;
  bcm2835_gpio_write GPIO_GEN5 HIGH ;;
  bcm2835_gpio_write GPIO_GEN4 HIGH ;;
  bcm2835_gpio_write GPIO_GEN3 HIGH ;;
  d <- gets gpio_delay_usecs ;;
  usleep d ;;
  (if mode =? INIT_ALL_LOW then
     bcm2835_gpio_write GPIO_GEN6 LOW ;;
     bcm2835_gpio_write GPIO_GEN5 LOW ;;
     bcm2835_gpio_write GPIO_GEN4 LOW ;;
     bcm2835_gpio_write GPIO_GEN3 LOW ;;
     bcm2835_gpio_write GPIO_GEN2 LOW ;;
     bcm2835_gpio_write GPIO_GEN1 LOW ;;
     bcm2835_gpio_write GPIO_GEN0 LOW
   else if mode =? NONE then
     bcm2835_gpio_write GPIO_GEN3 LOW ;;
     bcm2835_gpio_write GPIO_GEN2 LOW ;;
     bcm2835_gpio_write GPIO_GEN1 LOW ;;
     bcm2835_gpio_write GPIO_GEN0 LOW
   else if mode =? DAC then
     bcm2835_gpio_write GPIO_GEN2 HIGH ;;
     bcm2835_gpio_write GPIO_GEN1 HIGH ;;
     bcm2835_gpio_write GPIO_GEN0 LOW
   else if mode =? RTC then
     bcm2835_gpio_write GPIO_GEN2 HIGH ;;
     bcm2835_gpio_write GPIO_GEN1 LOW ;;
     bcm2835_gpio_write GPIO_GEN0 HIGH
   else if mode =? INTERNAL_REG then
     bcm2835_gpio_write GPIO_GEN2 LOW ;;
     bcm2835_gpio_write GPIO_GEN1 LOW ;;
     bcm2835_gpio_write GPIO_GEN0 LOW
   else if mode =? OUTPUT_REG_1 then
     bcm2835_gpio_write GPIO_GEN2 LOW ;;
     bcm2835_gpio_write GPIO_GEN1 LOW ;;
     bcm2835_gpio_write GPIO_GEN0 HIGH
   else if mode =? OUTPUT_REG_2 then
     bcm2835_gpio_write GPIO_GEN2 LOW ;;
     bcm2835_gpio_write GPIO_GEN1 HIGH ;;
     bcm2835_gpio_write GPIO_GEN0 LOW
   else if mode =? INPUT_REG then
     bcm2835_gpio_write GPIO_GEN2 LOW ;;
     bcm2835_gpio_write GPIO_GEN1 HIGH ;;
     bcm2835_gpio_write GPIO_GEN0 HIGH
   else (* default: case ADC: *)
     bcm2835_gpio_write GPIO_GEN2 HIGH ;;
     bcm2835_gpio_write GPIO_GEN1 HIGH ;;
     bcm2835_gpio_write GPIO_GEN0 HIGH) ;;
  d <- gets gpio_delay_usecs ;;
  usleep d.

Definition GetShieldMode : M Z :=
  l6 <- bcm2835_gpio_lev GPIO_GEN6 ;;
  l5 <- bcm2835_gpio_lev GPIO_GEN5 ;;
  l4 <- bcm2835_gpio_lev GPIO_GEN4 ;;
  l3 <- bcm2835_gpio_lev GPIO_GEN3 ;;
  l2 <- bcm2835_gpio_lev GPIO_GEN2 ;;
  l1 <- bcm2835_gpio_lev GPIO_GEN1 ;;
  l0 <- bcm2835_gpio_lev GPIO_GEN0 ;;
  ret (Z.shiftl l6 6 + Z.shiftl l5 5 + Z.shiftl l4 4 + Z.shiftl l3 3 +
       Z.shiftl l2 2 + Z.shiftl l1 1 + l0).

(** ** Mode verifier *)

(** The [while] loop of [VerifyAndFixShieldMode]; each unit of [fuel] pays
    for one evaluation of the loop condition. *)
Fixpoint verify_loop (fuel : nat) (mode sampling_count : Z) : M unit :=
  match fuel with
  | O => fun _ => OutOfFuel
  | S fuel' =>
      m <- GetShieldMode ;;
      if negb (m =? mode) then
        (if sampling_count >? MAX_SAMPLING_RETRY_TIME then
           reboot_count <- GetParamInt "shield.rebootcount"%string ;;
           if reboot_count >? MAX_REBOOT_RETRY_TIME then
             LOG LOG_ERROR ;;
             SetParam "shield.rebootcount"%string 0 ;;
             ShieldLibClose ;;
             exit FALSE
           else
             SetParam "shield.rebootcount"%string (reboot_count + 1) ;;
             LOG LOG_ERROR ;;
             system "sudo reboot"%string ;;
             exit FALSE
         else ret tt) ;;
        LOG LOG_ERROR ;;
        verify_loop fuel' mode (sampling_count + 1)
      else ret tt
  end.

(** The loop leaves within [MAX_SAMPLING_RETRY_TIME + 1] evaluations of its
    condition, so this much fuel never runs out (see
    [VerifyAndFixShieldMode_total]). *)
Definition VerifyAndFixShieldMode (mode : Z) : M unit :=
  verify_loop (Z.to_nat (MAX_SAMPLING_RETRY_TIME + 1)) mode 1.

(** ** Register codec and pin API *)

(** [x |= 1 << n] and [x &= ~(1 << n)] on a [uint8_t] element. *)
Definition or_bit (x n : Z) : Z := to_uint8 (Z.lor x (shl 1 n)).
Definition and_not_bit (x n : Z) : Z :=
  to_uint8 (Z.land x (Z.lnot (shl 1 n))).

(** Update of element 0 or 1 of a register array. *)
Definition upd0 (f : Z -> Z) (r : Z * Z) : Z * Z := (f (fst r), snd r).
Definition upd1 (f : Z -> Z) (r : Z * Z) : Z * Z := (fst r, f (snd r)).

Definition on_internalRegister (f : Z * Z -> Z * Z) : M unit :=
  modify (fun w => set_internalRegister (f (internalRegister w)) w).
Definition on_outputRegister1 (f : Z * Z -> Z * Z) : M unit :=
  modify (fun w => set_outputRegister1 (f (outputRegister1 w)) w).
Definition on_outputRegister2 (f : Z * Z -> Z * Z) : M unit :=
  modify (fun w => set_outputRegister2 (f (outputRegister2 w)) w).

(** [pin_number] is an [unsigned int]: a value in 0 .. 2^32 - 1.  The inner
    computation yields [Some r] where the C code returns [r] early. *)
Definition PinMode (pin_number mode : Z) : M Z :=
  if (pin_number >? 10) || (pin_number <? 1) then
    LOG LOG_ERROR ;;
    ret (-1)
  else
    early <-
      (if mode =? DIO then
         (if pin_number <? 9 then
            on_internalRegister
              (upd1 (fun x => and_not_bit x (to_uint (pin_number - 1))))
          else
            on_internalRegister
              (upd0 (fun x => and_not_bit x (to_uint (pin_number - 9))))) ;;
         ret None
       else if mode =? SPI then
         if pin_number <? 9 then
           on_internalRegister
             (upd1 (fun x => or_bit x (to_uint (pin_number - 1)))) ;;
           ret None
         else
           LOG LOG_ERROR ;;
           SetShieldMode NONE ;;
           VerifyAndFixShieldMode NONE ;;
           ret (Some (-1))
       else if mode =? SIO then
         if pin_number =? 10 then
           on_internalRegister
             (upd0 (fun x => or_bit x (to_uint (pin_number - 1)))) ;;
           ret None
         else
           LOG LOG_ERROR ;;
           SetShieldMode NONE ;;
           VerifyAndFixShieldMode NONE ;;
           ret (Some (-1))
       else ret None) ;;
    match early with
    | Some r => ret r
    | None =>
        SetShieldMode INTERNAL_REG ;;
        r <- gets internalRegister ;;
        bcm2835_spi_writenb (bytes r) ;;
        _ <- table_entry digi_port_rep (to_uint (pin_number - 1)) ;;
        _ <- table_entry digi_mode_rep mode ;;
        LOG LOG_DEBUG ;;
        d <- gets spi_delay_usecs ;;
        usleep d ;;
        ret 0
    end.

Definition DigitalWrite (pin_number value : Z) : M Z :=
  if pin_number <=? 8 then
    (if value =? HIGH then
       on_outputRegister1
         (upd1 (fun x => or_bit x (to_uint (pin_number - 1))))
     else
       on_outputRegister1
         (upd1 (fun x => and_not_bit x (to_uint (pin_number - 1))))) ;;
    SetShieldMode OUTPUT_REG_1 ;;
    r <- gets outputRegister1 ;;
    bcm2835_spi_writenb (bytes r) ;;
    d <- gets spi_delay_usecs ;;
    usleep d ;;
    _ <- table_entry digi_out_rep (to_uint (pin_number - 1)) ;;
    LOG LOG_DEBUG ;;
    SetShieldMode NONE ;;
    VerifyAndFixShieldMode NONE ;;
    ret 0
  else if (pin_number >=? 9) && (pin_number <=? 16) then
    (if value =? HIGH then
       on_outputRegister1
         (upd0 (fun x => or_bit x (to_uint (pin_number - 9))))
     else
       on_outputRegister1
         (upd0 (fun x => and_not_bit x (to_uint (pin_number - 9))))) ;;
    SetShieldMode OUTPUT_REG_1 ;;
    r <- gets outputRegister1 ;;
    bcm2835_spi_writenb (bytes r) ;;
    d <- gets spi_delay_usecs ;;
    usleep d ;;
    _ <- table_entry digi_out_rep (to_uint (pin_number - 1)) ;;
    LOG LOG_DEBUG ;;
    SetShieldMode NONE ;;
    VerifyAndFixShieldMode NONE ;;
    ret 0
  else if (pin_number >=? 17) && (pin_number <=? 20) then
    (if value =? HIGH then
       on_outputRegister2
         (upd1 (fun x => or_bit x (to_uint (pin_number - 17))))
     else
       on_outputRegister2
         (upd1 (fun x => and_not_bit x (to_uint (pin_number - 17))))) ;;
    SetShieldMode OUTPUT_REG_2 ;;
    r <- gets outputRegister2 ;;
    bcm2835_spi_writenb (bytes r) ;;
    d <- gets spi_delay_usecs ;;
    usleep d ;;
    _ <- table_entry digi_out_rep (to_uint (pin_number - 1)) ;;
    LOG LOG_DEBUG ;;
    SetShieldMode NONE ;;
    VerifyAndFixShieldMode NONE ;;
    ret 0
  else
    SetShieldMode NONE ;;
    VerifyAndFixShieldMode NONE ;;
    LOG LOG_ERROR ;;
    ret (-1).

Definition DigitalRead (pin_number : Z) : M Z :=
  SetShieldMode INPUT_REG ;;
  inputRegister <- bcm2835_spi_transfern [0x00; 0x00] ;;
  d <- gets spi_delay_usecs ;;
  usleep d ;;
  SetShieldMode NONE ;;
  VerifyAndFixShieldMode NONE ;;
  if pin_number <=? 8 then
    ret (getBit (nth 1 inputRegister 0) pin_number)
  else if pin_number <=? 10 then
    ret (getBit (nth 0 inputRegister 0) (to_uint (pin_number - 8)))
  else ret (-1).

Definition AnalogRead (port_num : Z) : M Z :=
  if port_num >? 7 then
    LOG LOG_ERROR ;;
    ret 0
  else
    SetShieldMode ADC ;;
    _ <- bcm2835_spi_transfer (nth (Z.to_nat port_num) adcConversion 0) ;;
    d <- gets spi_delay_usecs ;;
    usleep d ;;
    rbuf <- bcm2835_spi_transfern [0; 0] ;;
    d <- gets spi_delay_usecs ;;
    usleep d ;;
    let result := Z.shiftl (nth 0 rbuf 0) 8 + nth 1 rbuf 0 in
    if result >? ADC_MAXIMUM then
      LOG LOG_WARNING ;;
      ret (Z.shiftl (Z.land (nth 0 rbuf 0) 0x0F) 8 + nth 1 rbuf 0)
    else
      LOG LOG_DEBUG ;;
      SetShieldMode NONE ;;
      VerifyAndFixShieldMode NONE ;;
      ret result.

(** The 12-bit data of the command word comes from [float] arithmetic
    ([dac = mv_value * 1.8363228]); its two bytes are the platform's
    [dac_data].  [bcm2835_spi_writenb("0x68", 1)] sends the first character
    of the string literal, ['0'] = 48. *)
Definition AnalogWrite (adc_addr mv_value : Z) : M unit :=
  mv_value <-
    (if mv_value >? 2230 then LOG LOG_WARNING ;; ret 2230
     else ret mv_value) ;;
  adc_addr <-
    (if adc_addr >? 1 then LOG LOG_WARNING ;; ret 1 else ret adc_addr) ;;
  let adc_cmd :=
    [to_uint8 (0x30 + adc_addr);
     to_uint8 (fst (dac_data P mv_value));
     to_uint8 (snd (dac_data P mv_value))] in
  SetShieldMode ADC ;;
  bcm2835_spi_writenb [48] ;;
  d <- gets spi_delay_usecs ;;
  usleep d ;;
  bcm2835_spi_writenb [48] ;;
  d <- gets spi_delay_usecs ;;
  usleep d ;;
  _ <- bcm2835_spi_transfern [0x00; 0x00] ;;
  d <- gets spi_delay_usecs ;;
  usleep d ;;
  SetShieldMode DAC ;;
  bcm2835_spi_writenb adc_cmd ;;
  d <- gets spi_delay_usecs ;;
  usleep d ;;
  LOG LOG_NOTICE ;;
  SetShieldMode NONE ;;
  VerifyAndFixShieldMode NONE.

(** ** Name-based wrappers *)

(** [strncpy(port_char, param + strlen("shield.cnx"), 1)] takes the
    character at index 10, none when the name ends there. *)
Definition RpcDigitalRead (param : option string) : M Z :=
  match param with
  | None => undefined
  | Some param =>
      (* param + strlen("shield.cnx") must stay inside the string *)
      if (String.length param <? 10)%nat then undefined
      else
        let port_char := substring 10 1 param in
        match atoi port_char with
        | None => undefined
        | Some port_num =>
            let port_num := if 0 =? port_num then 10 else port_num in
            r <- PinMode (to_uint port_num) DIO ;;
            if -1 =? r then ret (-1)
            else
              res <- DigitalRead (to_uint port_num) ;;
              ret res
        end
  end.

Definition RpcChangeMode (param value : option string) : M Z :=
  match param, value with
  | Some param, Some value =>
      (* param + strlen("shield.cn") must stay inside the string *)
      if (String.length param <? 9)%nat then undefined
      else
        let port_str := substring 9 2 param in
        match atoi port_str with
        | None => undefined
        | Some n =>
            let port_num := n - 10 in
            let mode := SPI in
            let mode :=
              if strncmp "dio" value 1 =? 0 then DIO
              else if strncmp "spi" value 2 =? 0 then SPI
              else if strncmp "sio" value 2 =? 0 then SIO
              else mode in
            res <- PinMode (to_uint port_num) mode ;;
            ret res
        end
  | _, _ => undefined
  end.

(** The two [if]s of one [case] of the switch in [RpcPinWrite]; [None]
    when neither assigns [pin_map_num]. *)
Definition pin_of_case (pin_num p2 p4 : Z) : option Z :=
  if pin_num =? 4 then Some p4
  else if pin_num =? 2 then Some p2
  else None.

(** [switch (port_str[1])]: [None] for the [default] case, [Some None] when
    the case leaves [pin_map_num] uninitialised. *)
Definition pin_map (c : ascii) (pin_num : Z) : option (option Z) :=
  if Ascii.eqb c "1" then Some (pin_of_case pin_num CN11_2 CN11_4)
  else if Ascii.eqb c "2" then Some (pin_of_case pin_num CN12_2 CN12_4)
  else if Ascii.eqb c "3" then Some (pin_of_case pin_num CN13_2 CN13_4)
  else if Ascii.eqb c "4" then Some (pin_of_case pin_num CN14_2 CN14_4)
  else if Ascii.eqb c "5" then Some (pin_of_case pin_num CN15_2 CN15_4)
  else if Ascii.eqb c "6" then Some (pin_of_case pin_num CN16_2 CN16_4)
  else if Ascii.eqb c "7" then Some (pin_of_case pin_num CN17_2 CN17_4)
  else if Ascii.eqb c "8" then Some (pin_of_case pin_num CN18_2 CN18_4)
  else if Ascii.eqb c "9" then Some (pin_of_case pin_num CN19_2 CN19_4)
  else if Ascii.eqb c "0" then Some (pin_of_case pin_num CN20_2 CN20_4)
  else None.

Definition RpcPinWrite (param value : option string) : M Z :=
  match param with
  | None => LOG LOG_ERROR ;; ret (-1)
  | Some EmptyString => LOG LOG_ERROR ;; ret (-1)
  | Some (String c0 rest) =>
      if Ascii.eqb c0 "g" then LOG LOG_ERROR ;; ret (-1)
      else
        let param_cpy := buffer_of (String c0 rest) in
        match option_map atoi value with
        | None | Some None => undefined
        | Some (Some value_num) =>
            if negb (0 =? value_num) && negb (1 =? value_num) then
              LOG LOG_ERROR ;;
              ret (-1)
            else
              let '(tok, buf, save) := strtok "." param_cpy 0 in
              match tok with
              | None => LOG LOG_ERROR ;; ret (-1)
              | Some _ =>
                  let '(port_tok, buf, save) := strtok "." buf save in
                  let '(pin_str, buf, save) := strtok "." buf save in
                  match port_tok, pin_str with
                  | Some port_tok, Some pin_str =>
                      let port_str := (port_tok + 2)%nat in
                      match atoi (string_at buf pin_str) with
                      | None => undefined
                      | Some pin_num =>
                          match pin_map (nth (port_str + 1) buf zero)
                                        pin_num with
                          | None => ret (-1)
                          | Some pin_map_num =>
                              match atoi (string_at buf port_str) with
                              | None => undefined
                              | Some port =>
                                  _ <- PinMode (to_uint (port - 10)) DIO ;;
                                  match pin_map_num with
                                  | None => undefined
                                  | Some pin_map_num =>
                                      res <- DigitalWrite pin_map_num
                                                          value_num ;;
                                      ret res
                                  end
                              end
                          end
                      end
                  | _, _ =>
                      (* NULL + strlen("cn") or atoi(NULL) *)
                      undefined
                  end
              end
        end
  end.

End Shield.

(** ** Test doubles *)

(** The module's globals as initialised in shield.c, every line low, an
    empty configuration store, nothing called yet. *)
Definition boot : World :=
  mkWorld (0xFF, 0xFF) (0x00, 0x00) (0x00, 0x00) 0 500
          (fun _ => false) (fun _ => 0) [].

(** A healthy board: every line reads back the level driven on it. *)
Definition loopback : Platform :=
  mkPlatform (fun w pin => level w pin) (fun _ _ => 0)
             (fun _ _ => 0) (fun _ _ => 0) (fun _ => (0, 0)).

(** A wedged board: every line reads low whatever is driven. *)
Definition wedged : Platform :=
  mkPlatform (fun _ _ => false) (fun _ _ => 0)
             (fun _ _ => 0) (fun _ _ => 0) (fun _ => (0, 0)).

(** A healthy board whose peripheral answers the given bytes on every
    duplex read. *)
Definition answering (rx : list Z) : Platform :=
  mkPlatform (fun w pin => level w pin) (fun _ i => nth i rx 0)
             (fun _ _ => 0) (fun _ _ => 0) (fun _ => (0, 0)).

Definition with_rebootcount (n : Z) (w : World) : World :=
  store_param "shield.rebootcount" n w.

(** ** Observations on worlds and traces *)

(** The levels driven on the seven select lines, line 6 first. *)
Definition line_levels (w : World) : list bool :=
  [level w GPIO_GEN6; level w GPIO_GEN5; level w GPIO_GEN4;
   level w GPIO_GEN3; level w GPIO_GEN2; level w GPIO_GEN1;
   level w GPIO_GEN0].

(** The low seven bits of a mode code, bit 6 first. *)
Definition bits7 (z : Z) : list bool :=
  [Z.testbit z 6; Z.testbit z 5; Z.testbit z 4; Z.testbit z 3;
   Z.testbit z 2; Z.testbit z 1; Z.testbit z 0].

(** The seven reads of one evaluation of [GetShieldMode]. *)
Definition poll_events : list Event :=
  [Ev_gpio_lev GPIO_GEN6; Ev_gpio_lev GPIO_GEN5; Ev_gpio_lev GPIO_GEN4;
   Ev_gpio_lev GPIO_GEN3; Ev_gpio_lev GPIO_GEN2; Ev_gpio_lev GPIO_GEN1;
   Ev_gpio_lev GPIO_GEN0].

(** Every evaluation of [GetShieldMode] reads line 6 once: the polls of a
    trace are its reads of [GPIO_GEN6]. *)
Definition is_poll (e : Event) : bool :=
  match e with
  | Ev_gpio_lev pin => pin =? GPIO_GEN6
  | _ => false
  end.

Definition polls (evs : list Event) : nat := List.length (filter is_poll evs).

(** The world with [evs] appended to its trace. *)
Definition after (evs : list Event) (w : World) : World :=
  set_trace (trace w ++ evs) w.

(** The value [GetShieldMode] would sample in [w]. *)
Definition sampled (P : Platform) (w : World) : Z :=
  match GetShieldMode P w with
  | Returned m _ => m
  | _ => 0
  end.

(** A board whose lines read back what is driven on them. *)
Definition readback (P : Platform) : Prop :=
  forall w pin, sense P w pin = level w pin.

(** The registers the module keeps in memory. *)
Definition registers (w : World) : (Z * Z) * (Z * Z) * (Z * Z) :=
  (internalRegister w, outputRegister1 w, outputRegister2 w).


(** The closing sequence of the pin operations: back to [NONE], then
    verify. *)
Definition idle_sequence (P : Platform) : M unit :=
  SetShieldMode NONE ;; VerifyAndFixShieldMode P NONE.

(** [w] is a world in which a switch to [NONE] has just been verified. *)
Definition idle_verified (P : Platform) (w : World) : Prop :=
  exists w0, idle_sequence P w0 = Returned tt w.

(** The combinations of bus segment and mode that [PinMode] takes. *)
Definition assignable (segment mode : Z) : Prop :=
  (mode <> SPI \/ segment <= 8) /\ (mode <> SIO \/ segment = 10).

(** A register array as the 16-bit word of the layout tables in shield.c:
    element 0 holds bits 15..8, element 1 holds bits 7..0. *)
Definition word16 (r : Z * Z) : Z := Z.lor (Z.shiftl (fst r) 8) (snd r).

(** Every element of the output register arrays is a [uint8_t]. *)
Definition byte (b : Z) : Prop := 0 <= b < 256.
Definition output_bytes (w : World) : Prop :=
  byte (fst (outputRegister1 w)) /\ byte (snd (outputRegister1 w)) /\
  byte (fst (outputRegister2 w)) /\ byte (snd (outputRegister2 w)).

(** The world a call ends in, when it ends. *)
Definition final_world {A} (o : Outcome A) : option World :=
  match o with
  | Returned _ w | Exited _ w | Undefined w => Some w
  | OutOfFuel => None
  end.

(** The world [SetShieldMode mode] leaves behind. *)
Definition switched (mode : Z) (w : World) : World :=
  match SetShieldMode mode w with
  | Returned _ w' => w'
  | _ => w
  end.

(** The world in which [AnalogRead] makes its two-byte duplex read, and the
    two bytes it receives there. *)
Definition AnalogRead_rx_world (port_num : Z) (w : World) : World :=
  after [Ev_spi_transfer (nth (Z.to_nat port_num) adcConversion 0);
         Ev_usleep (spi_delay_usecs w)]
        (switched ADC w).

Definition AnalogRead_rbuf (P : Platform) (port_num : Z) (w : World) : Z * Z :=
  (to_uint8 (miso P (AnalogRead_rx_world port_num w) 0%nat),
   to_uint8 (miso P (AnalogRead_rx_world port_num w) 1%nat)).

(** The world in which [DigitalRead] makes its duplex read, and the input
    register it receives there. *)
Definition DigitalRead_rx_world (w : World) : World := switched INPUT_REG w.

Definition DigitalRead_inputRegister (P : Platform) (w : World) : Z * Z :=
  (to_uint8 (miso P (DigitalRead_rx_world w) 0%nat),
   to_uint8 (miso P (DigitalRead_rx_world w) 1%nat)).

(** A call that, when it returns, returns from a verified idle bus; the
    only other way out is the verifier's [exit]. *)
Definition ends_idle {A} (P : Platform) (o : Outcome A) : Prop :=
  match o with
  | Returned _ w' => idle_verified P w'
  | Exited s _ => s = FALSE
  | Undefined _ | OutOfFuel => False
  end.

(** An SPI exchange appears in the trace. *)
Definition is_spi (e : Event) : bool :=
  match e with
  | Ev_spi_writenb _ | Ev_spi_transfer _ | Ev_spi_transfern _ => true
  | _ => false
  end.

(** A call that ends by running the closing sequence and then hands its
    result to the caller. *)
Definition closes_with {A} (P : Platform) (o : Outcome A) : Prop :=
  exists w0 a,
    o = match idle_sequence P w0 with
        | Returned _ w' => Returned a w'
        | Exited s w' => Exited s w'
        | Undefined w' => Undefined w'
        | OutOfFuel => OutOfFuel
        end.

(** Log entries are the only events that reach no hardware. *)
Definition is_log (e : Event) : bool :=
  match e with
  | Ev_LOG _ => true
  | _ => false
  end.

(** Characters of a name component: neither the separator nor NUL. *)
Definition plain (l : list ascii) : Prop :=
  Forall (fun c => c <> "."%char /\ c <> zero) l.

(** A component of a dotted name: at least one character, all plain. *)
Definition component (s : string) : Prop :=
  s <> EmptyString /\ plain (list_ascii_of_string s).

(** The arguments [RpcPinWrite] turns down before any shield operation:
    a NULL or empty name or one that begins with 'g'; with a non-empty
    name, a value that [atoi] parses to something other than 0 or 1; a name
    made of separators only, with a value that parses; a name of three
    components whose third parses, with a value that parses, and whose
    second has at least three characters and, at index 3 (the second
    character after "cn"), no decimal digit: it ends there, or another
    character stands there.  A second component of fewer than three
    characters is left out: index 3 is then past its terminator, in the
    third component. *)
Inductive rejected_argument : option string -> option string -> Prop :=
| rejected_null value :
    rejected_argument None value
| rejected_empty value :
    rejected_argument (Some EmptyString) value
| rejected_g rest value :
    rejected_argument (Some (String "g" rest)) value
| rejected_value c0 rest value n :
    atoi value = Some n -> n <> 0 -> n <> 1 ->
    rejected_argument (Some (String c0 rest)) (Some value)
| rejected_no_token c0 rest value n :
    Forall (fun c => c = "."%char) (list_ascii_of_string (String c0 rest)) ->
    atoi value = Some n ->
    rejected_argument (Some (String c0 rest)) (Some value)
| rejected_port_digit a b c value n pin_num :
    component a -> component b -> component c ->
    atoi value = Some n ->
    atoi c = Some pin_num ->
    (3 <= String.length b)%nat ->
    isdigit (nth 3 (list_ascii_of_string b) zero) = false ->
    rejected_argument (Some (a ++ "." ++ b ++ "." ++ c)%string) (Some value).

(** ** Further observations *)

(** [k] failed samples of the verifier: each a poll followed by the
    [sampling_count] log entry. *)
Fixpoint failed_samples (k : nat) : list Event :=
  match k with
  | O => []
  | S k' => poll_events ++ [Ev_LOG LOG_ERROR] ++ failed_samples k'
  end.

(** A board that reads every line low until [n] polls have begun, and
    reads back the driven levels from then on. *)
Definition glitching (n : nat) : Platform :=
  mkPlatform (fun w pin => if (polls (trace w) <? n)%nat then false
                           else level w pin)
             (fun _ _ => 0) (fun _ _ => 0) (fun _ _ => 0) (fun _ => (0, 0)).

Definition is_reboot (e : Event) : bool :=
  match e with
  | Ev_system _ => true
  | _ => false
  end.

(** What one failing run of the verifier leaves for the next boot: the
    persisted counter, and whether a reboot command went out. *)
Definition rebootcount_after (P : Platform) (mode : Z) (w : World) : Z :=
  match VerifyAndFixShieldMode P mode w with
  | Returned _ w' | Exited _ w' | Undefined w' =>
      params w' "shield.rebootcount"
  | OutOfFuel => params w "shield.rebootcount"
  end.

Definition reboot_issued (P : Platform) (mode : Z) (w : World) : bool :=
  match VerifyAndFixShieldMode P mode w with
  | Returned _ w' | Exited _ w' | Undefined w' =>
      existsb is_reboot (skipn (List.length (trace w)) (trace w'))
  | OutOfFuel => false
  end.

(** The level latched for an output pin: its bit in the register words of
    the layout tables (pins 1..16 in register 1, 17..20 in register 2). *)
Definition pin_bit (w : World) (pin : Z) : bool :=
  if pin <=? 16 then Z.testbit (word16 (outputRegister1 w)) (pin - 1)
  else Z.testbit (word16 (outputRegister2 w)) (pin - 17).

(** [port_str + strlen("cn")]: a component without its first two
    characters. *)
Definition after_cn (b : string) : string :=
  match b with
  | String _ (String _ rest) => rest
  | _ => EmptyString
  end.

(** The bus segment a port digit stands for in [RpcPinWrite]: CN11..CN19
    for '1'..'9', CN20 for '0'. *)
Definition digit_segment (d : ascii) : Z :=
  if Ascii.eqb d "0" then 10 else code d - 48.
(** * Properties *)

Lemma after_after evs1 evs2 w :
  after evs2 (after evs1 w) = after (evs1 ++ evs2) w.
Proof. unfold after, set_trace; cbn. now rewrite app_assoc. Qed.

Lemma after_nil w : after [] w = w.
Proof. destruct w; unfold after, set_trace; cbn. now rewrite app_nil_r. Qed.

Lemma emit_after e w : emit e w = Returned tt (after [e] w).
Proof. reflexivity. Qed.

Lemma bind_Returned {A B} (m : M A) (f : A -> M B) w a w' :
  m w = Returned a w' -> bind m f w = f a w'.
Proof. unfold bind. now intros ->. Qed.

Section Selector.

Variable P : Platform.

Lemma bcm2835_gpio_lev_run pin w :
  bcm2835_gpio_lev P pin w =
    Returned (if sense P w pin then HIGH else LOW) (after [Ev_gpio_lev pin] w).
Proof. reflexivity. Qed.

Lemma GetShieldMode_world w :
  exists m, GetShieldMode P w = Returned m (after poll_events w).
Proof.
  unfold GetShieldMode.
  do 7 (erewrite bind_Returned by apply bcm2835_gpio_lev_run; cbv beta).
  rewrite !after_after. cbn [app]. eexists. reflexivity.
Qed.

Lemma GetShieldMode_run w :
  GetShieldMode P w = Returned (sampled P w) (after poll_events w).
Proof.
  destruct (GetShieldMode_world w) as (m & E).
  unfold sampled. now rewrite E.
Qed.

Lemma sampled_readback w :
  readback P ->
  sampled P w =
    Z.shiftl (Z.b2z (level w GPIO_GEN6)) 6 +
    Z.shiftl (Z.b2z (level w GPIO_GEN5)) 5 +
    Z.shiftl (Z.b2z (level w GPIO_GEN4)) 4 +
    Z.shiftl (Z.b2z (level w GPIO_GEN3)) 3 +
    Z.shiftl (Z.b2z (level w GPIO_GEN2)) 2 +
    Z.shiftl (Z.b2z (level w GPIO_GEN1)) 1 +
    Z.b2z (level w GPIO_GEN0).
Proof.
  intros Hrb.
  unfold sampled, GetShieldMode, bind, bcm2835_gpio_lev, ret; cbn.
  rewrite !Hrb; cbn [level set_trace].
  unfold HIGH, LOW.
  destruct (level w GPIO_GEN6), (level w GPIO_GEN5), (level w GPIO_GEN4),
    (level w GPIO_GEN3), (level w GPIO_GEN2), (level w GPIO_GEN1),
    (level w GPIO_GEN0); reflexivity.
Qed.

Lemma sampled_after evs w :
  readback P -> sampled P (after evs w) = sampled P w.
Proof. intros Hrb. now rewrite !sampled_readback. Qed.

Lemma sampled_of_levels mode w :
  readback P -> In mode ShieldMode_values ->
  line_levels w = bits7 mode -> sampled P w = mode.
Proof.
  intros Hrb Hin Hl. rewrite sampled_readback by assumption.
  unfold line_levels in Hl.
  unfold ShieldMode_values in Hin; cbn [In] in Hin.
  repeat (destruct Hin as [<- | Hin]; [ injection Hl as -> -> -> -> -> -> ->; reflexivity | ]).
  contradiction.
Qed.

End Selector.

(** On closed inputs the world an operation ends in is found by running
    it. *)
Ltac exists_world_of o :=
  let r := eval vm_compute in o in
  match r with
  | Returned _ ?w1 => exists w1
  | Exited _ ?w1 => exists w1
  | Undefined ?w1 => exists w1
  end.

Ltac exists_outcome_world :=
  match goal with
  | |- exists w', ?o = _ /\ _ => exists_world_of o
  | |- exists w', ?o = _ => exists_world_of o
  end.

Lemma polls_app evs1 evs2 : polls (evs1 ++ evs2) = (polls evs1 + polls evs2)%nat.
Proof. unfold polls. now rewrite filter_app, length_app. Qed.

(** What [SetShieldMode] leaves alone, whatever the mode. *)
Lemma SetShieldMode_frame mode w :
  exists w' evs,
    SetShieldMode mode w = Returned tt w' /\
    registers w' = registers w /\
    params w' = params w /\
    spi_delay_usecs w' = spi_delay_usecs w /\
    gpio_delay_usecs w' = gpio_delay_usecs w /\
    trace w' = trace w ++ evs /\
    polls evs = 0%nat.
Proof.
  unfold SetShieldMode.
  destruct (mode =? INIT_ALL_LOW); [ | destruct (mode =? NONE);
    [ | destruct (mode =? DAC); [ | destruct (mode =? RTC);
    [ | destruct (mode =? INTERNAL_REG); [ | destruct (mode =? OUTPUT_REG_1);
    [ | destruct (mode =? OUTPUT_REG_2); [ | destruct (mode =? INPUT_REG) ]]]]]]];
  cbv [bind ret emit modify gets bcm2835_gpio_fsel bcm2835_gpio_write usleep
       set_trace set_level registers internalRegister outputRegister1
       outputRegister2 params spi_delay_usecs gpio_delay_usecs trace level];
  (eexists; eexists; split; [ reflexivity | ]);
  cbn [registers internalRegister outputRegister1 outputRegister2 params
       spi_delay_usecs gpio_delay_usecs trace];
  repeat rewrite <- app_assoc; cbn [app];
  (repeat split; reflexivity).
Qed.

(** [SetShieldMode] of a given mode is run by computation. *)
Ltac run_SetShieldMode :=
  match goal with
  | |- exists w', SetShieldMode ?m ?w = Returned tt w' /\ _ =>
      let o := eval vm_compute in (SetShieldMode m w) in
      match o with
      | Returned tt ?w1 =>
          exists w1; split; vm_compute; reflexivity
      end
  end.

(** After [SetShieldMode] of one of the nine modes, line i carries bit i of
    the mode's code. *)
Lemma SetShieldMode_levels mode w :
  In mode ShieldMode_values ->
  exists w', SetShieldMode mode w = Returned tt w' /\
             line_levels w' = bits7 mode.
Proof.
  unfold ShieldMode_values; cbn [In]; intros Hin.
  repeat (destruct Hin as [<- | Hin]; [ run_SetShieldMode | ]).
  contradiction.
Qed.

Lemma bits7_injective m1 m2 :
  In m1 ShieldMode_values -> In m2 ShieldMode_values ->
  bits7 m1 = bits7 m2 -> m1 = m2.
Proof.
  unfold ShieldMode_values; cbn [In]; intros H1 H2.
  repeat (destruct H1 as [<- | H1]; [ | ]); try contradiction;
  repeat (destruct H2 as [<- | H2]; [ | ]); try contradiction;
  intros E; try reflexivity; discriminate E.
Qed.

Section Verifier.

Variable P : Platform.

(** One evaluation of the loop condition of [VerifyAndFixShieldMode], and
    what follows it. *)
Lemma verify_loop_step fuel mode sc w :
  verify_loop P (S fuel) mode sc w =
    if sampled P w =? mode then Returned tt (after poll_events w)
    else if sc >? MAX_SAMPLING_RETRY_TIME then
      let c := params w "shield.rebootcount" in
      if c >? MAX_REBOOT_RETRY_TIME then
        Exited FALSE
          (after [Ev_spi_end; Ev_close]
             (store_param "shield.rebootcount" 0
                (after (poll_events ++
                        [Ev_GetParamInt "shield.rebootcount";
                         Ev_LOG LOG_ERROR;
                         Ev_SetParam "shield.rebootcount" 0]) w)))
      else
        Exited FALSE
          (after [Ev_LOG LOG_ERROR; Ev_system "sudo reboot"]
             (store_param "shield.rebootcount" (c + 1)
                (after (poll_events ++
                        [Ev_GetParamInt "shield.rebootcount";
                         Ev_SetParam "shield.rebootcount" (c + 1)]) w)))
    else verify_loop P fuel mode (sc + 1)
           (after (poll_events ++ [Ev_LOG LOG_ERROR]) w).
Proof.
  cbn [verify_loop]. unfold bind at 1. rewrite GetShieldMode_run.
  destruct (sampled P w =? mode); cbn [negb]; [ reflexivity | ].
  destruct (sc >? MAX_SAMPLING_RETRY_TIME).
  - unfold bind, GetParamInt, gets, emit, LOG, SetParam, ShieldLibClose,
      bcm2835_spi_end, bcm2835_close, system, modify, exit, bind.
    cbn [params set_trace after].
    destruct (params w "shield.rebootcount" >? MAX_REBOOT_RETRY_TIME);
      unfold after, store_param, set_params, set_trace, poll_events; cbn;
      repeat rewrite <- app_assoc; reflexivity.
  - unfold bind, ret, LOG, emit. fold (after [Ev_LOG LOG_ERROR] (after poll_events w)).
    now rewrite after_after.
Qed.

(** The verifier returns at once when the first sample matches. *)
Lemma VerifyAndFixShieldMode_match mode w :
  sampled P w = mode ->
  VerifyAndFixShieldMode P mode w = Returned tt (after poll_events w).
Proof.
  intros H. unfold VerifyAndFixShieldMode.
  change (Z.to_nat (MAX_SAMPLING_RETRY_TIME + 1)) with 4%nat.
  rewrite verify_loop_step. now rewrite H, Z.eqb_refl.
Qed.

(** With fuel for the evaluations of the loop condition still to come, the
    loop returns after a matching sample, having touched nothing but the
    trace, or leaves through [exit] with the registers and lines as they
    were. *)
Lemma verify_loop_cases fuel : forall mode sc w,
  (Z.to_nat (MAX_SAMPLING_RETRY_TIME + 1 - sc) < fuel)%nat ->
  match verify_loop P fuel mode sc w with
  | Returned _ w' =>
      exists evs, w' = after (evs ++ poll_events) w /\
                  sampled P (after evs w) = mode
  | Exited s w' =>
      s = FALSE /\ registers w' = registers w /\ level w' = level w
  | Undefined _ | OutOfFuel => False
  end.
Proof.
  induction fuel as [ | fuel IH]; intros mode sc w Hfuel; [ lia | ].
  rewrite verify_loop_step.
  destruct (sampled P w =? mode) eqn:E.
  { exists []. rewrite after_nil. split; [ reflexivity | now apply Z.eqb_eq ]. }
  destruct (sc >? MAX_SAMPLING_RETRY_TIME) eqn:Esc.
  { cbv zeta.
    destruct (params w "shield.rebootcount" >? MAX_REBOOT_RETRY_TIME);
      repeat split. }
  assert (Hfuel' : (Z.to_nat (MAX_SAMPLING_RETRY_TIME + 1 - (sc + 1)) < fuel)%nat)
    by (unfold MAX_SAMPLING_RETRY_TIME in *; lia).
  specialize (IH mode (sc + 1) (after (poll_events ++ [Ev_LOG LOG_ERROR]) w)
                 Hfuel').
  destruct (verify_loop P fuel mode (sc + 1) _) as [[] w' | s w' | w' | ];
    try contradiction.
  - destruct IH as (evs & -> & Hs).
    exists ((poll_events ++ [Ev_LOG LOG_ERROR]) ++ evs).
    rewrite !after_after in *. rewrite <- app_assoc. split; [ reflexivity | exact Hs ].
  - exact IH.
Qed.

(** The verifier is total. *)
Lemma VerifyAndFixShieldMode_cases mode w :
  match VerifyAndFixShieldMode P mode w with
  | Returned _ w' =>
      exists evs, w' = after (evs ++ poll_events) w /\
                  sampled P (after evs w) = mode
  | Exited s w' =>
      s = FALSE /\ registers w' = registers w /\ level w' = level w
  | Undefined _ | OutOfFuel => False
  end.
Proof.
  apply verify_loop_cases. unfold MAX_SAMPLING_RETRY_TIME. cbn. lia.
Qed.

Corollary VerifyAndFixShieldMode_total mode w :
  VerifyAndFixShieldMode P mode w <> OutOfFuel.
Proof.
  intros H. pose proof (VerifyAndFixShieldMode_cases mode w) as C.
  now rewrite H in C.
Qed.

(** C1 (amended): when every sample of [GetShieldMode] differs from the
    requested mode, [VerifyAndFixShieldMode] polls exactly four times (the
    first sample and [MAX_SAMPLING_RETRY_TIME] = 3 more), logging after each
    of the first three, and only then reads the persisted reboot counter.
    If the counter exceeds 3 it stores 0, closes the transport and leaves
    through [exit] with no reboot command; otherwise it stores the counter
    plus one, issues [sudo reboot] and leaves through [exit].  It never
    returns to its caller, and the registers are untouched. *)
Theorem VerifyAndFixShieldMode_never_matching mode w :
  (forall w', sampled P w' <> mode) ->
  let c := params w "shield.rebootcount" in
  exists w' evs,
    VerifyAndFixShieldMode P mode w = Exited FALSE w' /\
    trace w' = trace w ++ evs /\
    evs = poll_events ++ [Ev_LOG LOG_ERROR] ++
          poll_events ++ [Ev_LOG LOG_ERROR] ++
          poll_events ++ [Ev_LOG LOG_ERROR] ++
          poll_events ++ [Ev_GetParamInt "shield.rebootcount"] ++
          (if c >? 3
           then [Ev_LOG LOG_ERROR; Ev_SetParam "shield.rebootcount" 0;
                 Ev_spi_end; Ev_close]
           else [Ev_SetParam "shield.rebootcount" (c + 1);
                 Ev_LOG LOG_ERROR; Ev_system "sudo reboot"]) /\
    polls evs = 4%nat /\
    params w' "shield.rebootcount" = (if c >? 3 then 0 else c + 1) /\
    registers w' = registers w.
Proof.
  intros Hne c.
  assert (Hs : forall w', (sampled P w' =? mode) = false)
    by (intros w'; apply Z.eqb_neq, Hne).
  unfold VerifyAndFixShieldMode.
  change (Z.to_nat (MAX_SAMPLING_RETRY_TIME + 1)) with 4%nat.
  rewrite verify_loop_step, Hs.
  change (1 >? MAX_SAMPLING_RETRY_TIME) with false; cbv iota.
  rewrite verify_loop_step, Hs.
  change (1 + 1 >? MAX_SAMPLING_RETRY_TIME) with false; cbv iota.
  rewrite verify_loop_step, Hs.
  change (1 + 1 + 1 >? MAX_SAMPLING_RETRY_TIME) with false; cbv iota.
  rewrite verify_loop_step, Hs.
  change (1 + 1 + 1 + 1 >? MAX_SAMPLING_RETRY_TIME) with true; cbv iota zeta.
  rewrite !after_after.
  cbn [params after set_trace]. fold c.
  unfold MAX_REBOOT_RETRY_TIME.
  destruct (c >? 3); eexists; eexists;
    (split; [ reflexivity | ]);
    (split; [ cbn [trace after set_trace store_param set_params];
              rewrite <- !app_assoc; reflexivity | ]);
    (split; [ reflexivity | ]);
    repeat split.
Qed.

End Verifier.

(** The verifier on the wedged board, counter at 2: the counter becomes 3
    and the reboot is issued after four polls. *)
Lemma VerifyAndFixShieldMode_never_matching_wedged :
  (forall w', sampled wedged w' <> NONE) /\
  exists w' evs,
    VerifyAndFixShieldMode wedged NONE (with_rebootcount 2 boot)
      = Exited FALSE w' /\
    trace w' = trace (with_rebootcount 2 boot) ++ evs /\
    evs = poll_events ++ [Ev_LOG LOG_ERROR] ++
          poll_events ++ [Ev_LOG LOG_ERROR] ++
          poll_events ++ [Ev_LOG LOG_ERROR] ++
          poll_events ++ [Ev_GetParamInt "shield.rebootcount"] ++
          [Ev_SetParam "shield.rebootcount" 3;
           Ev_LOG LOG_ERROR; Ev_system "sudo reboot"] /\
    polls evs = 4%nat /\
    params w' "shield.rebootcount" = 3 /\
    registers w' = registers (with_rebootcount 2 boot).
Proof.
  split.
  - intros w'. vm_compute. discriminate.
  - apply (VerifyAndFixShieldMode_never_matching wedged NONE
             (with_rebootcount 2 boot)).
    intros w'. vm_compute. discriminate.
Defined.

(** The claim's count of three polls fails on the wedged board: the counter
    is read only after the fourth poll. *)
Lemma VerifyAndFixShieldMode_three_polls_refuted :
  (forall w', sampled wedged w' <> NONE) /\
  exists w',
    VerifyAndFixShieldMode wedged NONE (with_rebootcount 2 boot)
      = Exited FALSE w' /\
    trace w' =
      poll_events ++ [Ev_LOG LOG_ERROR] ++
      poll_events ++ [Ev_LOG LOG_ERROR] ++
      poll_events ++ [Ev_LOG LOG_ERROR] ++
      poll_events ++
      [Ev_GetParamInt "shield.rebootcount";
       Ev_SetParam "shield.rebootcount" 3;
       Ev_LOG LOG_ERROR; Ev_system "sudo reboot"] /\
    polls (trace w') = 4%nat /\
    polls (trace w') <> 3%nat.
Proof.
  split.
  - intros w'. vm_compute. discriminate.
  - exists_outcome_world. split; [ vm_compute; reflexivity | ].
    split; [ reflexivity | ].
    split; [ reflexivity | ].
    vm_compute. discriminate.
Qed.

Section Idle.

Variable P : Platform.

(** The closing sequence leaves the registers alone and the lines on the
    [NONE] pattern, however it ends; it never runs out of fuel. *)
Lemma idle_sequence_cases w :
  match idle_sequence P w with
  | Returned _ w' =>
      registers w' = registers w /\ line_levels w' = bits7 NONE /\
      params w' = params w /\ spi_delay_usecs w' = spi_delay_usecs w
  | Exited s w' =>
      s = FALSE /\ registers w' = registers w /\ line_levels w' = bits7 NONE
  | Undefined _ | OutOfFuel => False
  end.
Proof.
  unfold idle_sequence.
  destruct (SetShieldMode_frame NONE w)
    as (w1 & evs & E & Hreg & Hpar & Hspi & _ & _ & _).
  destruct (SetShieldMode_levels NONE w) as (w1' & E' & Hlev);
    [ cbn; tauto | ].
  rewrite E in E'; injection E' as <-.
  rewrite (bind_Returned _ _ _ _ _ E).
  pose proof (VerifyAndFixShieldMode_cases P NONE w1) as C.
  destruct (VerifyAndFixShieldMode P NONE w1) as [[] w2 | s w2 | w2 | ];
    try contradiction.
  - destruct C as (evs' & -> & _). repeat split; assumption.
  - destruct C as (-> & Hr & Hl). repeat split.
    + now rewrite Hr.
    + unfold line_levels in *. now rewrite Hl.
Qed.

(** On a board that reads back its lines the closing sequence returns. *)
Lemma idle_sequence_healthy w :
  readback P -> exists w', idle_sequence P w = Returned tt w'.
Proof.
  intros Hrb. unfold idle_sequence.
  destruct (SetShieldMode_levels NONE w) as (w1 & E & Hlev);
    [ cbn; tauto | ].
  rewrite (bind_Returned _ _ _ _ _ E).
  eexists. apply VerifyAndFixShieldMode_match.
  apply sampled_of_levels; [ assumption | cbn; tauto | assumption ].
Qed.

End Idle.

Section Healthy.

Variable P : Platform.
Hypothesis Hrb : readback P.

(** C2 (amended): for each of the nine [ShieldMode] values, [SetShieldMode]
    drives line i to bit i of the mode's code.  The pattern is 0000000 for
    [INIT_ALL_LOW], 1110000 for [NONE] and in the 1111xxx family for the
    seven others; no two modes share a pattern; and on a board that reads
    back its lines a following [GetShieldMode] (line 6 most significant)
    returns the mode's code, changing nothing but the trace. *)
Theorem SetShieldMode_GetShieldMode_round_trip mode w :
  In mode ShieldMode_values ->
  exists w',
    SetShieldMode mode w = Returned tt w' /\
    line_levels w' = bits7 mode /\
    (mode = INIT_ALL_LOW ->
     line_levels w' = [false; false; false; false; false; false; false]) /\
    (mode = NONE ->
     line_levels w' = [true; true; true; false; false; false; false]) /\
    (mode <> INIT_ALL_LOW -> mode <> NONE ->
     firstn 4 (line_levels w') = [true; true; true; true]) /\
    (forall mode' w0 w0',
       In mode' ShieldMode_values ->
       SetShieldMode mode' w0 = Returned tt w0' ->
       line_levels w0' = line_levels w' -> mode' = mode) /\
    GetShieldMode P w' = Returned mode (after poll_events w').
Proof.
  intros Hin.
  destruct (SetShieldMode_levels mode w Hin) as (w' & E & Hlev).
  exists w'. split; [ exact E | ]. split; [ exact Hlev | ].
  rewrite Hlev.
  split; [ now intros -> | ]. split; [ now intros -> | ].
  split.
  { intros H0 H1. unfold ShieldMode_values in Hin; cbn [In] in Hin.
    repeat (destruct Hin as [<- | Hin]; [ try reflexivity; congruence | ]).
    contradiction. }
  split.
  { intros mode' w0 w0' Hin' E' Hl.
    destruct (SetShieldMode_levels mode' w0 Hin') as (w0'' & E'' & Hlev').
    rewrite E' in E''; injection E'' as <-.
    apply bits7_injective; congruence. }
  rewrite GetShieldMode_run. f_equal.
  now apply sampled_of_levels.
Qed.

End Healthy.

Lemma readback_loopback : readback loopback.
Proof. intros w pin. reflexivity. Qed.

(** The round trip for [OUTPUT_REG_2] on the loop-back board. *)
Lemma SetShieldMode_GetShieldMode_round_trip_OUTPUT_REG_2 :
  exists w',
    SetShieldMode OUTPUT_REG_2 boot = Returned tt w' /\
    line_levels w' = bits7 OUTPUT_REG_2 /\
    (OUTPUT_REG_2 = INIT_ALL_LOW ->
     line_levels w' = [false; false; false; false; false; false; false]) /\
    (OUTPUT_REG_2 = NONE ->
     line_levels w' = [true; true; true; false; false; false; false]) /\
    (OUTPUT_REG_2 <> INIT_ALL_LOW -> OUTPUT_REG_2 <> NONE ->
     firstn 4 (line_levels w') = [true; true; true; true]) /\
    (forall mode' w0 w0',
       In mode' ShieldMode_values ->
       SetShieldMode mode' w0 = Returned tt w0' ->
       line_levels w0' = line_levels w' -> mode' = OUTPUT_REG_2) /\
    GetShieldMode loopback w' = Returned OUTPUT_REG_2 (after poll_events w').
Proof.
  apply (SetShieldMode_GetShieldMode_round_trip loopback).
  - intros w pin. reflexivity.
  - cbn. tauto.
Defined.

(** [NONE] is one of the nine modes, is not [INIT_ALL_LOW], and its pattern
    1110000 has line 3 low: it is outside the 1111xxx family. *)
Lemma NONE_pattern_outside_1111_family :
  In NONE ShieldMode_values /\ NONE <> INIT_ALL_LOW /\
  exists w',
    SetShieldMode NONE boot = Returned tt w' /\
    line_levels w' = [true; true; true; false; false; false; false] /\
    firstn 4 (line_levels w') <> [true; true; true; true].
Proof.
  split; [ cbn; tauto | ]. split; [ discriminate | ].
  exists_outcome_world. split; [ vm_compute; reflexivity | ].
  split; [ reflexivity | ].
  cbn. discriminate.
Qed.

(** *** Stepping through a computation *)

Lemma bind_emit {B} e (f : unit -> M B) w :
  bind (emit e) f w = f tt (after [e] w).
Proof. reflexivity. Qed.

Lemma bind_gets {A B} (g : World -> A) (f : A -> M B) w :
  bind (gets g) f w = f (g w) w.
Proof. reflexivity. Qed.

Lemma bind_modify {B} (g : World -> World) (f : unit -> M B) w :
  bind (modify g) f w = f tt (g w).
Proof. reflexivity. Qed.

Lemma bind_ret {A B} (a : A) (f : A -> M B) w : bind (ret a) f w = f a w.
Proof. reflexivity. Qed.

Lemma bind_assoc {A B C} (m : M A) (f : A -> M B) (g : B -> M C) w :
  bind (bind m f) g w = bind m (fun a => bind (f a) g) w.
Proof. unfold bind. destruct (m w); reflexivity. Qed.

(** A look-up inside its table yields the row and goes on; one outside
    ends the run. *)
Lemma bind_table_entry {B} table index (f : string -> M B) w :
  0 <= index < Z.of_nat (List.length table) ->
  bind (table_entry table index) f w =
    f (nth (Z.to_nat index) table EmptyString) w.
Proof.
  intros H. unfold table_entry.
  replace ((0 <=? index) && (index <? Z.of_nat (List.length table)))
    with true by lia.
  reflexivity.
Qed.

Lemma bind_table_entry_outside {B} table index (f : string -> M B) w :
  index < 0 \/ Z.of_nat (List.length table) <= index ->
  bind (table_entry table index) f w = Undefined w.
Proof.
  intros H. unfold table_entry.
  replace ((0 <=? index) && (index <? Z.of_nat (List.length table)))
    with false by lia.
  reflexivity.
Qed.

Lemma to_uint_id x : 0 <= x < 2 ^ 32 -> to_uint x = x.
Proof. intros H. unfold to_uint. apply Z.mod_small. exact H. Qed.

Ltac mstep :=
  unfold LOG, usleep, bcm2835_spi_writenb, on_internalRegister,
    on_outputRegister1, on_outputRegister2;
  repeat (first [ rewrite bind_emit | rewrite bind_gets
                | rewrite bind_modify | rewrite bind_ret ];
          cbv beta).

(** The look-ups the code makes on the paths that check their argument
    first stay inside their tables: segments 1..10, the three modes, pins
    1..20. *)
Lemma digi_port_rep_index seg :
  1 <= seg <= 10 ->
  0 <= to_uint (seg - 1) < Z.of_nat (List.length digi_port_rep).
Proof.
  intros H. rewrite to_uint_id by lia. cbn [digi_port_rep List.length]. lia.
Qed.

Lemma digi_mode_rep_index mode :
  In mode [DIO; SPI; SIO] ->
  0 <= mode < Z.of_nat (List.length digi_mode_rep).
Proof.
  cbn [In digi_mode_rep List.length]. unfold DIO, SPI, SIO. lia.
Qed.

Lemma digi_out_rep_index pin :
  1 <= pin <= 20 ->
  0 <= to_uint (pin - 1) < Z.of_nat (List.length digi_out_rep).
Proof.
  intros H. rewrite to_uint_id by lia. cbn [digi_out_rep List.length]. lia.
Qed.

Ltac tstep :=
  mstep;
  rewrite ?bind_table_entry
    by first [ apply digi_port_rep_index; lia
             | apply digi_out_rep_index; lia
             | apply digi_mode_rep_index; unfold DIO, SPI, SIO; cbn [In]; lia ];
  mstep.

Section Codec.

Variable P : Platform.

(** The rejecting branch of [PinMode]: log, closing sequence, -1. *)
Lemma PinMode_reject seg mode w :
  1 <= seg <= 10 ->
  (mode = SPI /\ 9 <= seg) \/ (mode = SIO /\ seg <> 10) ->
  PinMode P seg mode w =
    (idle_sequence P ;; ret (-1)) (after [Ev_LOG LOG_ERROR] w).
Proof.
  intros Hseg Hbad. unfold PinMode.
  replace ((seg >? 10) || (seg <? 1)) with false by lia.
  destruct Hbad as [[-> H] | [-> H]].
  - change (SPI =? DIO) with false. change (SPI =? SPI) with true. cbv iota.
    replace (seg <? 9) with false by lia.
    unfold idle_sequence, bind, LOG, emit, ret, after.
    destruct (SetShieldMode NONE _) as [[] w1 | | | ]; try reflexivity.
    destruct (VerifyAndFixShieldMode P NONE w1); reflexivity.
  - change (SIO =? DIO) with false. change (SIO =? SPI) with false.
    change (SIO =? SIO) with true. cbv iota.
    replace (seg =? 10) with false by lia.
    unfold idle_sequence, bind, LOG, emit, ret, after.
    destruct (SetShieldMode NONE _) as [[] w1 | | | ]; try reflexivity.
    destruct (VerifyAndFixShieldMode P NONE w1); reflexivity.
Qed.

(** The accepting path of [PinMode] returns 0 after the register update and
    the transmission in [INTERNAL_REG] mode; it never meets the verifier. *)
Lemma PinMode_accept seg mode w :
  1 <= seg <= 10 -> In mode [DIO; SPI; SIO] -> assignable seg mode ->
  exists w', PinMode P seg mode w = Returned 0 w' /\
             line_levels w' = bits7 INTERNAL_REG /\
             polls (trace w') = polls (trace w).
Proof.
  intros Hseg Hmode [Hspi Hsio]. unfold PinMode.
  replace ((seg >? 10) || (seg <? 1)) with false by lia.
  assert (Hm : 0 <= mode < 3)
    by (cbn [In] in Hmode; unfold DIO, SPI, SIO in Hmode; lia).
  assert (Hrun : forall f,
    exists w',
      (SetShieldMode INTERNAL_REG ;;
       r <- gets internalRegister ;;
       bcm2835_spi_writenb (bytes r) ;;
       _ <- table_entry digi_port_rep (to_uint (seg - 1)) ;;
       _ <- table_entry digi_mode_rep mode ;;
       LOG LOG_DEBUG ;;
       d <- gets spi_delay_usecs ;;
       usleep d ;;
       ret 0) (set_internalRegister f w) = Returned 0 w' /\
      line_levels w' = bits7 INTERNAL_REG /\
      polls (trace w') = polls (trace w)).
  { intros f.
    destruct (SetShieldMode_frame INTERNAL_REG (set_internalRegister f w))
      as (w1 & evs & E & _ & _ & _ & _ & Htr & Hp).
    destruct (SetShieldMode_levels INTERNAL_REG (set_internalRegister f w))
      as (w1' & E' & Hlev); [ cbn; tauto | ].
    rewrite E in E'; injection E' as <-.
    rewrite (bind_Returned _ _ _ _ _ E). mstep.
    rewrite bind_table_entry
      by (rewrite to_uint_id by lia; cbn [digi_port_rep List.length]; lia).
    rewrite bind_table_entry by (cbn [digi_mode_rep List.length]; lia).
    mstep.
    eexists. split; [ reflexivity | ]. split; [ exact Hlev | ].
    unfold after. cbn [trace set_trace]. rewrite Htr, !polls_app, Hp. cbn [trace set_internalRegister].
    cbn. lia. }
  cbn [In] in Hmode.
  destruct Hmode as [<- | [<- | [<- | []]]].
  - change (DIO =? DIO) with true. cbv iota.
    destruct (seg <? 9); apply Hrun.
  - change (SPI =? DIO) with false. change (SPI =? SPI) with true. cbv iota.
    replace (seg <? 9) with true by (destruct Hspi; [ congruence | lia ]).
    apply Hrun.
  - change (SIO =? DIO) with false. change (SIO =? SPI) with false.
    change (SIO =? SIO) with true. cbv iota.
    replace (seg =? 10) with true by (destruct Hsio; [ congruence | lia ]).
    apply Hrun.
Qed.

Lemma assignable_dec seg mode : assignable seg mode \/ ~ assignable seg mode.
Proof. unfold assignable. lia. Qed.

Lemma not_assignable seg mode :
  In mode [DIO; SPI; SIO] -> ~ assignable seg mode ->
  (mode = SPI /\ 9 <= seg) \/ (mode = SIO /\ seg <> 10).
Proof.
  unfold assignable, DIO, SPI, SIO; cbn [In]. intros H N. lia.
Qed.

(** C3: for segments 1..10 and modes DIO, SPI, SIO, [PinMode] accepts
    (returns 0) exactly the assignable combinations.  A rejected
    combination logs, switches to [NONE], verifies and yields -1: however
    the call ends [internalRegister] is as before and the lines are on the
    [NONE] pattern; if it returns, it returns -1 from a verified idle
    bus; and on a board that reads back its lines it does return. *)
Theorem PinMode_accepts_iff_assignable seg mode w :
  1 <= seg <= 10 -> In mode [DIO; SPI; SIO] ->
  ((exists w', PinMode P seg mode w = Returned 0 w') <-> assignable seg mode)
  /\
  (~ assignable seg mode ->
   PinMode P seg mode w =
     (idle_sequence P ;; ret (-1)) (after [Ev_LOG LOG_ERROR] w) /\
   match PinMode P seg mode w with
   | Returned r w' =>
       r = -1 /\ internalRegister w' = internalRegister w /\
       line_levels w' = bits7 NONE /\ idle_verified P w'
   | Exited _ w' =>
       internalRegister w' = internalRegister w /\
       line_levels w' = bits7 NONE
   | Undefined _ | OutOfFuel => False
   end /\
   (readback P -> exists w', PinMode P seg mode w = Returned (-1) w')).
Proof.
  intros Hseg Hmode.
  assert (Hrej : ~ assignable seg mode ->
    PinMode P seg mode w =
      (idle_sequence P ;; ret (-1)) (after [Ev_LOG LOG_ERROR] w) /\
    match PinMode P seg mode w with
    | Returned r w' =>
        r = -1 /\ internalRegister w' = internalRegister w /\
        line_levels w' = bits7 NONE /\ idle_verified P w'
    | Exited _ w' =>
        internalRegister w' = internalRegister w /\
        line_levels w' = bits7 NONE
    | Undefined _ | OutOfFuel => False
    end /\
    (readback P -> exists w', PinMode P seg mode w = Returned (-1) w')).
  { intros N.
    pose proof (PinMode_reject seg mode w Hseg (not_assignable _ _ Hmode N))
      as E.
    split; [ exact E | ]. rewrite E. unfold bind, ret.
    pose proof (idle_sequence_cases P (after [Ev_LOG LOG_ERROR] w)) as C.
    split.
    - destruct (idle_sequence P (after [Ev_LOG LOG_ERROR] w))
        as [[] w1 | s w1 | w1 | ] eqn:Ei; try contradiction.
      + destruct C as (Hr & Hl & _). cbn [ret].
        split; [ reflexivity | ].
        split; [ now injection Hr | ].
        split; [ exact Hl | ]. now exists (after [Ev_LOG LOG_ERROR] w).
      + destruct C as (_ & Hr & Hl). split; [ now injection Hr | exact Hl ].
    - intros Hrb.
      destruct (idle_sequence_healthy P (after [Ev_LOG LOG_ERROR] w) Hrb)
        as (w1 & ->).
      exists w1. reflexivity. }
  split; [ | exact Hrej ].
  split.
  - intros (w' & E).
    destruct (assignable_dec seg mode) as [A | N]; [ exact A | ].
    destruct (Hrej N) as (_ & C & _). rewrite E in C.
    destruct C as (C & _). discriminate C.
  - intros A. destruct (PinMode_accept seg mode w Hseg Hmode A) as (w' & E & _).
    now exists w'.
Qed.

(** *** Bits of the register bytes *)

Lemma byte_high_bits b i : byte b -> 8 <= i -> Z.testbit b i = false.
Proof.
  intros Hb Hi. rewrite <- (Z.mod_small b (2 ^ 8)) by (unfold byte in Hb; lia).
  apply Z.mod_pow2_bits_high. lia.
Qed.

Lemma to_uint8_bits x i :
  0 <= i -> Z.testbit (to_uint8 x) i = (i <? 8) && Z.testbit x i.
Proof.
  intros Hi. unfold to_uint8. change 256 with (2 ^ 8).
  destruct (Z.ltb_spec i 8).
  - now rewrite Z.mod_pow2_bits_low.
  - now rewrite Z.mod_pow2_bits_high.
Qed.

Lemma to_uint8_byte x : byte (to_uint8 x).
Proof. unfold byte, to_uint8. apply Z.mod_pos_bound. lia. Qed.

Lemma word16_bits b0 b1 i :
  byte b1 -> 0 <= i ->
  Z.testbit (word16 (b0, b1)) i =
    if i <? 8 then Z.testbit b1 i else Z.testbit b0 (i - 8).
Proof.
  intros Hb Hi. unfold word16; cbn [fst snd].
  rewrite Z.lor_spec, Z.shiftl_spec by lia.
  destruct (Z.ltb_spec i 8).
  - rewrite (Z.testbit_neg_r b0) by lia. reflexivity.
  - rewrite (byte_high_bits b1 i) by assumption. apply orb_false_r.
Qed.

(** [1 << n] for an amount the register layouts use. *)
Lemma shl_1 n : 0 <= n < 8 -> shl P 1 (to_uint n) = 2 ^ n.
Proof.
  intros Hn. unfold to_uint. rewrite Z.mod_small by lia.
  unfold shl.
  replace ((0 <=? n) && (n <? 32)) with true by lia.
  rewrite Z.shiftl_1_l. unfold to_int.
  assert (0 < 2 ^ n <= 2 ^ 7)
    by (split; [ apply Z.pow_pos_nonneg; lia
               | apply Z.pow_le_mono_r; lia ]).
  rewrite Z.mod_small by lia. lia.
Qed.

Lemma or_bit_bits b n i :
  byte b -> 0 <= n < 8 -> 0 <= i ->
  Z.testbit (or_bit P b (to_uint n)) i =
    if i =? n then true else Z.testbit b i.
Proof.
  intros Hb Hn Hi. unfold or_bit.
  rewrite shl_1, to_uint8_bits, Z.lor_spec, Z.pow2_bits_eqb by lia.
  rewrite (Z.eqb_sym n i).
  destruct (Z.eqb_spec i n) as [-> | Hne].
  - replace (n <? 8) with true by lia. now rewrite orb_true_r.
  - rewrite orb_false_r. destruct (Z.ltb_spec i 8); [ reflexivity | ].
    now rewrite byte_high_bits.
Qed.

Lemma and_not_bit_bits b n i :
  byte b -> 0 <= n < 8 -> 0 <= i ->
  Z.testbit (and_not_bit P b (to_uint n)) i =
    if i =? n then false else Z.testbit b i.
Proof.
  intros Hb Hn Hi. unfold and_not_bit.
  rewrite shl_1, to_uint8_bits, Z.land_spec, Z.lnot_spec,
    Z.pow2_bits_eqb by lia.
  rewrite (Z.eqb_sym n i).
  destruct (Z.eqb_spec i n) as [-> | Hne]; cbn [negb].
  - now rewrite andb_false_r, andb_false_r.
  - rewrite andb_true_r. destruct (Z.ltb_spec i 8); [ reflexivity | ].
    now rewrite byte_high_bits.
Qed.

(** The closing sequence followed by [k]. *)
Lemma idle_then {A} (k : M A) w :
  (SetShieldMode NONE ;; VerifyAndFixShieldMode P NONE ;; k) w =
  match idle_sequence P w with
  | Returned _ w' => k w'
  | Exited s w' => Exited s w'
  | Undefined w' => Undefined w'
  | OutOfFuel => OutOfFuel
  end.
Proof.
  unfold idle_sequence, bind.
  destruct (SetShieldMode NONE w) as [[] w1 | | | ]; try reflexivity.
Qed.

(** What follows the register update in [DigitalWrite]: the transmission
    in the register's mode and the closing sequence.  The registers stay as
    the update left them; a return is a return of 0 from a verified idle
    bus. *)
Lemma DigitalWrite_tail mode (reg : World -> Z * Z) pin w :
  1 <= pin <= 20 ->
  match
    (SetShieldMode mode ;;
     r <- gets reg ;;
     bcm2835_spi_writenb (bytes r) ;;
     d <- gets spi_delay_usecs ;;
     usleep d ;;
     _ <- table_entry digi_out_rep (to_uint (pin - 1)) ;;
     LOG LOG_DEBUG ;;
     SetShieldMode NONE ;;
     VerifyAndFixShieldMode P NONE ;;
     ret 0) w
  with
  | Returned r w' =>
      r = 0 /\ registers w' = registers w /\ idle_verified P w'
  | Exited s w' => s = FALSE /\ registers w' = registers w
  | Undefined _ | OutOfFuel => False
  end.
Proof.
  intros Hpin.
  destruct (SetShieldMode_frame mode w)
    as (w1 & evs & E & Hreg & _).
  rewrite (bind_Returned _ _ _ _ _ E). mstep.
  rewrite bind_table_entry by (apply digi_out_rep_index; exact Hpin).
  mstep. rewrite idle_then.
  match goal with |- context [idle_sequence P ?w0] =>
    pose proof (idle_sequence_cases P w0) as C;
    destruct (idle_sequence P w0) as [[] w2 | s w2 | w2 | ] eqn:Ei
  end; try contradiction.
  - destruct C as (Hr & _). unfold ret. split; [ reflexivity | ].
    split; [ rewrite Hr; exact Hreg | ].
    eexists; exact Ei.
  - destruct C as (Hs & Hr & _). split; [ exact Hs | ]. rewrite Hr; exact Hreg.
Qed.

(** The same, seen from the world the call ends in. *)
Lemma DigitalWrite_tail_final mode (reg : World -> Z * Z) pin w :
  1 <= pin <= 20 ->
  exists w',
    final_world
      ((SetShieldMode mode ;;
        r <- gets reg ;;
        bcm2835_spi_writenb (bytes r) ;;
        d <- gets spi_delay_usecs ;;
        usleep d ;;
        _ <- table_entry digi_out_rep (to_uint (pin - 1)) ;;
        LOG LOG_DEBUG ;;
        SetShieldMode NONE ;;
        VerifyAndFixShieldMode P NONE ;;
        ret 0) w) = Some w' /\
    registers w' = registers w.
Proof.
  intros Hpin. pose proof (DigitalWrite_tail mode reg pin w Hpin) as C.
  match type of C with match ?o with _ => _ end =>
    destruct o as [r w' | s w' | w' | ] end; try contradiction.
  - exists w'. split; [ reflexivity | apply C ].
  - exists w'. split; [ reflexivity | apply C ].
Qed.

Lemma registers_eq w w' :
  registers w' = registers w ->
  internalRegister w' = internalRegister w /\
  outputRegister1 w' = outputRegister1 w /\
  outputRegister2 w' = outputRegister2 w.
Proof. unfold registers. intros H. injection H. auto. Qed.

(** C4: for an output pin in 1..20 and a level in {0,1}, however
    [DigitalWrite] ends, the owning register word has the pin's bit (bit
    pin-1 of register 1 for pins 1..16, bit pin-17 of register 2 for pins
    17..20) equal to the level, every other bit of that word is as before,
    and the other output register and the internal register are
    unchanged. *)
Theorem DigitalWrite_sets_only_its_bit pin lvl w :
  1 <= pin <= 20 -> lvl = 0 \/ lvl = 1 -> output_bytes w ->
  exists w',
    final_world (DigitalWrite P pin lvl w) = Some w' /\
    output_bytes w' /\
    internalRegister w' = internalRegister w /\
    (pin <= 16 ->
     outputRegister2 w' = outputRegister2 w /\
     forall i, 0 <= i ->
       Z.testbit (word16 (outputRegister1 w')) i =
         if i =? pin - 1 then lvl =? 1
         else Z.testbit (word16 (outputRegister1 w)) i) /\
    (17 <= pin ->
     outputRegister1 w' = outputRegister1 w /\
     forall i, 0 <= i ->
       Z.testbit (word16 (outputRegister2 w')) i =
         if i =? pin - 17 then lvl =? 1
         else Z.testbit (word16 (outputRegister2 w)) i).
Proof.
  intros Hpin Hlvl (B10 & B11 & B20 & B21).
  unfold DigitalWrite.
  destruct (Z.le_gt_cases pin 8) as [H8 | H8].
  - replace (pin <=? 8) with true by lia.
    (* pins 1..8: element 1 of register 1, bit pin-1 *)
    set (b := if lvl =? HIGH
              then or_bit P (snd (outputRegister1 w)) (to_uint (pin - 1))
              else and_not_bit P (snd (outputRegister1 w)) (to_uint (pin - 1))).
    assert (Hb : forall i, 0 <= i ->
      Z.testbit b i =
        if i =? pin - 1 then lvl =? 1 else Z.testbit (snd (outputRegister1 w)) i).
    { intros i Hi. subst b. unfold HIGH.
      destruct (lvl =? 1);
        [ apply or_bit_bits | apply and_not_bit_bits ]; (assumption || lia). }
    assert (Bb : byte b)
      by (subst b; destruct (lvl =? HIGH); apply to_uint8_byte).
    destruct (DigitalWrite_tail_final OUTPUT_REG_1 outputRegister1 pin
                (set_outputRegister1 (fst (outputRegister1 w), b) w) Hpin)
      as (w' & Hf & Hr).
    apply registers_eq in Hr; cbn in Hr. destruct Hr as (Hi & H1 & H2).
    exists w'. split.
    { rewrite <- Hf. f_equal. subst b.
      destruct (lvl =? HIGH); mstep; reflexivity. }
    unfold output_bytes. rewrite H1, H2; cbn [fst snd].
    split; [ tauto | ]. split; [ exact Hi | ].
    split; [ | lia ]. intros _. split; [ reflexivity | ].
    intros i Hi0. destruct (outputRegister1 w) as [b0 b1]; cbn [fst snd] in *.
    rewrite !word16_bits, Hb by assumption.
    destruct (Z.ltb_spec i 8); [ reflexivity | ].
    replace (i =? pin - 1) with false by lia. reflexivity.
  - replace (pin <=? 8) with false by lia.
    destruct (Z.le_gt_cases pin 16) as [H16 | H16].
    + (* pins 9..16: element 0 of register 1, bit pin-9 *)
      replace ((pin >=? 9) && (pin <=? 16)) with true by lia.
      set (b := if lvl =? HIGH
                then or_bit P (fst (outputRegister1 w)) (to_uint (pin - 9))
                else and_not_bit P (fst (outputRegister1 w)) (to_uint (pin - 9))).
      assert (Hb : forall i, 0 <= i ->
        Z.testbit b i =
          if i =? pin - 9 then lvl =? 1
          else Z.testbit (fst (outputRegister1 w)) i).
      { intros i Hi. subst b. unfold HIGH.
        destruct (lvl =? 1);
          [ apply or_bit_bits | apply and_not_bit_bits ]; (assumption || lia). }
      assert (Bb : byte b)
        by (subst b; destruct (lvl =? HIGH); apply to_uint8_byte).
      destruct (DigitalWrite_tail_final OUTPUT_REG_1 outputRegister1 pin
                  (set_outputRegister1 (b, snd (outputRegister1 w)) w) Hpin)
        as (w' & Hf & Hr).
      apply registers_eq in Hr; cbn in Hr. destruct Hr as (Hi & H1 & H2).
      exists w'. split.
      { rewrite <- Hf. f_equal. subst b.
        destruct (lvl =? HIGH); mstep; reflexivity. }
      unfold output_bytes. rewrite H1, H2; cbn [fst snd].
      split; [ tauto | ]. split; [ exact Hi | ].
      split; [ | lia ]. intros _. split; [ reflexivity | ].
      intros i Hi0. destruct (outputRegister1 w) as [b0 b1]; cbn [fst snd] in *.
      rewrite !word16_bits by assumption.
      destruct (Z.ltb_spec i 8).
      * replace (i =? pin - 1) with false by lia. reflexivity.
      * rewrite Hb by lia.
        replace (i - 8 =? pin - 9) with (i =? pin - 1) by lia. reflexivity.
    + (* pins 17..20: element 1 of register 2, bit pin-17 *)
      replace ((pin >=? 9) && (pin <=? 16)) with false by lia.
      replace ((pin >=? 17) && (pin <=? 20)) with true by lia.
      set (b := if lvl =? HIGH
                then or_bit P (snd (outputRegister2 w)) (to_uint (pin - 17))
                else and_not_bit P (snd (outputRegister2 w)) (to_uint (pin - 17))).
      assert (Hb : forall i, 0 <= i ->
        Z.testbit b i =
          if i =? pin - 17 then lvl =? 1
          else Z.testbit (snd (outputRegister2 w)) i).
      { intros i Hi. subst b. unfold HIGH.
        destruct (lvl =? 1);
          [ apply or_bit_bits | apply and_not_bit_bits ]; (assumption || lia). }
      assert (Bb : byte b)
        by (subst b; destruct (lvl =? HIGH); apply to_uint8_byte).
      destruct (DigitalWrite_tail_final OUTPUT_REG_2 outputRegister2 pin
                  (set_outputRegister2 (fst (outputRegister2 w), b) w) Hpin)
        as (w' & Hf & Hr).
      apply registers_eq in Hr; cbn in Hr. destruct Hr as (Hi & H1 & H2).
      exists w'. split.
      { rewrite <- Hf. f_equal. subst b.
        destruct (lvl =? HIGH); mstep; reflexivity. }
      unfold output_bytes. rewrite H1, H2; cbn [fst snd].
      split; [ tauto | ]. split; [ exact Hi | ].
      split; [ lia | ]. intros _. split; [ reflexivity | ].
      intros i Hi0. destruct (outputRegister2 w) as [b0 b1]; cbn [fst snd] in *.
      rewrite !word16_bits, Hb by assumption.
      destruct (Z.ltb_spec i 8); [ reflexivity | ].
      replace (i =? pin - 17) with false by lia. reflexivity.
Qed.

Lemma SetShieldMode_switched mode w :
  SetShieldMode mode w = Returned tt (switched mode w).
Proof.
  destruct (SetShieldMode_frame mode w) as (w1 & evs & E & _).
  unfold switched. now rewrite E.
Qed.

Lemma switched_frame mode w :
  registers (switched mode w) = registers w /\
  params (switched mode w) = params w /\
  spi_delay_usecs (switched mode w) = spi_delay_usecs w /\
  exists evs, trace (switched mode w) = trace w ++ evs /\ polls evs = 0%nat.
Proof.
  destruct (SetShieldMode_frame mode w)
    as (w1 & evs & E & Hr & Hp & Hs & _ & Ht & Hpo).
  unfold switched. rewrite E. repeat split; try assumption.
  now exists evs.
Qed.

Lemma switched_levels mode w :
  In mode ShieldMode_values -> line_levels (switched mode w) = bits7 mode.
Proof.
  intros Hin. destruct (SetShieldMode_levels mode w Hin) as (w1 & E & Hl).
  unfold switched. now rewrite E.
Qed.

Lemma spi_delay_after evs w :
  spi_delay_usecs (after evs w) = spi_delay_usecs w.
Proof. reflexivity. Qed.

Lemma bind_SetShieldMode {B} mode (f : unit -> M B) w :
  bind (SetShieldMode mode) f w = f tt (switched mode w).
Proof. apply bind_Returned, SetShieldMode_switched. Qed.

Lemma bind_transfern {B} buf (f : list Z -> M B) w :
  bind (bcm2835_spi_transfern P buf) f w =
    f (map (fun i => to_uint8 (miso P w i)) (seq 0 (List.length buf)))
      (after [Ev_spi_transfern buf] w).
Proof. reflexivity. Qed.

Lemma bind_transfer {B} v (f : Z -> M B) w :
  bind (bcm2835_spi_transfer P v) f w =
    f (to_uint8 (miso P w 0%nat)) (after [Ev_spi_transfer v] w).
Proof. reflexivity. Qed.

(** The closing sequence followed by a plain return ends idle, and on a
    board that reads back its lines it does return. *)
Lemma idle_then_ret {A} (a : A) w :
  ends_idle P ((SetShieldMode NONE ;; VerifyAndFixShieldMode P NONE ;; ret a) w)
  /\ (readback P ->
      exists w', (SetShieldMode NONE ;; VerifyAndFixShieldMode P NONE ;; ret a) w
                 = Returned a w').
Proof.
  rewrite idle_then. pose proof (idle_sequence_cases P w) as C. split.
  - destruct (idle_sequence P w) as [[] w1 | s w1 | w1 | ] eqn:E;
      try contradiction.
    + exists w. exact E.
    + apply C.
  - intros Hrb. destruct (idle_sequence_healthy P w Hrb) as (w1 & ->).
    exists w1. reflexivity.
Qed.

Lemma land_1_cases x : Z.land x 1 = 0 \/ Z.land x 1 = 1.
Proof.
  change 1 with (Z.ones 1) at 1 2. rewrite Z.land_ones by lia.
  pose proof (Z.mod_pos_bound x (2 ^ 1)). lia.
Qed.

(** [DigitalRead]: the transfer in [INPUT_REG] mode, the closing sequence,
    then the decoding of the pin. *)
Lemma DigitalRead_run pin w :
  DigitalRead P pin w =
    match idle_sequence P
            (after [Ev_spi_transfern [0; 0]; Ev_usleep (spi_delay_usecs w)]
                   (DigitalRead_rx_world w)) with
    | Returned _ w' =>
        Returned
          (if pin <=? 8 then
             getBit P (snd (DigitalRead_inputRegister P w)) pin
           else if pin <=? 10 then
             getBit P (fst (DigitalRead_inputRegister P w)) (to_uint (pin - 8))
           else -1) w'
    | Exited s w' => Exited s w'
    | Undefined w' => Undefined w'
    | OutOfFuel => OutOfFuel
    end.
Proof.
  unfold DigitalRead. rewrite bind_SetShieldMode, bind_transfern. mstep.
  rewrite idle_then, after_after, spi_delay_after.
  destruct (switched_frame INPUT_REG w) as (_ & _ & -> & _).
  cbn [app].
  unfold DigitalRead_inputRegister, DigitalRead_rx_world;
    cbn [map seq List.length nth fst snd].
  destruct (idle_sequence P _) as [[] w' | s w' | w' | ];
    [ | reflexivity | reflexivity | reflexivity ].
  unfold ret.
  destruct (pin <=? 8); [ reflexivity | ]. destruct (pin <=? 10); reflexivity.
Qed.

Lemma ends_idle_idle_sequence w : ends_idle P (idle_sequence P w).
Proof.
  pose proof (idle_sequence_cases P w) as C. unfold ends_idle.
  destruct (idle_sequence P w) as [[] w1 | s w1 | w1 | ] eqn:E;
    try contradiction.
  - exists w. exact E.
  - apply C.
Qed.

Lemma ends_idle_then_ret {A} (a : A) w :
  ends_idle P
    match idle_sequence P w with
    | Returned _ w' => Returned a w'
    | Exited s w' => Exited s w'
    | Undefined w' => Undefined w'
    | OutOfFuel => OutOfFuel
    end.
Proof.
  pose proof (idle_sequence_cases P w) as C.
  destruct (idle_sequence P w) as [[] w1 | s w1 | w1 | ] eqn:E;
    try contradiction.
  - exists w. exact E.
  - apply C.
Qed.

(** [getBit] of a byte, for a bit number the layout uses. *)
Lemma getBit_testbit x n :
  1 <= n <= 8 -> getBit P x n = Z.b2z (Z.testbit x (n - 1)).
Proof.
  intros Hn. unfold getBit, to_uint, shr.
  rewrite Z.mod_small by lia.
  replace ((0 <=? n - 1) && (n - 1 <? 32)) with true by lia.
  change 1 with (Z.ones 1) at 2. rewrite Z.land_ones by lia.
  change (2 ^ 1) with 2. rewrite <- Z.bit0_mod, Z.shiftr_spec by lia.
  reflexivity.
Qed.

(** [DigitalRead] of an input pin in 1..10: the bit of the freshly read
    input register, pins 1..8 from element 1 and pins 9..10 from element 0;
    so 0 or 1. *)
Lemma DigitalRead_valid_pin pin w :
  1 <= pin <= 10 ->
  match DigitalRead P pin w with
  | Returned r w' =>
      r = Z.b2z (Z.testbit
                   (if pin <=? 8 then snd (DigitalRead_inputRegister P w)
                    else fst (DigitalRead_inputRegister P w))
                   (if pin <=? 8 then pin - 1 else pin - 9)) /\
      (r = 0 \/ r = 1) /\ idle_verified P w'
  | Exited s _ => s = FALSE
  | Undefined _ | OutOfFuel => False
  end.
Proof.
  intros Hpin. rewrite DigitalRead_run.
  match goal with |- context [idle_sequence P ?w0] =>
    pose proof (idle_sequence_cases P w0) as D;
    destruct (idle_sequence P w0) as [[] w1 | s w1 | w1 | ] eqn:E;
    try contradiction; [ | apply D ];
    assert (C : idle_verified P w1) by (exists w0; exact E)
  end.
  assert (Hb : forall b : bool, Z.b2z b = 0 \/ Z.b2z b = 1)
    by (intros []; cbn; auto).
  destruct (Z.le_gt_cases pin 8).
  - replace (pin <=? 8) with true by lia. cbv iota.
    rewrite getBit_testbit by lia.
    split; [ reflexivity | split; [ apply Hb | exact C ] ].
  - replace (pin <=? 8) with false by lia.
    replace (pin <=? 10) with true by lia. cbv iota.
    replace (to_uint (pin - 8)) with (pin - 8)
      by (unfold to_uint; rewrite Z.mod_small by lia; reflexivity).
    rewrite getBit_testbit by lia.
    replace (pin - 8 - 1) with (pin - 9) by lia.
    split; [ reflexivity | split; [ apply Hb | exact C ] ].
Qed.

(** [DigitalRead] of a pin number above 10 yields -1. *)
Lemma DigitalRead_above_10 pin w :
  10 < pin ->
  match DigitalRead P pin w with
  | Returned r w' => r = -1 /\ idle_verified P w'
  | Exited s _ => s = FALSE
  | Undefined _ | OutOfFuel => False
  end.
Proof.
  intros Hpin. rewrite DigitalRead_run.
  match goal with |- context [idle_sequence P ?w0] =>
    pose proof (idle_sequence_cases P w0) as D;
    destruct (idle_sequence P w0) as [[] w1 | s w1 | w1 | ] eqn:E;
    try contradiction; [ | apply D ];
    assert (C : idle_verified P w1) by (exists w0; exact E)
  end.
  replace (pin <=? 8) with false by lia.
  replace (pin <=? 10) with false by lia. cbv iota.
  split; [ reflexivity | exact C ].
Qed.

(** [DigitalWrite] of a pin number above 20: closing sequence, log, -1;
    no register changes. *)
Lemma DigitalWrite_above_20 pin value w :
  20 < pin ->
  DigitalWrite P pin value w =
    match idle_sequence P w with
    | Returned _ w' => Returned (-1) (after [Ev_LOG LOG_ERROR] w')
    | Exited s w' => Exited s w'
    | Undefined w' => Undefined w'
    | OutOfFuel => OutOfFuel
    end /\
  forall w', final_world (DigitalWrite P pin value w) = Some w' ->
             registers w' = registers w.
Proof.
  intros Hpin.
  assert (E : DigitalWrite P pin value w =
    match idle_sequence P w with
    | Returned _ w' => Returned (-1) (after [Ev_LOG LOG_ERROR] w')
    | Exited s w' => Exited s w'
    | Undefined w' => Undefined w'
    | OutOfFuel => OutOfFuel
    end).
  { unfold DigitalWrite.
    replace (pin <=? 8) with false by lia.
    replace ((pin >=? 9) && (pin <=? 16)) with false by lia.
    replace ((pin >=? 17) && (pin <=? 20)) with false by lia.
    rewrite idle_then.
    destruct (idle_sequence P w) as [[] w1 | s w1 | w1 | ]; reflexivity. }
  split; [ exact E | ]. rewrite E.
  pose proof (idle_sequence_cases P w) as C.
  destruct (idle_sequence P w) as [[] w1 | s w1 | w1 | ];
    try contradiction; cbn [final_world]; intros w' [= <-].
  - apply C.
  - apply C.
Qed.

End Codec.

(** C5, at pin 0: [DigitalWrite] does not reject pin number 0.  The test
    [pin_number <= 8] takes it for a pin of register 1: the call updates
    element 1 of [outputRegister1] with a shift by 2^32 - 1, switches to
    [OUTPUT_REG_1], transmits the register, sleeps, and then evaluates the
    argument [digi_out_rep[pin_number - 1]] of its log call, row 2^32 - 1
    of a table of twenty: undefined behaviour.  So the call neither
    returns -1 nor reaches the closing sequence: it ends there, after the
    SPI write, with the lines on the [OUTPUT_REG_1] pattern and without
    a verification poll. *)
Theorem DigitalWrite_pin_0_not_rejected P value w :
  exists w' evs,
    DigitalWrite P 0 value w = Undefined w' /\
    line_levels w' = bits7 OUTPUT_REG_1 /\
    internalRegister w' = internalRegister w /\
    outputRegister1 w' =
      upd1 (fun x => if value =? HIGH then or_bit P x (2 ^ 32 - 1)
                     else and_not_bit P x (2 ^ 32 - 1))
           (outputRegister1 w) /\
    outputRegister2 w' = outputRegister2 w /\
    trace w' =
      trace w ++ evs ++ [Ev_spi_writenb (bytes (outputRegister1 w'));
                         Ev_usleep (spi_delay_usecs w)] /\
    polls evs = 0%nat.
Proof.
  assert (Hrun : forall r,
    exists w' evs,
      (SetShieldMode OUTPUT_REG_1 ;;
       r <- gets outputRegister1 ;;
       bcm2835_spi_writenb (bytes r) ;;
       d <- gets spi_delay_usecs ;;
       usleep d ;;
       _ <- table_entry digi_out_rep (to_uint (0 - 1)) ;;
       LOG LOG_DEBUG ;;
       SetShieldMode NONE ;;
       VerifyAndFixShieldMode P NONE ;;
       ret 0) (set_outputRegister1 r w) = Undefined w' /\
      line_levels w' = bits7 OUTPUT_REG_1 /\
      internalRegister w' = internalRegister w /\
      outputRegister1 w' = r /\
      outputRegister2 w' = outputRegister2 w /\
      trace w' =
        trace w ++ evs ++ [Ev_spi_writenb (bytes (outputRegister1 w'));
                           Ev_usleep (spi_delay_usecs w)] /\
      polls evs = 0%nat).
  { intros r. set (w0 := set_outputRegister1 r w).
    destruct (SetShieldMode_frame OUTPUT_REG_1 w0)
      as (w1 & evs & E & Hreg & _ & Hd & _ & Htr & Hp).
    destruct (SetShieldMode_levels OUTPUT_REG_1 w0)
      as (w1' & E' & Hlev); [ cbn; tauto | ].
    rewrite E in E'; injection E' as <-.
    apply registers_eq in Hreg. destruct Hreg as (Hi & H1 & H2).
    rewrite (bind_Returned _ _ _ _ _ E). mstep.
    rewrite bind_table_entry_outside
      by (right; cbn [digi_out_rep List.length]; unfold to_uint; cbn; lia).
    eexists. exists evs. split; [ reflexivity | ].
    unfold after.
    cbn [line_levels level internalRegister outputRegister1 outputRegister2
         trace set_trace spi_delay_usecs].
    split; [ exact Hlev | ]. split; [ exact Hi | ].
    split; [ exact H1 | ]. split; [ exact H2 | ].
    split; [ | exact Hp ].
    rewrite Htr, H1, Hd, <- !app_assoc. reflexivity. }
  unfold DigitalWrite. change (0 <=? 8) with true. cbv iota.
  unfold on_outputRegister1.
  change (2 ^ 32 - 1) with (to_uint (0 - 1)).
  destruct (value =? HIGH); rewrite bind_modify; apply Hrun.
Qed.

(** C6, at pin 0: [DigitalRead] does not reject pin number 0.  The test
    [pin_number <= 8] takes it for a pin of element 1, and the result is
    [getBit] of that byte with a shift by 2^32 - 1: whatever the target
    yields for that shift, the result is its low bit, 0 or 1, never -1.
    On the loop-back board the call returns 0. *)
Theorem DigitalRead_pin_0_not_rejected :
  (forall P w,
     match DigitalRead P 0 w with
     | Returned r _ =>
         r = Z.land (shr_oob P (snd (DigitalRead_inputRegister P w))
                             (2 ^ 32 - 1)) 1 /\
         (r = 0 \/ r = 1) /\ r <> -1
     | Exited s _ => s = FALSE
     | Undefined _ | OutOfFuel => False
     end) /\
  exists w', DigitalRead loopback 0 boot = Returned 0 w'.
Proof.
  split.
  - intros P w. rewrite DigitalRead_run.
    match goal with |- context [idle_sequence P ?w0] =>
      pose proof (idle_sequence_cases P w0) as D;
      destruct (idle_sequence P w0) as [[] w1 | s w1 | w1 | ];
      try contradiction; [ | apply D ]
    end.
    change (0 <=? 8) with true. cbv iota.
    change (getBit P (snd (DigitalRead_inputRegister P w)) 0)
      with (Z.land (shr_oob P (snd (DigitalRead_inputRegister P w))
                            (2 ^ 32 - 1)) 1).
    split; [ reflexivity | ].
    pose proof (land_1_cases
                  (shr_oob P (snd (DigitalRead_inputRegister P w))
                           (2 ^ 32 - 1))).
    split; [ assumption | lia ].
  - exists_outcome_world. vm_compute. reflexivity.
Qed.

Section Closing.

Variable P : Platform.

Lemma idle_verified_levels w : idle_verified P w -> line_levels w = bits7 NONE.
Proof.
  intros (w0 & E). pose proof (idle_sequence_cases P w0) as C.
  rewrite E in C. apply C.
Qed.

(** A call that closes with the idle sequence returns only from a verified
    idle bus, and on a board that reads back its lines it does return. *)
Lemma closes_with_ends_idle {A} (o : Outcome A) :
  closes_with P o -> ends_idle P o.
Proof. intros (w0 & a & ->). apply ends_idle_then_ret. Qed.

Lemma closes_with_returns {A} (o : Outcome A) :
  readback P -> closes_with P o -> exists a w', o = Returned a w'.
Proof.
  intros Hrb (w0 & a & ->).
  destruct (idle_sequence_healthy P w0 Hrb) as (w1 & ->).
  exists a, w1. reflexivity.
Qed.

Lemma DigitalWrite_tail_closes mode (reg : World -> Z * Z) pin w :
  1 <= pin <= 20 ->
  closes_with P
    ((SetShieldMode mode ;;
      r <- gets reg ;;
      bcm2835_spi_writenb (bytes r) ;;
      d <- gets spi_delay_usecs ;;
      usleep d ;;
      _ <- table_entry digi_out_rep (to_uint (pin - 1)) ;;
      LOG LOG_DEBUG ;;
      SetShieldMode NONE ;;
      VerifyAndFixShieldMode P NONE ;;
      ret 0) w).
Proof.
  intros Hpin. rewrite bind_SetShieldMode. mstep.
  rewrite bind_table_entry by (apply digi_out_rep_index; exact Hpin).
  mstep. rewrite idle_then.
  eexists; exists 0. reflexivity.
Qed.

Lemma DigitalWrite_closes pin value w :
  1 <= pin <= 20 -> closes_with P (DigitalWrite P pin value w).
Proof.
  intros Hpin. unfold DigitalWrite.
  destruct (Z.le_gt_cases pin 8);
    [ replace (pin <=? 8) with true by lia
    | replace (pin <=? 8) with false by lia;
      destruct (Z.le_gt_cases pin 16);
      [ replace ((pin >=? 9) && (pin <=? 16)) with true by lia
      | replace ((pin >=? 9) && (pin <=? 16)) with false by lia;
        replace ((pin >=? 17) && (pin <=? 20)) with true by lia ] ];
    unfold on_outputRegister1, on_outputRegister2;
    destruct (value =? HIGH); rewrite bind_modify;
    apply DigitalWrite_tail_closes; exact Hpin.
Qed.

Lemma DigitalRead_closes pin w : closes_with P (DigitalRead P pin w).
Proof. rewrite DigitalRead_run. eexists; eexists. reflexivity. Qed.

(** A boundary check that logs a warning and clamps. *)
Lemma bind_clamp {B} (c : bool) lvl (a b : Z) (f : Z -> M B) w :
  bind (if c then LOG lvl ;; ret a else ret b) f w =
    f (if c then a else b) (if c then after [Ev_LOG lvl] w else w).
Proof. destruct c; reflexivity. Qed.

Lemma AnalogWrite_closes adc_addr mv_value w :
  closes_with P (AnalogWrite P adc_addr mv_value w).
Proof.
  assert (H : exists w0, AnalogWrite P adc_addr mv_value w = idle_sequence P w0).
  { unfold AnalogWrite. eexists.
    rewrite bind_clamp; cbv beta. rewrite bind_clamp; cbv beta zeta.
    rewrite bind_SetShieldMode. mstep.
    rewrite bind_transfern. mstep.
    rewrite bind_SetShieldMode. mstep.
    unfold idle_sequence. reflexivity. }
  destruct H as (w0 & ->). exists w0, tt.
  destruct (idle_sequence P w0) as [[] | | | ]; reflexivity.
Qed.

(** [AnalogRead] of a channel in 0..7: the command byte, the duplex read,
    then either the masked value at once or the closing sequence. *)
Lemma AnalogRead_run port w :
  0 <= port <= 7 ->
  AnalogRead P port w =
    let b0 := fst (AnalogRead_rbuf P port w) in
    let b1 := snd (AnalogRead_rbuf P port w) in
    let w2 := after [Ev_spi_transfern [0; 0]; Ev_usleep (spi_delay_usecs w)]
                    (AnalogRead_rx_world port w) in
    if Z.shiftl b0 8 + b1 >? ADC_MAXIMUM then
      Returned (Z.shiftl (Z.land b0 0x0F) 8 + b1)
               (after [Ev_LOG LOG_WARNING] w2)
    else
      match idle_sequence P (after [Ev_LOG LOG_DEBUG] w2) with
      | Returned _ w' => Returned (Z.shiftl b0 8 + b1) w'
      | Exited s w' => Exited s w'
      | Undefined w' => Undefined w'
      | OutOfFuel => OutOfFuel
      end.
Proof.
  intros Hport. unfold AnalogRead.
  replace (port >? 7) with false by lia.
  rewrite bind_SetShieldMode, bind_transfer. mstep.
  rewrite bind_transfern. mstep.
  rewrite !after_after, !spi_delay_after.
  destruct (switched_frame ADC w) as (_ & _ & -> & _).
  cbn [app map seq List.length nth].
  unfold AnalogRead_rbuf, AnalogRead_rx_world; cbn [fst snd]; cbv zeta.
  destruct (_ >? ADC_MAXIMUM).
  - mstep. rewrite !after_after. reflexivity.
  - mstep. rewrite idle_then, !after_after. reflexivity.
Qed.

Lemma AnalogRead_closes port w :
  0 <= port <= 7 ->
  Z.shiftl (fst (AnalogRead_rbuf P port w)) 8 + snd (AnalogRead_rbuf P port w)
    <= ADC_MAXIMUM ->
  closes_with P (AnalogRead P port w).
Proof.
  intros Hport Hraw. rewrite AnalogRead_run by assumption. cbv zeta.
  replace (_ >? ADC_MAXIMUM) with false by lia.
  eexists; eexists; reflexivity.
Qed.

Lemma shiftl8_lor x b : byte b -> Z.lor (Z.shiftl x 8) b = Z.shiftl x 8 + b.
Proof.
  intros Hb.
  assert (H : Z.land (Z.shiftl x 8) b = 0).
  { apply Z.bits_inj'. intros i Hi.
    rewrite Z.land_spec, Z.bits_0.
    destruct (Z.ltb_spec i 8).
    - now rewrite Z.shiftl_spec_low.
    - rewrite (byte_high_bits b i) by assumption. apply andb_false_r. }
  rewrite Z.add_nocarry_lxor, Z.lxor_lor by exact H. reflexivity.
Qed.

Lemma line_levels_after evs w : line_levels (after evs w) = line_levels w.
Proof. reflexivity. Qed.

Lemma trace_after evs w : trace (after evs w) = trace w ++ evs.
Proof. reflexivity. Qed.

Lemma masked_bound b0 b1 :
  byte b1 -> 0 <= Z.shiftl (Z.land b0 0x0F) 8 + b1 <= ADC_MAXIMUM.
Proof.
  intros Hb. change 0x0F with (Z.ones 4).
  rewrite Z.land_ones, Z.shiftl_mul_pow2 by lia.
  pose proof (Z.mod_pos_bound b0 (2 ^ 4)).
  unfold byte, ADC_MAXIMUM in *. lia.
Qed.

(** C7: when the two bytes [AnalogRead] receives reconstruct to more than
    4095, it returns the value with the high nibble of the first byte
    masked, (byte0 & 0x0F) << 8 | byte1, which is at most 4095, and returns
    at once: the warning is the last event, the lines still carry the [ADC]
    pattern, no poll was made, and the bus is not in a verified idle
    state. *)
Theorem AnalogRead_overflow_masked port w :
  0 <= port <= 7 ->
  let b0 := fst (AnalogRead_rbuf P port w) in
  let b1 := snd (AnalogRead_rbuf P port w) in
  Z.shiftl b0 8 + b1 > ADC_MAXIMUM ->
  exists w',
    AnalogRead P port w =
      Returned (Z.lor (Z.shiftl (Z.land b0 0x0F) 8) b1) w' /\
    0 <= Z.lor (Z.shiftl (Z.land b0 0x0F) 8) b1 <= ADC_MAXIMUM /\
    trace w' =
      trace (AnalogRead_rx_world port w) ++
      [Ev_spi_transfern [0; 0]; Ev_usleep (spi_delay_usecs w);
       Ev_LOG LOG_WARNING] /\
    line_levels w' = bits7 ADC /\
    polls (trace w') = polls (trace w) /\
    ~ idle_verified P w'.
Proof.
  intros Hport b0 b1 Hraw.
  assert (Hb1 : byte b1) by apply to_uint8_byte.
  rewrite shiftl8_lor by exact Hb1.
  eexists. split.
  { rewrite AnalogRead_run by assumption. cbv zeta. fold b0 b1.
    replace (Z.shiftl b0 8 + b1 >? ADC_MAXIMUM) with true by lia.
    rewrite after_after. reflexivity. }
  split; [ apply masked_bound; exact Hb1 | ].
  split; [ reflexivity | ].
  assert (Hl : line_levels
                 (after ([Ev_spi_transfern [0; 0];
                          Ev_usleep (spi_delay_usecs w)] ++
                         [Ev_LOG LOG_WARNING])
                        (AnalogRead_rx_world port w)) = bits7 ADC).
  { unfold AnalogRead_rx_world. rewrite !line_levels_after.
    apply switched_levels. cbn. tauto. }
  split; [ exact Hl | ].
  split.
  { destruct (switched_frame ADC w) as (_ & _ & _ & evs & Ht & Hp).
    unfold AnalogRead_rx_world.
    rewrite !trace_after, Ht, !polls_app, Hp. cbn. lia. }
  intros Hv. apply idle_verified_levels in Hv. rewrite Hl in Hv.
  discriminate Hv.
Qed.

(** C8 (amended): [DigitalWrite] of a pin in 1..20, [DigitalRead],
    [AnalogWrite], and [AnalogRead] of a channel in 0..7 whose sample does
    not exceed 4095 end by running the closing sequence (switch to [NONE],
    verify) and then hand their result to the caller.  [PinMode] does not:
    on its accepting path it returns 0 with the lines on the [INTERNAL_REG]
    pattern and without a poll. *)
Theorem pin_operations_close_with_idle :
  (forall pin value w,
     1 <= pin <= 20 -> closes_with P (DigitalWrite P pin value w)) /\
  (forall pin w, closes_with P (DigitalRead P pin w)) /\
  (forall adc_addr mv_value w,
     closes_with P (AnalogWrite P adc_addr mv_value w)) /\
  (forall port w,
     0 <= port <= 7 ->
     Z.shiftl (fst (AnalogRead_rbuf P port w)) 8 +
       snd (AnalogRead_rbuf P port w) <= ADC_MAXIMUM ->
     closes_with P (AnalogRead P port w)) /\
  (forall seg mode w,
     1 <= seg <= 10 -> In mode [DIO; SPI; SIO] -> assignable seg mode ->
     exists w', PinMode P seg mode w = Returned 0 w' /\
                line_levels w' = bits7 INTERNAL_REG /\
                polls (trace w') = polls (trace w)).
Proof.
  split; [ exact DigitalWrite_closes | ].
  split; [ exact DigitalRead_closes | ].
  split; [ exact AnalogWrite_closes | ].
  split; [ exact AnalogRead_closes | ].
  intros seg mode w. apply PinMode_accept.
Qed.

End Closing.

(** The overflow path on a board that answers 0x1F, 0xFF: 4095, with the
    bus left in [ADC] mode. *)
Lemma AnalogRead_overflow_masked_1F_FF :
  0 <= 0 <= 7 /\
  Z.shiftl 0x1F 8 + 0xFF > ADC_MAXIMUM /\
  exists w',
    AnalogRead (answering [0x1F; 0xFF]) 0 boot = Returned 4095 w' /\
    line_levels w' = bits7 ADC /\
    polls (trace w') = polls (trace boot) /\
    ~ idle_verified (answering [0x1F; 0xFF]) w'.
Proof.
  split; [ lia | ]. split; [ reflexivity | ].
  destruct (AnalogRead_overflow_masked (answering [0x1F; 0xFF]) 0 boot)
    as (w' & E & _ & _ & Hl & Hp & Hn); [ lia | reflexivity | ].
  exists w'. split; [ exact E | ]. split; [ exact Hl | ].
  split; [ exact Hp | exact Hn ].
Defined.

(** The closing sequence of [DigitalWrite] and [DigitalRead] on the
    loop-back board. *)
Lemma pin_operations_close_with_idle_loopback :
  1 <= 5 <= 20 /\
  closes_with loopback (DigitalWrite loopback 5 1 boot) /\
  closes_with loopback (DigitalRead loopback 5 boot) /\
  exists w', PinMode loopback 3 DIO boot = Returned 0 w' /\
             line_levels w' = bits7 INTERNAL_REG.
Proof.
  destruct (pin_operations_close_with_idle loopback)
    as (Hw & Hr & _ & _ & Hm).
  split; [ lia | ].
  split; [ apply Hw; lia | ].
  split; [ apply Hr | ].
  destruct (Hm 3 DIO boot) as (w' & E & Hl & _).
  - lia.
  - cbn. tauto.
  - unfold assignable, DIO, SPI, SIO. lia.
  - exists w'. split; [ exact E | exact Hl ].
Defined.

(** [PinMode] performs its transport exchange and returns with the bus in
    [INTERNAL_REG] mode, never having polled the lines: it does not close
    with the idle sequence. *)
Lemma PinMode_returns_without_idle :
  exists w',
    PinMode loopback 1 DIO boot = Returned 0 w' /\
    existsb is_spi (trace w') = true /\
    line_levels w' = bits7 INTERNAL_REG /\
    polls (trace w') = 0%nat /\
    ~ idle_verified loopback w' /\
    ~ closes_with loopback (PinMode loopback 1 DIO boot).
Proof.
  exists_outcome_world.
  match goal with |- PinMode _ _ _ _ = Returned 0 ?w1 /\ _ =>
    set (w' := w1);
    assert (E : PinMode loopback 1 DIO boot = Returned 0 w')
      by (vm_compute; reflexivity);
    assert (Hl : line_levels w' = bits7 INTERNAL_REG)
      by (vm_compute; reflexivity)
  end.
  assert (Hn : ~ idle_verified loopback w').
  { intros Hv. apply idle_verified_levels in Hv. rewrite Hl in Hv.
    discriminate Hv. }
  split; [ exact E | ]. split; [ vm_compute; reflexivity | ].
  split; [ exact Hl | ]. split; [ vm_compute; reflexivity | ].
  split; [ exact Hn | ].
  intros Hc. apply closes_with_ends_idle in Hc. rewrite E in Hc.
  exact (Hn Hc).
Qed.

(** [PinMode] on segment 9 with [SPI] on the loop-back board: rejected
    with -1. *)
Lemma PinMode_accepts_iff_assignable_SPI_9 :
  1 <= 9 <= 10 /\ In SPI [DIO; SPI; SIO] /\ ~ assignable 9 SPI /\
  ((exists w', PinMode loopback 9 SPI boot = Returned 0 w')
   <-> assignable 9 SPI) /\
  exists w', PinMode loopback 9 SPI boot = Returned (-1) w'.
Proof.
  assert (H1 : 1 <= 9 <= 10) by lia.
  assert (H2 : In SPI [DIO; SPI; SIO]) by (cbn; tauto).
  assert (H3 : ~ assignable 9 SPI) by (unfold assignable, SPI, SIO; lia).
  destruct (PinMode_accepts_iff_assignable loopback 9 SPI boot H1 H2)
    as (Hiff & Hrej).
  destruct (Hrej H3) as (_ & _ & Hret).
  split; [ exact H1 | ]. split; [ exact H2 | ]. split; [ exact H3 | ].
  split; [ exact Hiff | ].
  apply Hret. exact readback_loopback.
Defined.

(** [DigitalWrite] of pin 5 to HIGH from the initial registers. *)
Lemma DigitalWrite_sets_only_its_bit_pin_5 :
  1 <= 5 <= 20 /\ (1 = 0 \/ 1 = 1) /\ output_bytes boot /\
  exists w',
    final_world (DigitalWrite loopback 5 1 boot) = Some w' /\
    output_bytes w' /\
    internalRegister w' = internalRegister boot /\
    (5 <= 16 ->
     outputRegister2 w' = outputRegister2 boot /\
     forall i, 0 <= i ->
       Z.testbit (word16 (outputRegister1 w')) i =
         if i =? 5 - 1 then 1 =? 1
         else Z.testbit (word16 (outputRegister1 boot)) i) /\
    (17 <= 5 ->
     outputRegister1 w' = outputRegister1 boot /\
     forall i, 0 <= i ->
       Z.testbit (word16 (outputRegister2 w')) i =
         if i =? 5 - 17 then 1 =? 1
         else Z.testbit (word16 (outputRegister2 boot)) i).
Proof.
  assert (H1 : 1 <= 5 <= 20) by lia.
  assert (H2 : 1 = 0 \/ 1 = 1) by (right; reflexivity).
  assert (H3 : output_bytes boot) by (unfold output_bytes, byte; cbn; lia).
  split; [ exact H1 | ]. split; [ exact H2 | ]. split; [ exact H3 | ].
  exact (DigitalWrite_sets_only_its_bit loopback 5 1 boot H1 H2 H3).
Defined.

(** ** Name-based wrappers *)

Lemma bind_ret_r {A} (m : M A) w : (x <- m ;; ret x) w = m w.
Proof. unfold bind, ret. destruct (m w); reflexivity. Qed.

Lemma code_range c : 0 <= code c < 256.
Proof.
  unfold code. pose proof (N_ascii_bounded c). lia.
Qed.

Lemma code_injective c1 c2 : code c1 = code c2 -> c1 = c2.
Proof.
  unfold code. intros H. apply N2Z.inj in H.
  rewrite <- (ascii_N_embedding c1), <- (ascii_N_embedding c2). now rewrite H.
Qed.

Lemma code_diff c1 c2 : c1 <> c2 -> (code c1 - code c2 =? 0) = false.
Proof.
  intros Hne. apply Z.eqb_neq. intros H. apply Hne, code_injective. lia.
Qed.

(** The three comparisons of [RpcChangeMode] test a prefix of [value]. *)
Lemma strncmp_dio value : (strncmp "dio" value 1 =? 0) = prefix "d" value.
Proof.
  destruct value as [ | c v]; [ reflexivity | ].
  cbn [strncmp prefix].
  destruct (Ascii.eqb_spec "d" c) as [<- | Hne].
  - destruct (ascii_dec "d" "d"); [ now destruct v | contradiction ].
  - destruct (ascii_dec "d" c); [ contradiction | ]. now apply code_diff.
Qed.

Lemma strncmp_2 c1 c2 rest value :
  c1 <> zero -> c2 <> zero ->
  (strncmp (String c1 (String c2 rest)) value 2 =? 0)
    = prefix (String c1 (String c2 EmptyString)) value.
Proof.
  intros H1 H2.
  assert (Hz : forall c, c <> zero -> (code c =? 0) = false).
  { intros c Hc. apply Z.eqb_neq. intros H. apply Hc, code_injective.
    exact H. }
  destruct value as [ | a [ | b v']]; cbn [strncmp prefix].
  - now apply Hz.
  - destruct (Ascii.eqb_spec c1 a), (ascii_dec c1 a); try contradiction.
    + now apply Hz.
    + now apply code_diff.
  - destruct (Ascii.eqb_spec c1 a), (ascii_dec c1 a); try contradiction.
    + destruct (Ascii.eqb_spec c2 b), (ascii_dec c2 b); try contradiction.
      * destruct v'; reflexivity.
      * now apply code_diff.
    + now apply code_diff.
Qed.

(** [atoi] of a short string always fits an [int]. *)
Lemma digits_bound s : forall acc,
  0 <= acc -> 0 <= digits acc s < (acc + 1) * 10 ^ Z.of_nat (String.length s).
Proof.
  induction s as [ | c s IH]; intros acc Hacc; cbn [digits String.length].
  - cbn. lia.
  - rewrite Nat2Z.inj_succ, Z.pow_succ_r by lia.
    assert (0 < 10 ^ Z.of_nat (String.length s)) by (apply Z.pow_pos_nonneg; lia).
    destruct (isdigit c) eqn:Hd.
    + unfold isdigit in Hd.
      specialize (IH (acc * 10 + (code c - 48)) ltac:(lia)). nia.
    + nia.
Qed.

Lemma skip_spaces_length s :
  (String.length (skip_spaces s) <= String.length s)%nat.
Proof.
  induction s as [ | c s IH]; cbn; [ lia | ].
  destruct (isspace c); cbn; lia.
Qed.

Lemma atoi_short s :
  (String.length s <= 9)%nat -> exists n, atoi s = Some n.
Proof.
  intros Hlen. unfold atoi.
  pose proof (skip_spaces_length s) as Hs.
  assert (Hpow : forall k, (k <= 9)%nat -> 0 < 10 ^ Z.of_nat k <= 10 ^ 9).
  { intros k Hk. split; [ apply Z.pow_pos_nonneg; lia
                        | apply Z.pow_le_mono_r; lia ]. }
  match goal with |- exists n, (if ?c then _ else _) = _ =>
    assert (Hc : c = true); [ | rewrite Hc; eexists; reflexivity ] end.
  destruct (skip_spaces s) as [ | c s'] eqn:E; [ reflexivity | ].
  cbn [String.length] in Hs.
  pose proof (digits_bound s' 0 ltac:(lia)) as B1.
  pose proof (digits_bound (String c s') 0 ltac:(lia)) as B2.
  pose proof (Hpow (String.length s') ltac:(lia)) as P1.
  pose proof (Hpow (String.length (String c s')) ltac:(cbn; lia)) as P2.
  change (2 ^ 31) with 2147483648. change (10 ^ 9) with 1000000000 in *.
  destruct (Ascii.eqb c "-"); [ lia | ].
  destruct (Ascii.eqb c "+"); lia.
Qed.

Lemma substring_length n m s : (String.length (substring n m s) <= m)%nat.
Proof.
  revert n m. induction s as [ | c s IH]; intros [ | n] [ | m]; cbn;
    try lia.
  - specialize (IH 0%nat m). lia.
  - apply IH.
  - apply IH.
Qed.

Section Rpc.

Variable P : Platform.

Lemma internalRegister_after evs w :
  internalRegister (after evs w) = internalRegister w.
Proof. reflexivity. Qed.

(** [PinMode] with [SPI] on a segment in 1..8 sets the segment's bit in
    element 1 of [internalRegister] and returns 0. *)
Lemma PinMode_SPI_sets_bit seg w :
  1 <= seg <= 8 -> byte (snd (internalRegister w)) ->
  exists w',
    PinMode P seg SPI w = Returned 0 w' /\
    Z.testbit (snd (internalRegister w')) (seg - 1) = true /\
    fst (internalRegister w') = fst (internalRegister w).
Proof.
  intros Hseg Hb. unfold PinMode.
  replace ((seg >? 10) || (seg <? 1)) with false by lia.
  change (SPI =? DIO) with false. change (SPI =? SPI) with true. cbv iota.
  replace (seg <? 9) with true by lia.
  rewrite bind_assoc. mstep. cbv iota.
  rewrite bind_SetShieldMode. tstep. unfold ret.
  eexists. split; [ reflexivity | ].
  destruct (switched_frame INTERNAL_REG
              (set_internalRegister
                 (upd1 (fun x => or_bit P x (to_uint (seg - 1)))
                       (internalRegister w)) w)) as (Hr & _).
  apply registers_eq in Hr. destruct Hr as (Hi & _).
  rewrite !internalRegister_after, !Hi. cbn [internalRegister set_internalRegister upd1 fst snd].
  split; [ | reflexivity ].
  rewrite or_bit_bits by (try assumption; lia). now rewrite Z.eqb_refl.
Qed.

(** C10: for a value that begins with none of "d", "sp", "si",
    [RpcChangeMode] calls [PinMode] with [SPI] (the initial value of
    [mode]) on the segment parsed from the name, and returns its result;
    on a segment in 1..8 this sets the segment's SPI bit in
    [internalRegister] and returns 0. *)
Theorem RpcChangeMode_unrecognised_mode_is_SPI param value w :
  (9 <= String.length param)%nat ->
  prefix "d" value = false ->
  prefix "sp" value = false ->
  prefix "si" value = false ->
  exists n,
    atoi (substring 9 2 param) = Some n /\
    RpcChangeMode P (Some param) (Some value) w =
      PinMode P (to_uint (n - 10)) SPI w /\
    SPI <> DIO /\
    (1 <= n - 10 <= 8 -> byte (snd (internalRegister w)) ->
     exists w',
       RpcChangeMode P (Some param) (Some value) w = Returned 0 w' /\
       Z.testbit (snd (internalRegister w')) (n - 11) = true /\
       fst (internalRegister w') = fst (internalRegister w)).
Proof.
  intros Hlen Hd Hsp Hsi.
  destruct (atoi_short (substring 9 2 param)) as (n & Hn).
  { pose proof (substring_length 9 2 param). lia. }
  assert (E : RpcChangeMode P (Some param) (Some value) w =
              PinMode P (to_uint (n - 10)) SPI w).
  { unfold RpcChangeMode.
    replace (String.length param <? 9)%nat with false
      by (symmetry; apply Nat.ltb_ge; exact Hlen).
    rewrite Hn. cbv zeta.
    rewrite strncmp_dio, Hd.
    rewrite !strncmp_2 by discriminate.
    rewrite Hsp, Hsi. apply bind_ret_r. }
  exists n. split; [ exact Hn | ]. split; [ exact E | ].
  split; [ discriminate | ].
  intros Hseg Hb. rewrite E.
  unfold to_uint. rewrite Z.mod_small by lia.
  replace (n - 11) with (n - 10 - 1) by lia.
  apply PinMode_SPI_sets_bit; assumption.
Qed.

End Rpc.

(** The value "xyz" on segment CN13 of the loop-back board. *)
Lemma RpcChangeMode_unrecognised_mode_is_SPI_xyz :
  (9 <= String.length "shield.cn13")%nat /\
  prefix "d" "xyz" = false /\
  prefix "sp" "xyz" = false /\
  prefix "si" "xyz" = false /\
  RpcChangeMode loopback (Some "shield.cn13"%string) (Some "xyz"%string) boot
    = PinMode loopback 3 SPI boot.
Proof.
  assert (H1 : (9 <= String.length "shield.cn13")%nat) by (cbn; lia).
  assert (H2 : prefix "d" "xyz" = false) by reflexivity.
  assert (H3 : prefix "sp" "xyz" = false) by reflexivity.
  assert (H4 : prefix "si" "xyz" = false) by reflexivity.
  destruct (RpcChangeMode_unrecognised_mode_is_SPI
              loopback "shield.cn13" "xyz" boot H1 H2 H3 H4)
    as (n & Hn & E & _).
  assert (n = 13) by (vm_compute in Hn; congruence). subst n.
  change (to_uint (13 - 10)) with 3 in E.
  split; [ exact H1 | ]. split; [ exact H2 | ]. split; [ exact H3 | ].
  split; [ exact H4 | exact E ].
Defined.

(** *** Tokens of a dotted name *)

Lemma skipn_app_length {A} (pre l : list A) :
  skipn (List.length pre) (pre ++ l) = l.
Proof. induction pre as [ | x pre IH]; [ reflexivity | exact IH ]. Qed.

Lemma nth_app_length {A} (pre l : list A) k d :
  nth (List.length pre + k) (pre ++ l) d = nth k l d.
Proof. induction pre as [ | x pre IH]; [ reflexivity | exact IH ]. Qed.

Lemma store_app_length (pre l : list ascii) k c :
  store (pre ++ l) (List.length pre + k) c = pre ++ store l k c.
Proof.
  induction pre as [ | x pre IH]; [ reflexivity | ].
  cbn [List.length Nat.add app store]. now rewrite IH.
Qed.

Lemma store_middle (l : list ascii) x rest c :
  store (l ++ x :: rest) (List.length l) c = l ++ c :: rest.
Proof.
  rewrite <- (Nat.add_0_r (List.length l)), store_app_length. reflexivity.
Qed.

Lemma nth_middle_length (l : list ascii) x rest d :
  nth (List.length l) (l ++ x :: rest) d = x.
Proof.
  rewrite <- (Nat.add_0_r (List.length l)), nth_app_length. reflexivity.
Qed.

Lemma strcspn1_plain l x rest :
  plain l -> x = "."%char \/ x = zero ->
  strcspn1 "." (l ++ x :: rest) = List.length l.
Proof.
  intros Hl Hx. induction Hl as [ | c l [Hc1 Hc2] Hl IH]; cbn [app strcspn1 List.length].
  - destruct Hx as [-> | ->]; reflexivity.
  - destruct (Ascii.eqb_spec c "."); [ contradiction | ].
    destruct (Ascii.eqb_spec c zero); [ contradiction | ].
    cbn [orb]. now rewrite IH.
Qed.

Lemma cstr_plain l rest :
  plain l -> cstr (l ++ zero :: rest) = string_of_list_ascii l.
Proof.
  intros Hl. induction Hl as [ | c l [Hc1 Hc2] Hl IH]; cbn [app cstr string_of_list_ascii].
  - reflexivity.
  - destruct (Ascii.eqb_spec c zero); [ contradiction | ]. now rewrite IH.
Qed.

(** [strtok] on a buffer that holds, at the resumption offset, a component
    followed by a separator or by the terminator. *)
Lemma strtok_component pre l x rest :
  plain l -> l <> [] -> x = "."%char \/ x = zero ->
  strtok "." (pre ++ l ++ x :: rest) (List.length pre) =
    (Some (List.length pre),
     pre ++ l ++ zero :: rest,
     if Ascii.eqb x zero then (List.length pre + List.length l)%nat
     else S (List.length pre + List.length l)).
Proof.
  intros Hl Hne Hx. unfold strtok.
  rewrite skipn_app_length.
  destruct l as [ | c l']; [ contradiction | ].
  pose proof Hl as Hl0. inversion Hl0 as [ | ? ? [Hc1 Hc2] Hl' ]; subst.
  cbn [app strspn1].
  destruct (Ascii.eqb_spec c "."); [ contradiction | ].
  rewrite Nat.add_0_r.
  rewrite <- (Nat.add_0_r (List.length pre)) at 1.
  rewrite nth_app_length. cbn [nth].
  destruct (Ascii.eqb_spec c zero); [ contradiction | ].
  change (c :: l' ++ x :: rest) with ((c :: l') ++ x :: rest).
  rewrite !skipn_app_length, !strcspn1_plain by assumption.
  rewrite nth_app_length, nth_middle_length.
  destruct Hx as [-> | ->].
  - change (Ascii.eqb "." zero) with false. cbv iota.
    rewrite store_app_length, store_middle. reflexivity.
  - change (Ascii.eqb zero zero) with true. cbv iota. reflexivity.
Qed.

(** A name made of separators only has no token. *)
Lemma strspn1_dots l :
  Forall (fun c => c = "."%char) l ->
  strspn1 "." (l ++ [zero]) = List.length l.
Proof.
  intros H. induction H as [ | c l -> H IH]; [ reflexivity | ].
  cbn [app strspn1 List.length].
  change (Ascii.eqb "." ".") with true. cbv iota. now rewrite IH.
Qed.

Lemma strtok_dots s :
  Forall (fun c => c = "."%char) (list_ascii_of_string s) ->
  fst (fst (strtok "." (buffer_of s) 0)) = None.
Proof.
  intros H. unfold strtok, buffer_of. cbn [skipn Nat.add].
  rewrite strspn1_dots by assumption.
  rewrite nth_middle_length. reflexivity.
Qed.

Lemma list_ascii_of_string_app s1 s2 :
  list_ascii_of_string (s1 ++ s2) =
    list_ascii_of_string s1 ++ list_ascii_of_string s2.
Proof.
  induction s1 as [ | c s1 IH]; [ reflexivity | ].
  cbn. now rewrite IH.
Qed.

Lemma list_ascii_of_string_length s :
  List.length (list_ascii_of_string s) = String.length s.
Proof. induction s as [ | c s IH]; [ reflexivity | cbn; now rewrite IH ]. Qed.

(** Outside the ten digits the switch of [RpcPinWrite] takes its default
    case. *)
Lemma pin_map_default c pin_num :
  isdigit c = false -> pin_map c pin_num = None.
Proof.
  intros H. unfold pin_map.
  repeat match goal with
  | |- context [Ascii.eqb c ?d] =>
      destruct (Ascii.eqb_spec c d) as [-> | _]; [ discriminate H | ]
  end.
  reflexivity.
Qed.

Lemma nth_3_component (lb : list ascii) rest :
  (3 <= List.length lb)%nat ->
  nth 3 (lb ++ zero :: rest) zero = nth 3 lb zero.
Proof.
  intros H. destruct (Nat.eq_dec (List.length lb) 3) as [E | E].
  - rewrite <- E at 1. rewrite nth_middle_length.
    symmetry. apply nth_overflow. lia.
  - apply app_nth1. lia.
Qed.

Lemma component_plain s :
  component s ->
  plain (list_ascii_of_string s) /\ list_ascii_of_string s <> [].
Proof.
  intros [Hne Hp]. split; [ exact Hp | ].
  destruct s; [ contradiction | discriminate ].
Qed.

(** The three calls of [strtok] in [RpcPinWrite] on a name of three
    components: the offsets of the components, each terminated in place. *)
Lemma strtok_three_components a b c :
  component a -> component b -> component c ->
  let la := list_ascii_of_string a in
  let lb := list_ascii_of_string b in
  let lc := list_ascii_of_string c in
  let buf := la ++ zero :: lb ++ zero :: lc ++ [zero] in
  let o2 := S (List.length la) in
  let o3 := S (o2 + List.length lb) in
  strtok "." (buffer_of (a ++ "." ++ b ++ "." ++ c)) 0 =
    (Some 0%nat, la ++ zero :: lb ++ "."%char :: lc ++ [zero], o2) /\
  strtok "." (la ++ zero :: lb ++ "."%char :: lc ++ [zero]) o2 =
    (Some o2, buf, o3) /\
  strtok "." buf o3 = (Some o3, buf, (o3 + List.length lc)%nat) /\
  string_at buf o3 = c /\
  ((3 <= List.length lb)%nat -> nth (o2 + 2 + 1) buf zero = nth 3 lb zero).
Proof.
  intros Ha Hb Hc la lb lc buf o2 o3.
  destruct (component_plain a Ha) as (Pa & Na).
  destruct (component_plain b Hb) as (Pb & Nb).
  destruct (component_plain c Hc) as (Pc & Nc).
  fold la in Pa, Na. fold lb in Pb, Nb. fold lc in Pc, Nc.
  assert (E0 : buffer_of (a ++ "." ++ b ++ "." ++ c) =
               [] ++ la ++ "."%char :: lb ++ "."%char :: lc ++ [zero]).
  { unfold buffer_of. rewrite !list_ascii_of_string_app. cbn [app].
    fold la lb lc. cbn [list_ascii_of_string app].
    rewrite <- !app_assoc. cbn [app]. rewrite <- !app_assoc. reflexivity. }
  split.
  { rewrite E0.
    rewrite (strtok_component [] la "." _ Pa Na (or_introl eq_refl)).
    reflexivity. }
  assert (E1 : la ++ zero :: lb ++ "."%char :: lc ++ [zero] =
               (la ++ [zero]) ++ lb ++ "."%char :: lc ++ [zero])
    by (rewrite <- app_assoc; reflexivity).
  assert (L1 : List.length (la ++ [zero]) = o2)
    by (rewrite length_app; cbn; subst o2; lia).
  assert (E2 : buf = (la ++ [zero]) ++ lb ++ zero :: lc ++ [zero])
    by (subst buf; rewrite <- app_assoc; reflexivity).
  split.
  { rewrite E1, <- L1.
    rewrite (strtok_component (la ++ [zero]) lb "." _ Pb Nb
               (or_introl eq_refl)).
    change (Ascii.eqb "." zero) with false. cbv iota.
    rewrite E2, L1. reflexivity. }
  assert (E3 : buf = (la ++ zero :: lb ++ [zero]) ++ lc ++ [zero]).
  { subst buf. rewrite <- app_assoc. cbn [app]. rewrite <- app_assoc.
    reflexivity. }
  assert (L3 : List.length (la ++ zero :: lb ++ [zero]) = o3).
  { rewrite length_app. cbn [List.length]. rewrite length_app. cbn.
    subst o3 o2. lia. }
  split.
  { rewrite E3 at 1. rewrite <- L3 at 1.
    rewrite (strtok_component (la ++ zero :: lb ++ [zero]) lc zero []
               Pc Nc (or_intror eq_refl)).
    change (Ascii.eqb zero zero) with true. cbv iota.
    rewrite <- E3, L3. reflexivity. }
  split.
  { unfold string_at. rewrite E3, <- L3, skipn_app_length.
    rewrite cstr_plain by assumption.
    apply string_of_list_ascii_of_string. }
  intros H3. rewrite E2, <- L1.
  replace (List.length (la ++ [zero]) + 2 + 1)%nat
    with (List.length (la ++ [zero]) + 3)%nat by lia.
  rewrite nth_app_length. apply nth_3_component. exact H3.
Qed.

Section RpcWrite.

Variable P : Platform.

(** C9 (amended): [RpcPinWrite] returns -1 having made nothing but log
    entries (the world is the one it started in, with log events appended
    to the trace) for every rejected argument: a NULL or empty name or one
    beginning with 'g'; a value that parses to other than 0 or 1; a name
    of separators only, the value parsing; and a three-component name,
    value and third component parsing, whose second component has at
    least three characters and no decimal digit at index 3. *)
Theorem RpcPinWrite_rejects_without_hardware param value w :
  rejected_argument param value ->
  exists evs,
    RpcPinWrite P param value w = Returned (-1) (after evs w) /\
    forallb is_log evs = true.
Proof.
  assert (Hlog : exists evs,
            (LOG LOG_ERROR ;; ret (-1)) w = Returned (-1) (after evs w) /\
            forallb is_log evs = true)
    by (exists [Ev_LOG LOG_ERROR]; split; reflexivity).
  assert (Hval : forall n (k : M Z),
            n <> 0 -> n <> 1 ->
            (if negb (0 =? n) && negb (1 =? n)
             then LOG LOG_ERROR ;; ret (-1) else k) w
            = (LOG LOG_ERROR ;; ret (-1)) w).
  { intros n k H0 H1.
    replace (0 =? n) with false by lia. replace (1 =? n) with false by lia.
    reflexivity. }
  intros H. destruct H as
    [ value | value | rest value | c0 rest value n Hn H0 H1
    | c0 rest value n Hdots Hn | a b c value n pin_num Ha Hb Hc Hn Hpin Hlen Hdig ].
  - exact Hlog.
  - exact Hlog.
  - exact Hlog.
  - unfold RpcPinWrite. destruct (Ascii.eqb c0 "g"); [ exact Hlog | ].
    cbn [option_map]. rewrite Hn, Hval by assumption. exact Hlog.
  - unfold RpcPinWrite. destruct (Ascii.eqb c0 "g"); [ exact Hlog | ].
    cbn [option_map]. rewrite Hn.
    destruct (negb (0 =? n) && negb (1 =? n)); [ exact Hlog | ].
    pose proof (strtok_dots (String c0 rest) Hdots) as Ht.
    destruct (strtok "." (buffer_of (String c0 rest)) 0) as [[tok buf] save].
    cbn [fst] in Ht. subst tok. exact Hlog.
  - destruct (strtok_three_components a b c Ha Hb Hc)
      as (T1 & T2 & T3 & Hs & Hn3).
    destruct a as [ | c0 a']; [ destruct Ha as [Ha _]; contradiction | ].
    change ((String c0 a' ++ "." ++ b ++ "." ++ c)%string)
      with (String c0 (a' ++ "." ++ b ++ "." ++ c)) in *.
    unfold RpcPinWrite. destruct (Ascii.eqb c0 "g"); [ exact Hlog | ].
    cbn [option_map]. rewrite Hn.
    destruct (negb (0 =? n) && negb (1 =? n)); [ exact Hlog | ].
    rewrite T1. cbv beta iota. rewrite T2. cbv beta iota.
    rewrite T3. cbv beta iota.
    rewrite Hs, Hpin.
    rewrite Hn3 by (rewrite list_ascii_of_string_length; exact Hlen).
    rewrite pin_map_default by exact Hdig.
    exists []. rewrite after_nil. split; reflexivity.
Qed.

End RpcWrite.

(** The name "shield.cn1x.2" is turned down without a log entry. *)
Lemma RpcPinWrite_rejects_without_hardware_cn1x :
  rejected_argument (Some "shield.cn1x.2"%string) (Some "1"%string) /\
  exists evs,
    RpcPinWrite loopback (Some "shield.cn1x.2"%string) (Some "1"%string) boot
      = Returned (-1) (after evs boot) /\
    forallb is_log evs = true.
Proof.
  assert (H : rejected_argument (Some "shield.cn1x.2"%string)
                                (Some "1"%string)).
  { apply (rejected_port_digit "shield" "cn1x" "2" "1" 1 2).
    - split; [ discriminate | ].
      repeat (constructor; [ split; discriminate | ]). constructor.
    - split; [ discriminate | ].
      repeat (constructor; [ split; discriminate | ]). constructor.
    - split; [ discriminate | ].
      repeat (constructor; [ split; discriminate | ]). constructor.
    - reflexivity.
    - reflexivity.
    - cbn. lia.
    - reflexivity. }
  split; [ exact H | ].
  exact (RpcPinWrite_rejects_without_hardware loopback _ _ boot H).
Defined.

(** Three malformed arguments that are not turned down.  A name with a
    wrong prefix is taken like "shield.cn11.2": the call switches modes,
    writes over SPI and returns 0.  A name with an unmappable pin component
    runs [PinMode] (an SPI write) and then passes the uninitialised
    [pin_map_num] to [DigitalWrite].  A name whose second component is the
    bare "cn" has no port digit, and the switch examines the character
    after that component's terminator, the '2' of the pin component: the
    call writes output pin 3 over SPI and returns 0. *)
Lemma RpcPinWrite_malformed_reaches_hardware :
  (exists w',
     RpcPinWrite loopback (Some "foo.cn11.2"%string) (Some "1"%string) boot
       = Returned 0 w' /\
     existsb is_spi (trace w') = true /\
     outputRegister1 w' <> outputRegister1 boot) /\
  (exists w',
     RpcPinWrite loopback (Some "shield.cn11.3"%string) (Some "1"%string) boot
       = Undefined w' /\
     existsb is_spi (trace w') = true) /\
  (exists w',
     RpcPinWrite loopback (Some "shield.cn.2"%string) (Some "1"%string) boot
       = Returned 0 w' /\
     existsb is_spi (trace w') = true /\
     outputRegister1 w' = (0, 4)).
Proof.
  split; [ | split ].
  - exists_outcome_world. split; [ vm_compute; reflexivity | ].
    split; [ vm_compute; reflexivity | ].
    vm_compute. discriminate.
  - exists_outcome_world. split; vm_compute; reflexivity.
  - exists_outcome_world. split; [ vm_compute; reflexivity | ].
    split; vm_compute; reflexivity.
Qed.

(** * Further properties of the module *)

(** ** Mode verifier *)

Section VerifierMore.

Variable P : Platform.

Lemma verify_loop_returns fuel : forall mode sc w w',
  sc <= MAX_SAMPLING_RETRY_TIME + 1 ->
  verify_loop P fuel mode sc w = Returned tt w' ->
  exists k,
    Z.of_nat k <= MAX_SAMPLING_RETRY_TIME + 1 - sc /\
    w' = after (failed_samples k ++ poll_events) w /\
    sampled P (after (failed_samples k) w) = mode /\
    forall j, (j < k)%nat -> sampled P (after (failed_samples j) w) <> mode.
Proof.
  induction fuel as [ | fuel IH]; intros mode sc w w' Hsc H;
    [ discriminate H | ].
  rewrite verify_loop_step in H.
  destruct (Z.eqb_spec (sampled P w) mode) as [E | E].
  - injection H as <-. exists 0%nat. cbn [failed_samples app Z.of_nat].
    rewrite after_nil.
    split; [ lia | ].
    split; [ reflexivity | split; [ exact E | intros j Hj; lia ] ].
  - destruct (sc >? MAX_SAMPLING_RETRY_TIME) eqn:Esc.
    { cbv zeta in H.
      destruct (params w "shield.rebootcount" >? MAX_REBOOT_RETRY_TIME);
        discriminate H. }
    apply IH in H; [ | lia ].
    destruct H as (k & Hk & Hw & Hs & Hj).
    exists (S k). cbn [failed_samples].
    rewrite after_after in Hw, Hs.
    split; [ lia | ].
    split; [ rewrite Hw; f_equal; rewrite <- !app_assoc; reflexivity | ].
    split; [ rewrite <- Hs; f_equal; rewrite <- !app_assoc; reflexivity | ].
    intros [ | j] Hlt.
    + cbn [failed_samples]. rewrite after_nil. exact E.
    + specialize (Hj j ltac:(lia)). cbn [failed_samples].
      rewrite after_after in Hj.
      intros Hc. apply Hj. rewrite <- Hc. f_equal.
Qed.

(** X1: [VerifyAndFixShieldMode] returns only after a sample that equals
    the requested mode, taken after at most three failed ones (each logged):
    the world it returns in differs from the one it started in by those
    polls and log entries alone. *)
Theorem VerifyAndFixShieldMode_returns_after_match mode w w' :
  VerifyAndFixShieldMode P mode w = Returned tt w' ->
  exists k,
    (k <= 3)%nat /\
    w' = after (failed_samples k ++ poll_events) w /\
    sampled P (after (failed_samples k) w) = mode /\
    (forall j, (j < k)%nat -> sampled P (after (failed_samples j) w) <> mode) /\
    polls (trace w') = (polls (trace w) + k + 1)%nat /\
    registers w' = registers w /\ params w' = params w /\
    level w' = level w.
Proof.
  intros H. unfold VerifyAndFixShieldMode in H.
  apply verify_loop_returns in H; [ | unfold MAX_SAMPLING_RETRY_TIME; lia ].
  destruct H as (k & Hk & Hw & Hs & Hj).
  exists k. unfold MAX_SAMPLING_RETRY_TIME in Hk.
  split; [ lia | ]. split; [ exact Hw | ]. split; [ exact Hs | ].
  split; [ exact Hj | ].
  rewrite Hw. rewrite trace_after, !polls_app.
  assert (Hp : forall n, polls (failed_samples n) = n).
  { induction n as [ | n IHn]; [ reflexivity | ].
    cbn [failed_samples]. rewrite !polls_app, IHn. reflexivity. }
  rewrite Hp.
  split; [ cbn; lia | ].
  split; [ reflexivity | split; reflexivity ].
Qed.

(** The run of the verifier on a board that never shows the requested
    mode, with the counter [c] found in the store. *)
Lemma verify_never_matching_run mode w :
  (forall w', sampled P w' <> mode) ->
  let c := params w "shield.rebootcount" in
  exists w' evs,
    VerifyAndFixShieldMode P mode w = Exited FALSE w' /\
    trace w' = trace w ++ evs /\
    existsb is_reboot evs = negb (c >? 3) /\
    params w' "shield.rebootcount" = (if c >? 3 then 0 else c + 1).
Proof.
  intros Hne c.
  assert (Hs : forall w', (sampled P w' =? mode) = false)
    by (intros w'; apply Z.eqb_neq, Hne).
  unfold VerifyAndFixShieldMode.
  change (Z.to_nat (MAX_SAMPLING_RETRY_TIME + 1)) with 4%nat.
  rewrite verify_loop_step, Hs.
  change (1 >? MAX_SAMPLING_RETRY_TIME) with false; cbv iota.
  rewrite verify_loop_step, Hs.
  change (1 + 1 >? MAX_SAMPLING_RETRY_TIME) with false; cbv iota.
  rewrite verify_loop_step, Hs.
  change (1 + 1 + 1 >? MAX_SAMPLING_RETRY_TIME) with false; cbv iota.
  rewrite verify_loop_step, Hs.
  change (1 + 1 + 1 + 1 >? MAX_SAMPLING_RETRY_TIME) with true; cbv iota zeta.
  rewrite !after_after.
  cbn [params after set_trace]. fold c.
  unfold MAX_REBOOT_RETRY_TIME.
  destruct (c >? 3); eexists; eexists;
    (split; [ reflexivity | ]);
    (split; [ cbn [trace after set_trace store_param set_params];
              rewrite <- !app_assoc; reflexivity | ]);
    split; reflexivity.
Qed.

Lemma skipn_length_app {A} (l1 l2 : list A) :
  skipn (List.length l1) (l1 ++ l2) = l2.
Proof. induction l1 as [ | x l1 IH]; [ reflexivity | exact IH ]. Qed.

Lemma never_matching_next_boot mode w :
  (forall w', sampled P w' <> mode) ->
  let c := params w "shield.rebootcount" in
  reboot_issued P mode w = negb (c >? 3) /\
  rebootcount_after P mode w = (if c >? 3 then 0 else c + 1).
Proof.
  intros Hne c.
  destruct (verify_never_matching_run mode w Hne) as (w' & evs & E & Ht & Hr & Hc).
  unfold reboot_issued, rebootcount_after. rewrite E, Ht, skipn_length_app.
  split; [ exact Hr | exact Hc ].
Qed.

(** X2: the escalation across boots.  On a board that never shows the
    requested mode, starting from a stored counter of 0 and with each run
    finding the counter the previous run left, the verifier issues the
    reboot command on four runs in a row (leaving 1, 2, 3, 4) and on the
    fifth stores 0 and exits without a reboot command. *)
Theorem reboot_escalation_across_boots mode w0 w1 w2 w3 w4 :
  (forall w', sampled P w' <> mode) ->
  params w0 "shield.rebootcount" = 0 ->
  params w1 "shield.rebootcount" = rebootcount_after P mode w0 ->
  params w2 "shield.rebootcount" = rebootcount_after P mode w1 ->
  params w3 "shield.rebootcount" = rebootcount_after P mode w2 ->
  params w4 "shield.rebootcount" = rebootcount_after P mode w3 ->
  map (reboot_issued P mode) [w0; w1; w2; w3; w4] =
    [true; true; true; true; false] /\
  map (rebootcount_after P mode) [w0; w1; w2; w3; w4] = [1; 2; 3; 4; 0].
Proof.
  intros Hne H0 H1 H2 H3 H4.
  destruct (never_matching_next_boot mode w0 Hne) as (R0 & C0).
  destruct (never_matching_next_boot mode w1 Hne) as (R1 & C1).
  destruct (never_matching_next_boot mode w2 Hne) as (R2 & C2).
  destruct (never_matching_next_boot mode w3 Hne) as (R3 & C3).
  destruct (never_matching_next_boot mode w4 Hne) as (R4 & C4).
  cbv zeta in *.
  rewrite H0 in R0, C0. cbn in R0, C0.
  rewrite H1, C0 in R1, C1. cbn in R1, C1.
  rewrite H2, C1 in R2, C2. cbn in R2, C2.
  rewrite H3, C2 in R3, C3. cbn in R3, C3.
  rewrite H4, C3 in R4, C4. cbn in R4, C4.
  cbn [map]. rewrite R0, R1, R2, R3, R4, C0, C1, C2, C3, C4.
  split; reflexivity.
Qed.

(** ** Mode selector *)

Lemma sampled_range w : 0 <= sampled P w <= 127.
Proof.
  unfold sampled, GetShieldMode, bind, bcm2835_gpio_lev, ret, HIGH, LOW.
  repeat match goal with
  | |- context [if sense P ?w0 ?pin then _ else _] =>
      destruct (sense P w0 pin)
  end; cbn; lia.
Qed.

(** X3: [GetShieldMode] is a pure read of seven lines: it appends its
    seven reads to the trace, changes nothing else, and its result is a
    7-bit value. *)
Theorem GetShieldMode_7_bit_pure_read w :
  exists m,
    GetShieldMode P w = Returned m (after poll_events w) /\
    0 <= m <= 127 /\
    registers (after poll_events w) = registers w /\
    level (after poll_events w) = level w /\
    params (after poll_events w) = params w.
Proof.
  exists (sampled P w). split; [ apply GetShieldMode_run | ].
  split; [ apply sampled_range | ].
  split; [ reflexivity | split; reflexivity ].
Qed.

(** X4: a mode code outside 0..127 can never be sampled, so
    [VerifyAndFixShieldMode] of such a code never returns: after four
    polls it leaves through [exit]. *)
Theorem VerifyAndFixShieldMode_unreadable_mode mode w :
  mode < 0 \/ 127 < mode ->
  exists w',
    VerifyAndFixShieldMode P mode w = Exited FALSE w' /\
    polls (trace w') = (polls (trace w) + 4)%nat.
Proof.
  intros Hm.
  assert (Hne : forall w', sampled P w' <> mode)
    by (intros w'; pose proof (sampled_range w'); lia).
  assert (Hs : forall w', (sampled P w' =? mode) = false)
    by (intros w'; apply Z.eqb_neq, Hne).
  unfold VerifyAndFixShieldMode.
  change (Z.to_nat (MAX_SAMPLING_RETRY_TIME + 1)) with 4%nat.
  rewrite verify_loop_step, Hs.
  change (1 >? MAX_SAMPLING_RETRY_TIME) with false; cbv iota.
  rewrite verify_loop_step, Hs.
  change (1 + 1 >? MAX_SAMPLING_RETRY_TIME) with false; cbv iota.
  rewrite verify_loop_step, Hs.
  change (1 + 1 + 1 >? MAX_SAMPLING_RETRY_TIME) with false; cbv iota.
  rewrite verify_loop_step, Hs.
  change (1 + 1 + 1 + 1 >? MAX_SAMPLING_RETRY_TIME) with true; cbv iota zeta.
  rewrite !after_after.
  destruct (params _ _ >? MAX_REBOOT_RETRY_TIME); eexists;
    (split; [ reflexivity | ]);
    rewrite !trace_after; cbn [trace store_param set_params];
    rewrite !trace_after, !polls_app; cbn; lia.
Qed.

(** X5: a mode value that is none of the first eight cases of the switch
    takes the [default] label, which is the [ADC] case: the lines end on
    the [ADC] pattern 1111111. *)
Theorem SetShieldMode_default_is_ADC mode w :
  ~ In mode [INIT_ALL_LOW; NONE; DAC; RTC; INTERNAL_REG; OUTPUT_REG_1;
             OUTPUT_REG_2; INPUT_REG] ->
  exists w',
    SetShieldMode mode w = Returned tt w' /\
    line_levels w' = bits7 ADC /\
    registers w' = registers w.
Proof.
  intros Hn. cbn [In] in Hn.
  assert (E : SetShieldMode mode w = SetShieldMode ADC w).
  { unfold SetShieldMode.
    destruct (Z.eqb_spec mode INIT_ALL_LOW) as [e | _]; [ exfalso; apply Hn; rewrite e; tauto | ].
    destruct (Z.eqb_spec mode NONE) as [e | _]; [ exfalso; apply Hn; rewrite e; tauto | ].
    destruct (Z.eqb_spec mode DAC) as [e | _]; [ exfalso; apply Hn; rewrite e; tauto | ].
    destruct (Z.eqb_spec mode RTC) as [e | _]; [ exfalso; apply Hn; rewrite e; tauto | ].
    destruct (Z.eqb_spec mode INTERNAL_REG) as [e | _]; [ exfalso; apply Hn; rewrite e; tauto | ].
    destruct (Z.eqb_spec mode OUTPUT_REG_1) as [e | _]; [ exfalso; apply Hn; rewrite e; tauto | ].
    destruct (Z.eqb_spec mode OUTPUT_REG_2) as [e | _]; [ exfalso; apply Hn; rewrite e; tauto | ].
    destruct (Z.eqb_spec mode INPUT_REG) as [e | _]; [ exfalso; apply Hn; rewrite e; tauto | ].
    reflexivity. }
  rewrite E. exists (switched ADC w).
  split; [ apply SetShieldMode_switched | ].
  split; [ apply switched_levels; cbn; tauto | apply switched_frame ].
Qed.

End VerifierMore.

(** One glitch: the first poll of the [NONE] pattern fails, the second
    matches. *)
Lemma VerifyAndFixShieldMode_returns_after_match_glitch :
  exists w',
    VerifyAndFixShieldMode (glitching 1) NONE (switched NONE boot)
      = Returned tt w' /\
    exists k,
      (k <= 3)%nat /\
      polls (trace w') = (polls (trace (switched NONE boot)) + k + 1)%nat /\
      polls (trace w') = 2%nat /\
      registers w' = registers (switched NONE boot).
Proof.
  exists_outcome_world.
  match goal with |- _ = Returned tt ?w1 /\ _ =>
    set (w' := w1);
    assert (E : VerifyAndFixShieldMode (glitching 1) NONE (switched NONE boot)
                = Returned tt w') by (vm_compute; reflexivity)
  end.
  split; [ exact E | ].
  destruct (VerifyAndFixShieldMode_returns_after_match _ _ _ _ E)
    as (k & Hk & _ & _ & _ & Hp & Hr & _).
  exists k. split; [ exact Hk | ]. split; [ exact Hp | ].
  split; [ vm_compute; reflexivity | exact Hr ].
Defined.

(** Five boots of the wedged board. *)
Lemma reboot_escalation_across_boots_wedged :
  map (reboot_issued wedged NONE)
      [boot; with_rebootcount 1 boot; with_rebootcount 2 boot;
       with_rebootcount 3 boot; with_rebootcount 4 boot] =
    [true; true; true; true; false] /\
  map (rebootcount_after wedged NONE)
      [boot; with_rebootcount 1 boot; with_rebootcount 2 boot;
       with_rebootcount 3 boot; with_rebootcount 4 boot] = [1; 2; 3; 4; 0].
Proof.
  apply (reboot_escalation_across_boots wedged NONE).
  - intros w'. vm_compute. discriminate.
  - reflexivity.
  - vm_compute. reflexivity.
  - vm_compute. reflexivity.
  - vm_compute. reflexivity.
  - vm_compute. reflexivity.
Defined.

(** The code 200 on the loop-back board. *)
Lemma VerifyAndFixShieldMode_unreadable_mode_200 :
  (200 < 0 \/ 127 < 200) /\
  exists w',
    VerifyAndFixShieldMode loopback 200 boot = Exited FALSE w' /\
    polls (trace w') = (polls (trace boot) + 4)%nat.
Proof.
  assert (H : 200 < 0 \/ 127 < 200) by lia.
  split; [ exact H | ].
  exact (VerifyAndFixShieldMode_unreadable_mode loopback 200 boot H).
Defined.

(** The value 5 is no mode of the enumeration. *)
Lemma SetShieldMode_default_is_ADC_5 :
  ~ In 5 [INIT_ALL_LOW; NONE; DAC; RTC; INTERNAL_REG; OUTPUT_REG_1;
          OUTPUT_REG_2; INPUT_REG] /\
  exists w',
    SetShieldMode 5 boot = Returned tt w' /\
    line_levels w' = bits7 ADC /\
    registers w' = registers boot.
Proof.
  assert (H : ~ In 5 [INIT_ALL_LOW; NONE; DAC; RTC; INTERNAL_REG;
                      OUTPUT_REG_1; OUTPUT_REG_2; INPUT_REG]).
  { cbn [In]. unfold INIT_ALL_LOW, NONE, DAC, RTC, INTERNAL_REG,
      OUTPUT_REG_1, OUTPUT_REG_2, INPUT_REG. lia. }
  split; [ exact H | ].
  exact (SetShieldMode_default_is_ADC 5 boot H).
Defined.

(** ** Register codec: [PinMode] *)

Section PinModeMore.

Variable P : Platform.

(** The accepting tail of [PinMode]: the switch to [INTERNAL_REG], the
    transmission of the register as it then stands, the log and the
    delay. *)
Lemma PinMode_tail seg mode w :
  1 <= seg <= 10 -> In mode [DIO; SPI; SIO] ->
  (SetShieldMode INTERNAL_REG ;;
   r <- gets internalRegister ;;
   bcm2835_spi_writenb (bytes r) ;;
   _ <- table_entry digi_port_rep (to_uint (seg - 1)) ;;
   _ <- table_entry digi_mode_rep mode ;;
   LOG LOG_DEBUG ;;
   d <- gets spi_delay_usecs ;;
   usleep d ;;
   ret 0) w =
  Returned 0
    (after [Ev_spi_writenb (bytes (internalRegister w)); Ev_LOG LOG_DEBUG;
            Ev_usleep (spi_delay_usecs w)]
           (switched INTERNAL_REG w)).
Proof.
  intros Hseg Hmode. rewrite bind_SetShieldMode. mstep.
  rewrite bind_table_entry by (apply digi_port_rep_index; exact Hseg).
  rewrite bind_table_entry by (apply digi_mode_rep_index; exact Hmode).
  mstep. unfold ret.
  rewrite !after_after, !spi_delay_after.
  destruct (switched_frame INTERNAL_REG w) as (Hr & _ & -> & _).
  apply registers_eq in Hr. destruct Hr as (-> & _).
  reflexivity.
Qed.

Lemma registers_after evs w : registers (after evs w) = registers w.
Proof. reflexivity. Qed.

(** [PinMode] on its accepting path, for an update [f] of the register. *)
Lemma PinMode_tail_registers seg mode f w :
  1 <= seg <= 10 -> In mode [DIO; SPI; SIO] ->
  exists w',
    (SetShieldMode INTERNAL_REG ;;
     r <- gets internalRegister ;;
     bcm2835_spi_writenb (bytes r) ;;
     _ <- table_entry digi_port_rep (to_uint (seg - 1)) ;;
     _ <- table_entry digi_mode_rep mode ;;
     LOG LOG_DEBUG ;;
     d <- gets spi_delay_usecs ;;
     usleep d ;;
     ret 0) (set_internalRegister (f (internalRegister w)) w)
      = Returned 0 w' /\
    internalRegister w' = f (internalRegister w) /\
    outputRegister1 w' = outputRegister1 w /\
    outputRegister2 w' = outputRegister2 w /\
    In (Ev_spi_writenb (bytes (f (internalRegister w)))) (trace w').
Proof.
  intros Hseg Hmode.
  eexists. split; [ apply PinMode_tail; assumption | ].
  pose proof (switched_frame INTERNAL_REG
                (set_internalRegister (f (internalRegister w)) w)) as (Hr & _).
  rewrite <- (registers_after
                [Ev_spi_writenb
                   (bytes (internalRegister
                             (set_internalRegister (f (internalRegister w)) w)));
                 Ev_LOG LOG_DEBUG;
                 Ev_usleep (spi_delay_usecs
                              (set_internalRegister (f (internalRegister w)) w))])
    in Hr.
  apply registers_eq in Hr. destruct Hr as (Hi & H1 & H2).
  split; [ exact Hi | ]. split; [ exact H1 | ]. split; [ exact H2 | ].
  rewrite trace_after. apply in_or_app. right. left. reflexivity.
Qed.

(** X6: [PinMode] with [DIO] or [SPI] on a segment in 1..8 returns 0, makes
    bit segment-1 of element 1 of [internalRegister] 0 for [DIO] and 1 for
    [SPI], leaves every other bit of the register and both output
    registers as they were, and transmits the updated register. *)
Theorem PinMode_DIO_SPI_segment_bit seg mode w :
  1 <= seg <= 8 -> mode = DIO \/ mode = SPI ->
  byte (snd (internalRegister w)) ->
  exists w',
    PinMode P seg mode w = Returned 0 w' /\
    fst (internalRegister w') = fst (internalRegister w) /\
    (forall i, 0 <= i ->
       Z.testbit (snd (internalRegister w')) i =
         if i =? seg - 1 then mode =? SPI
         else Z.testbit (snd (internalRegister w)) i) /\
    outputRegister1 w' = outputRegister1 w /\
    outputRegister2 w' = outputRegister2 w /\
    In (Ev_spi_writenb (bytes (internalRegister w'))) (trace w').
Proof.
  intros Hseg Hmode Hb. unfold PinMode.
  replace ((seg >? 10) || (seg <? 1)) with false by lia.
  destruct Hmode as [-> | ->].
  - change (DIO =? DIO) with true. cbv iota.
    replace (seg <? 9) with true by lia.
    rewrite bind_assoc. mstep. cbv iota.
    destruct (PinMode_tail_registers seg DIO
                (upd1 (fun x => and_not_bit P x (to_uint (seg - 1)))) w
                ltac:(lia) ltac:(cbn [In]; tauto))
      as (w' & E & Hi & H1 & H2 & Hin).
    exists w'. split; [ exact E | ]. rewrite Hi.
    split; [ reflexivity | ].
    split; [ | split; [ exact H1 | split; [ exact H2 | exact Hin ] ] ].
    intros i Hi0. cbn [upd1 snd].
    rewrite and_not_bit_bits by (try assumption; lia). reflexivity.
  - change (SPI =? DIO) with false. change (SPI =? SPI) with true. cbv iota.
    replace (seg <? 9) with true by lia.
    rewrite bind_assoc. mstep. cbv iota.
    destruct (PinMode_tail_registers seg SPI
                (upd1 (fun x => or_bit P x (to_uint (seg - 1)))) w
                ltac:(lia) ltac:(cbn [In]; tauto))
      as (w' & E & Hi & H1 & H2 & Hin).
    exists w'. split; [ exact E | ]. rewrite Hi.
    split; [ reflexivity | ].
    split; [ | split; [ exact H1 | split; [ exact H2 | exact Hin ] ] ].
    intros i Hi0. cbn [upd1 snd].
    rewrite or_bit_bits by (try assumption; lia). reflexivity.
Qed.

(** X7: [PinMode] with [DIO] on segment 9 or 10 returns 0 and clears bit
    segment-9 of element 0 of [internalRegister]; every other bit of the
    register is as before. *)
Theorem PinMode_DIO_high_segment seg w :
  9 <= seg <= 10 -> byte (fst (internalRegister w)) ->
  exists w',
    PinMode P seg DIO w = Returned 0 w' /\
    snd (internalRegister w') = snd (internalRegister w) /\
    (forall i, 0 <= i ->
       Z.testbit (fst (internalRegister w')) i =
         if i =? seg - 9 then false
         else Z.testbit (fst (internalRegister w)) i).
Proof.
  intros Hseg Hb. unfold PinMode.
  replace ((seg >? 10) || (seg <? 1)) with false by lia.
  change (DIO =? DIO) with true. cbv iota.
  replace (seg <? 9) with false by lia.
  rewrite bind_assoc. mstep. cbv iota.
  destruct (PinMode_tail_registers seg DIO
              (upd0 (fun x => and_not_bit P x (to_uint (seg - 9)))) w
              ltac:(lia) ltac:(cbn [In]; tauto))
    as (w' & E & Hi & _).
  exists w'. split; [ exact E | ]. rewrite Hi.
  split; [ reflexivity | ].
  intros i Hi0. cbn [upd0 fst].
  rewrite and_not_bit_bits by (try assumption; lia). reflexivity.
Qed.

Lemma or_bit_9 x : byte x -> or_bit P x (to_uint (10 - 1)) = x.
Proof.
  intros Hx. unfold or_bit.
  change (shl P 1 (to_uint (10 - 1))) with 512.
  apply Z.bits_inj'. intros i Hi.
  rewrite to_uint8_bits, Z.lor_spec by exact Hi.
  change 512 with (2 ^ 9). rewrite Z.pow2_bits_eqb by lia.
  destruct (Z.ltb_spec i 8).
  - replace (9 =? i) with false by lia. rewrite orb_false_r. reflexivity.
  - rewrite (byte_high_bits x i) by assumption. reflexivity.
Qed.

(** X8: [PinMode] with [SIO] on segment 10 is accepted (returns 0 and
    transmits the register), but the register is not changed: the bit it
    sets, 1 << 9, does not fit the [uint8_t] element it is stored in. *)
Theorem PinMode_SIO_leaves_register w :
  byte (fst (internalRegister w)) ->
  exists w',
    PinMode P 10 SIO w = Returned 0 w' /\
    internalRegister w' = internalRegister w /\
    In (Ev_spi_writenb (bytes (internalRegister w))) (trace w').
Proof.
  intros Hb. unfold PinMode.
  change ((10 >? 10) || (10 <? 1)) with false.
  change (SIO =? DIO) with false. change (SIO =? SPI) with false.
  change (SIO =? SIO) with true. change (10 =? 10) with true. cbv iota.
  rewrite bind_assoc. mstep. cbv iota.
  destruct (PinMode_tail_registers 10 SIO
              (upd0 (fun x => or_bit P x (to_uint (10 - 1)))) w
              ltac:(lia) ltac:(cbn [In]; tauto))
    as (w' & E & Hi & _ & _ & Hin).
  assert (Hu : upd0 (fun x => or_bit P x (to_uint (10 - 1)))
                    (internalRegister w) = internalRegister w).
  { unfold upd0. rewrite or_bit_9 by exact Hb.
    destruct (internalRegister w); reflexivity. }
  rewrite Hu in Hi, Hin.
  exists w'. split; [ exact E | ]. split; [ exact Hi | exact Hin ].
Qed.

(** [PinMode] on a segment number outside 1..10 returns -1 and does
    nothing but log. *)
Lemma PinMode_segment_out_of_range seg mode w :
  seg < 1 \/ 10 < seg ->
  PinMode P seg mode w = Returned (-1) (after [Ev_LOG LOG_ERROR] w).
Proof.
  intros H. unfold PinMode.
  replace ((seg >? 10) || (seg <? 1)) with true by lia.
  reflexivity.
Qed.

End PinModeMore.

(** Segment 3 from the initial register: [DIO] clears bit 2. *)
Lemma PinMode_DIO_SPI_segment_bit_3 :
  1 <= 3 <= 8 /\ (DIO = DIO \/ DIO = SPI) /\
  byte (snd (internalRegister boot)) /\
  exists w',
    PinMode loopback 3 DIO boot = Returned 0 w' /\
    internalRegister w' = (0xFF, 0xFB).
Proof.
  assert (H1 : 1 <= 3 <= 8) by lia.
  assert (H2 : DIO = DIO \/ DIO = SPI) by (left; reflexivity).
  assert (H3 : byte (snd (internalRegister boot))) by (unfold byte; cbn; lia).
  split; [ exact H1 | ]. split; [ exact H2 | ]. split; [ exact H3 | ].
  destruct (PinMode_DIO_SPI_segment_bit loopback 3 DIO boot H1 H2 H3)
    as (w' & E & _).
  exists w'. split; [ exact E | ].
  assert (E' : exists w1, PinMode loopback 3 DIO boot = Returned 0 w1 /\
                          internalRegister w1 = (0xFF, 0xFB)).
  { exists_outcome_world. split; vm_compute; reflexivity. }
  destruct E' as (w1 & E1 & H). rewrite E in E1. injection E1 as <-. exact H.
Defined.

(** Segment 10 from the initial register: [DIO] clears bit 1 of element
    0. *)
Lemma PinMode_DIO_high_segment_10 :
  9 <= 10 <= 10 /\ byte (fst (internalRegister boot)) /\
  exists w',
    PinMode loopback 10 DIO boot = Returned 0 w' /\
    snd (internalRegister w') = snd (internalRegister boot) /\
    Z.testbit (fst (internalRegister w')) 1 = false.
Proof.
  assert (H1 : 9 <= 10 <= 10) by lia.
  assert (H2 : byte (fst (internalRegister boot))) by (unfold byte; cbn; lia).
  split; [ exact H1 | ]. split; [ exact H2 | ].
  destruct (PinMode_DIO_high_segment loopback 10 boot H1 H2)
    as (w' & E & Hs & Hb).
  exists w'. split; [ exact E | ]. split; [ exact Hs | ].
  rewrite Hb by lia. reflexivity.
Defined.

(** [SIO] on segment 10 from the initial register. *)
Lemma PinMode_SIO_leaves_register_boot :
  byte (fst (internalRegister boot)) /\
  exists w',
    PinMode loopback 10 SIO boot = Returned 0 w' /\
    internalRegister w' = internalRegister boot.
Proof.
  assert (H : byte (fst (internalRegister boot))) by (unfold byte; cbn; lia).
  split; [ exact H | ].
  destruct (PinMode_SIO_leaves_register loopback boot H) as (w' & E & Hi & _).
  exists w'. split; [ exact E | exact Hi ].
Defined.

(** ** Register codec: [DigitalWrite] *)

Lemma word16_injective a0 a1 b0 b1 :
  byte a0 -> byte a1 -> byte b0 -> byte b1 ->
  (forall i, 0 <= i ->
     Z.testbit (word16 (a0, a1)) i = Z.testbit (word16 (b0, b1)) i) ->
  (a0, a1) = (b0, b1).
Proof.
  intros Ha0 Ha1 Hb0 Hb1 H.
  assert (E1 : a1 = b1).
  { apply Z.bits_inj'. intros i Hi. destruct (Z.ltb_spec i 8) as [Hlt | Hge].
    - specialize (H i Hi). rewrite !word16_bits in H by assumption.
      replace (i <? 8) with true in H by lia. exact H.
    - rewrite !byte_high_bits by assumption. reflexivity. }
  assert (E0 : a0 = b0).
  { apply Z.bits_inj'. intros i Hi.
    specialize (H (i + 8) ltac:(lia)). rewrite !word16_bits in H by (assumption || lia).
    replace (i + 8 <? 8) with false in H by lia.
    replace (i + 8 - 8) with i in H by lia. exact H. }
  now rewrite E0, E1.
Qed.

Section DigitalWriteMore.

Variable P : Platform.

(** The registers [DigitalWrite] leaves, however the call ends: the bit
    operation on the owning element, nothing else. *)
Lemma DigitalWrite_final pin value w :
  1 <= pin <= 20 ->
  exists w',
    final_world (DigitalWrite P pin value w) = Some w' /\
    internalRegister w' = internalRegister w /\
    outputRegister1 w' =
      (if pin <=? 8 then
         upd1 (fun x => if value =? HIGH then or_bit P x (to_uint (pin - 1))
                        else and_not_bit P x (to_uint (pin - 1)))
              (outputRegister1 w)
       else if pin <=? 16 then
         upd0 (fun x => if value =? HIGH then or_bit P x (to_uint (pin - 9))
                        else and_not_bit P x (to_uint (pin - 9)))
              (outputRegister1 w)
       else outputRegister1 w) /\
    outputRegister2 w' =
      (if pin <=? 16 then outputRegister2 w
       else
         upd1 (fun x => if value =? HIGH then or_bit P x (to_uint (pin - 17))
                        else and_not_bit P x (to_uint (pin - 17)))
              (outputRegister2 w)).
Proof.
  intros Hpin. unfold DigitalWrite.
  destruct (Z.le_gt_cases pin 8) as [H8 | H8].
  - replace (pin <=? 8) with true by lia.
    replace (pin <=? 16) with true by lia.
    unfold on_outputRegister1.
    destruct (value =? HIGH); rewrite bind_modify;
      match goal with |- context [bind (SetShieldMode ?m) ?k ?w0] =>
        destruct (DigitalWrite_tail_final P m outputRegister1 pin w0 Hpin)
          as (w' & Hf & Hr)
      end;
      apply registers_eq in Hr; destruct Hr as (Hi & H1 & H2);
      exists w'; (split; [ exact Hf | ]);
      (split; [ exact Hi | ]); (split; [ exact H1 | exact H2 ]).
  - replace (pin <=? 8) with false by lia.
    destruct (Z.le_gt_cases pin 16) as [H16 | H16].
    + replace ((pin >=? 9) && (pin <=? 16)) with true by lia.
      replace (pin <=? 16) with true by lia.
      unfold on_outputRegister1.
      destruct (value =? HIGH); rewrite bind_modify;
        match goal with |- context [bind (SetShieldMode ?m) ?k ?w0] =>
          destruct (DigitalWrite_tail_final P m outputRegister1 pin w0 Hpin)
            as (w' & Hf & Hr)
        end;
        apply registers_eq in Hr; destruct Hr as (Hi & H1 & H2);
        exists w'; (split; [ exact Hf | ]);
        (split; [ exact Hi | ]); (split; [ exact H1 | exact H2 ]).
    + replace ((pin >=? 9) && (pin <=? 16)) with false by lia.
      replace ((pin >=? 17) && (pin <=? 20)) with true by lia.
      replace (pin <=? 16) with false by lia.
      unfold on_outputRegister2.
      destruct (value =? HIGH); rewrite bind_modify;
        match goal with |- context [bind (SetShieldMode ?m) ?k ?w0] =>
          destruct (DigitalWrite_tail_final P m outputRegister2 pin w0 Hpin)
            as (w' & Hf & Hr)
        end;
        apply registers_eq in Hr; destruct Hr as (Hi & H1 & H2);
        exists w'; (split; [ exact Hf | ]);
        (split; [ exact Hi | ]); (split; [ exact H1 | exact H2 ]).
Qed.

Lemma bit_op_bits value x n i :
  byte x -> 0 <= n < 8 -> 0 <= i ->
  Z.testbit (if value =? HIGH then or_bit P x (to_uint n)
             else and_not_bit P x (to_uint n)) i =
    if i =? n then value =? HIGH else Z.testbit x i.
Proof.
  intros Hx Hn Hi. destruct (value =? HIGH).
  - now apply or_bit_bits.
  - now apply and_not_bit_bits.
Qed.

Lemma bit_op_byte value x n :
  byte (if value =? HIGH then or_bit P x (to_uint n)
        else and_not_bit P x (to_uint n)).
Proof. destruct (value =? HIGH); apply to_uint8_byte. Qed.

(** The same on the 16-bit words of the layout tables: the pin's bit takes
    the truth of [value == HIGH], every other bit is kept. *)
Lemma DigitalWrite_word_bits pin value w :
  1 <= pin <= 20 -> output_bytes w ->
  exists w',
    final_world (DigitalWrite P pin value w) = Some w' /\
    output_bytes w' /\
    internalRegister w' = internalRegister w /\
    (forall i, 0 <= i ->
       Z.testbit (word16 (outputRegister1 w')) i =
         if (pin <=? 16) && (i =? pin - 1) then value =? HIGH
         else Z.testbit (word16 (outputRegister1 w)) i) /\
    (forall i, 0 <= i ->
       Z.testbit (word16 (outputRegister2 w')) i =
         if (17 <=? pin) && (i =? pin - 17) then value =? HIGH
         else Z.testbit (word16 (outputRegister2 w)) i).
Proof.
  intros Hpin (B10 & B11 & B20 & B21).
  destruct (DigitalWrite_final pin value w Hpin) as (w' & Hf & Hi & H1 & H2).
  exists w'. split; [ exact Hf | ].
  destruct (outputRegister1 w) as [a0 a1] eqn:E1.
  destruct (outputRegister2 w) as [c0 c1] eqn:E2.
  cbn [fst snd] in *.
  destruct (Z.le_gt_cases pin 8) as [H8 | H8].
  - replace (pin <=? 8) with true in H1 by lia.
    replace (pin <=? 16) with true in H2 by lia.
    replace (pin <=? 16) with true by lia.
    replace (17 <=? pin) with false by lia.
    unfold output_bytes. rewrite H1, H2. unfold upd1. cbn [fst snd andb].
    split; [ repeat first [ exact B10 | exact B11 | exact B20 | exact B21
                         | apply bit_op_byte | split ] | ].
    split; [ exact Hi | ].
    split; [ | intros; reflexivity ].
    intros i Hi0. rewrite !word16_bits by (assumption || apply bit_op_byte).
    rewrite bit_op_bits by (assumption || lia).
    destruct (Z.ltb_spec i 8); [ reflexivity | ].
    replace (i =? pin - 1) with false by lia. reflexivity.
  - replace (pin <=? 8) with false in H1 by lia.
    destruct (Z.le_gt_cases pin 16) as [H16 | H16].
    + replace (pin <=? 16) with true in H1, H2 by lia.
      replace (pin <=? 16) with true by lia.
      replace (17 <=? pin) with false by lia.
      unfold output_bytes. rewrite H1, H2. unfold upd0. cbn [fst snd andb].
      split; [ repeat first [ exact B10 | exact B11 | exact B20 | exact B21
                         | apply bit_op_byte | split ] | ].
      split; [ exact Hi | ].
      split; [ | intros; reflexivity ].
      intros i Hi0. rewrite !word16_bits by assumption.
      destruct (Z.ltb_spec i 8).
      * replace (i =? pin - 1) with false by lia. reflexivity.
      * rewrite bit_op_bits by (assumption || lia).
        replace (i - 8 =? pin - 9) with (i =? pin - 1) by lia. reflexivity.
    + replace (pin <=? 16) with false in H1, H2 by lia.
      replace (pin <=? 16) with false by lia.
      replace (17 <=? pin) with true by lia.
      unfold output_bytes. rewrite H1, H2. unfold upd1. cbn [fst snd andb].
      split; [ repeat first [ exact B10 | exact B11 | exact B20 | exact B21
                         | apply bit_op_byte | split ] | ].
      split; [ exact Hi | ].
      split; [ intros; reflexivity | ].
      intros i Hi0. rewrite !word16_bits by (assumption || apply bit_op_byte).
      rewrite bit_op_bits by (assumption || lia).
      destruct (Z.ltb_spec i 8); [ reflexivity | ].
      replace (i =? pin - 17) with false by lia. reflexivity.
Qed.

(** Two worlds with byte-sized output registers whose words agree bit by
    bit have the same registers. *)
Lemma registers_by_bits w1 w2 :
  output_bytes w1 -> output_bytes w2 ->
  internalRegister w1 = internalRegister w2 ->
  (forall i, 0 <= i -> Z.testbit (word16 (outputRegister1 w1)) i =
                       Z.testbit (word16 (outputRegister1 w2)) i) ->
  (forall i, 0 <= i -> Z.testbit (word16 (outputRegister2 w1)) i =
                       Z.testbit (word16 (outputRegister2 w2)) i) ->
  registers w1 = registers w2.
Proof.
  intros (A0 & A1 & A2 & A3) (B0 & B1 & B2 & B3) Hi H1 H2.
  unfold registers. rewrite Hi.
  destruct (outputRegister1 w1), (outputRegister1 w2),
    (outputRegister2 w1), (outputRegister2 w2). cbn [fst snd] in *.
  rewrite (word16_injective _ _ _ _ A0 A1 B0 B1 H1).
  rewrite (word16_injective _ _ _ _ A2 A3 B2 B3 H2).
  reflexivity.
Qed.

Lemma Returned_final {A} (o : Outcome A) r w' :
  o = Returned r w' -> final_world o = Some w'.
Proof. intros ->. reflexivity. Qed.

(** What a returning [DigitalWrite] leaves, on the words. *)
Lemma DigitalWrite_returned_bits pin value w r w' :
  1 <= pin <= 20 -> output_bytes w ->
  DigitalWrite P pin value w = Returned r w' ->
  output_bytes w' /\
  internalRegister w' = internalRegister w /\
  (forall i, 0 <= i ->
     Z.testbit (word16 (outputRegister1 w')) i =
       if (pin <=? 16) && (i =? pin - 1) then value =? HIGH
       else Z.testbit (word16 (outputRegister1 w)) i) /\
  (forall i, 0 <= i ->
     Z.testbit (word16 (outputRegister2 w')) i =
       if (17 <=? pin) && (i =? pin - 17) then value =? HIGH
       else Z.testbit (word16 (outputRegister2 w)) i).
Proof.
  intros Hpin Hb E.
  destruct (DigitalWrite_word_bits pin value w Hpin Hb) as (w1 & Hf & H).
  rewrite (Returned_final _ _ _ E) in Hf. injection Hf as <-. exact H.
Qed.

(** X9: [DigitalWrite] compares [value] with HIGH only: after a returning
    call on a pin in 1..20 the pin's latched level is HIGH exactly when
    [value] is 1 (every other value, not only 0, latches LOW), and the
    latched level of every other pin is as before. *)
Theorem DigitalWrite_latches_value_is_HIGH pin value w r w' :
  1 <= pin <= 20 -> output_bytes w ->
  DigitalWrite P pin value w = Returned r w' ->
  pin_bit w' pin = (value =? 1) /\
  forall q, 1 <= q <= 20 -> q <> pin -> pin_bit w' q = pin_bit w q.
Proof.
  intros Hpin Hb E.
  destruct (DigitalWrite_returned_bits pin value w r w' Hpin Hb E)
    as (_ & _ & H1 & H2).
  unfold pin_bit. split.
  - destruct (Z.le_gt_cases pin 16).
    + replace (pin <=? 16) with true by lia. rewrite H1 by lia.
      replace (pin <=? 16) with true by lia. now rewrite Z.eqb_refl.
    + replace (pin <=? 16) with false by lia. rewrite H2 by lia.
      replace (17 <=? pin) with true by lia. now rewrite Z.eqb_refl.
  - intros q Hq Hne. destruct (Z.le_gt_cases q 16).
    + replace (q <=? 16) with true by lia. rewrite H1 by lia.
      replace (q - 1 =? pin - 1) with false by lia.
      now rewrite andb_false_r.
    + replace (q <=? 16) with false by lia. rewrite H2 by lia.
      replace (q - 17 =? pin - 17) with false by lia.
      now rewrite andb_false_r.
Qed.

(** X10: the last write wins.  Two returning writes to the same pin leave
    the registers a single write of the second value leaves. *)
Theorem DigitalWrite_last_write_wins pin a b w r1 w1 r2 w2 r3 w3 :
  1 <= pin <= 20 -> output_bytes w ->
  DigitalWrite P pin a w = Returned r1 w1 ->
  DigitalWrite P pin b w1 = Returned r2 w2 ->
  DigitalWrite P pin b w = Returned r3 w3 ->
  registers w2 = registers w3.
Proof.
  intros Hpin Hb E1 E2 E3.
  destruct (DigitalWrite_returned_bits pin a w r1 w1 Hpin Hb E1)
    as (B1 & I1 & X1 & Y1).
  destruct (DigitalWrite_returned_bits pin b w1 r2 w2 Hpin B1 E2)
    as (B2 & I2 & X2 & Y2).
  destruct (DigitalWrite_returned_bits pin b w r3 w3 Hpin Hb E3)
    as (B3 & I3 & X3 & Y3).
  apply registers_by_bits; try assumption.
  - congruence.
  - intros i Hi. rewrite X2, X3, X1 by exact Hi.
    destruct ((pin <=? 16) && (i =? pin - 1)); reflexivity.
  - intros i Hi. rewrite Y2, Y3, Y1 by exact Hi.
    destruct ((17 <=? pin) && (i =? pin - 17)); reflexivity.
Qed.

(** X11: writes to different pins commute: in either order they leave the
    same registers. *)
Theorem DigitalWrite_distinct_pins_commute p q a b w r1 w1 r2 w2 r3 v1 r4 v2 :
  1 <= p <= 20 -> 1 <= q <= 20 -> p <> q -> output_bytes w ->
  DigitalWrite P p a w = Returned r1 w1 ->
  DigitalWrite P q b w1 = Returned r2 w2 ->
  DigitalWrite P q b w = Returned r3 v1 ->
  DigitalWrite P p a v1 = Returned r4 v2 ->
  registers w2 = registers v2.
Proof.
  intros Hp Hq Hne Hb E1 E2 E3 E4.
  destruct (DigitalWrite_returned_bits p a w r1 w1 Hp Hb E1)
    as (B1 & I1 & X1 & Y1).
  destruct (DigitalWrite_returned_bits q b w1 r2 w2 Hq B1 E2)
    as (B2 & I2 & X2 & Y2).
  destruct (DigitalWrite_returned_bits q b w r3 v1 Hq Hb E3)
    as (B3 & I3 & X3 & Y3).
  destruct (DigitalWrite_returned_bits p a v1 r4 v2 Hp B3 E4)
    as (B4 & I4 & X4 & Y4).
  apply registers_by_bits; try assumption.
  - congruence.
  - intros i Hi. rewrite X2, X4, X1, X3 by exact Hi.
    destruct (Z.eqb_spec i (q - 1)), (Z.eqb_spec i (p - 1));
      try lia; rewrite ?andb_false_r, ?andb_true_r;
      destruct (q <=? 16), (p <=? 16); reflexivity.
  - intros i Hi. rewrite Y2, Y4, Y1, Y3 by exact Hi.
    destruct (Z.eqb_spec i (q - 17)), (Z.eqb_spec i (p - 17));
      try lia; rewrite ?andb_false_r, ?andb_true_r;
      destruct (17 <=? q), (17 <=? p); reflexivity.
Qed.

(** X12: the round trip.  Writing any value to a pin and then the level
    the pin had before restores the registers exactly; in particular
    HIGH then LOW restores them when the pin was LOW. *)
Theorem DigitalWrite_round_trip pin a b w r1 w1 r2 w2 :
  1 <= pin <= 20 -> output_bytes w ->
  pin_bit w pin = (b =? 1) ->
  DigitalWrite P pin a w = Returned r1 w1 ->
  DigitalWrite P pin b w1 = Returned r2 w2 ->
  registers w2 = registers w.
Proof.
  intros Hpin Hb Hbit E1 E2.
  destruct (DigitalWrite_returned_bits pin a w r1 w1 Hpin Hb E1)
    as (B1 & I1 & X1 & Y1).
  destruct (DigitalWrite_returned_bits pin b w1 r2 w2 Hpin B1 E2)
    as (B2 & I2 & X2 & Y2).
  unfold pin_bit, HIGH in *.
  apply registers_by_bits; try assumption.
  - congruence.
  - intros i Hi. rewrite X2, X1 by exact Hi.
    destruct (Z.leb_spec pin 16); cbn [andb]; [ | reflexivity ].
    destruct (Z.eqb_spec i (pin - 1)) as [-> | _]; [ | reflexivity ].
    symmetry. exact Hbit.
  - intros i Hi. rewrite Y2, Y1 by exact Hi.
    destruct (Z.leb_spec pin 16).
    + replace (17 <=? pin) with false by lia. reflexivity.
    + replace (17 <=? pin) with true by lia. cbn [andb].
      destruct (Z.eqb_spec i (pin - 17)) as [-> | _]; [ | reflexivity ].
      symmetry. exact Hbit.
Qed.

(** X13: a pin number above 20 is rejected: closing sequence, error log,
    -1, and the registers are as before however the call ends. *)
Theorem DigitalWrite_rejects_above_20 pin value w :
  20 < pin ->
  DigitalWrite P pin value w =
    match idle_sequence P w with
    | Returned _ w' => Returned (-1) (after [Ev_LOG LOG_ERROR] w')
    | Exited s w' => Exited s w'
    | Undefined w' => Undefined w'
    | OutOfFuel => OutOfFuel
    end /\
  (forall w', final_world (DigitalWrite P pin value w) = Some w' ->
              registers w' = registers w) /\
  (readback P -> exists w', DigitalWrite P pin value w = Returned (-1) w').
Proof.
  intros Hpin. destruct (DigitalWrite_above_20 P pin value w Hpin) as (E & Hr).
  split; [ exact E | ]. split; [ exact Hr | ].
  intros Hrb. rewrite E.
  destruct (idle_sequence_healthy P w Hrb) as (w1 & ->).
  eexists. reflexivity.
Qed.

End DigitalWriteMore.

(** Runs a closed operation and names the world it returns in. *)
Ltac run_returned o w E :=
  let r := eval vm_compute in o in
  match r with
  | Returned ?a ?w1 =>
      pose (w := w1);
      assert (E : o = Returned a w) by (vm_compute; reflexivity)
  end.

Lemma output_bytes_boot : output_bytes boot.
Proof. unfold output_bytes, byte; cbn; lia. Qed.

(** The value 2 on pin 5 latches LOW. *)
Lemma DigitalWrite_latches_value_is_HIGH_2 :
  exists w',
    DigitalWrite loopback 5 2 boot = Returned 0 w' /\
    pin_bit w' 5 = false.
Proof.
  run_returned (DigitalWrite loopback 5 2 boot) w' E.
  exists w'. split; [ exact E | ].
  destruct (DigitalWrite_latches_value_is_HIGH loopback 5 2 boot 0 w'
              ltac:(lia) output_bytes_boot E) as (H & _).
  exact H.
Defined.

(** Pin 12: HIGH then LOW against LOW alone. *)
Lemma DigitalWrite_last_write_wins_pin_12 :
  exists w1 w2 w3,
    DigitalWrite loopback 12 1 boot = Returned 0 w1 /\
    DigitalWrite loopback 12 0 w1 = Returned 0 w2 /\
    DigitalWrite loopback 12 0 boot = Returned 0 w3 /\
    registers w2 = registers w3.
Proof.
  run_returned (DigitalWrite loopback 12 1 boot) w1 E1.
  run_returned (DigitalWrite loopback 12 0 w1) w2 E2.
  run_returned (DigitalWrite loopback 12 0 boot) w3 E3.
  exists w1, w2, w3.
  split; [ exact E1 | ]. split; [ exact E2 | ]. split; [ exact E3 | ].
  exact (DigitalWrite_last_write_wins loopback 12 1 0 boot 0 w1 0 w2 0 w3
           ltac:(lia) output_bytes_boot E1 E2 E3).
Defined.

(** Pins 3 and 18, in both orders. *)
Lemma DigitalWrite_distinct_pins_commute_3_18 :
  exists w1 w2 v1 v2,
    DigitalWrite loopback 3 1 boot = Returned 0 w1 /\
    DigitalWrite loopback 18 1 w1 = Returned 0 w2 /\
    DigitalWrite loopback 18 1 boot = Returned 0 v1 /\
    DigitalWrite loopback 3 1 v1 = Returned 0 v2 /\
    registers w2 = registers v2.
Proof.
  run_returned (DigitalWrite loopback 3 1 boot) w1 E1.
  run_returned (DigitalWrite loopback 18 1 w1) w2 E2.
  run_returned (DigitalWrite loopback 18 1 boot) v1 E3.
  run_returned (DigitalWrite loopback 3 1 v1) v2 E4.
  exists w1, w2, v1, v2.
  split; [ exact E1 | ]. split; [ exact E2 | ]. split; [ exact E3 | ].
  split; [ exact E4 | ].
  exact (DigitalWrite_distinct_pins_commute loopback 3 18 1 1 boot
           0 w1 0 w2 0 v1 0 v2
           ltac:(lia) ltac:(lia) ltac:(lia) output_bytes_boot E1 E2 E3 E4).
Defined.

(** Pin 5 is LOW at the start: HIGH then LOW restores the registers. *)
Lemma DigitalWrite_round_trip_pin_5 :
  pin_bit boot 5 = (0 =? 1) /\
  exists w1 w2,
    DigitalWrite loopback 5 1 boot = Returned 0 w1 /\
    DigitalWrite loopback 5 0 w1 = Returned 0 w2 /\
    registers w2 = registers boot.
Proof.
  assert (H : pin_bit boot 5 = (0 =? 1)) by reflexivity.
  split; [ exact H | ].
  run_returned (DigitalWrite loopback 5 1 boot) w1 E1.
  run_returned (DigitalWrite loopback 5 0 w1) w2 E2.
  exists w1, w2. split; [ exact E1 | ]. split; [ exact E2 | ].
  exact (DigitalWrite_round_trip loopback 5 1 0 boot 0 w1 0 w2
           ltac:(lia) output_bytes_boot H E1 E2).
Defined.

(** Pin 21 on the loop-back board. *)
Lemma DigitalWrite_rejects_above_20_pin_21 :
  20 < 21 /\
  exists w', DigitalWrite loopback 21 1 boot = Returned (-1) w'.
Proof.
  split; [ lia | ].
  destruct (DigitalWrite_rejects_above_20 loopback 21 1 boot ltac:(lia))
    as (_ & _ & H).
  exact (H readback_loopback).
Defined.

(** ** Register codec: reads and the converters *)

Section ReadsMore.

Variable P : Platform.

Lemma switched_registers mode w : registers (switched mode w) = registers w.
Proof. apply switched_frame. Qed.

(** X14: a returning [DigitalRead] of a pin number from 1 up yields the
    pin's bit of the input register it has just received (pins 1..8 from
    element 1, pins 9..10 from element 0), so 0 or 1, and -1 for a pin
    number above 10; it returns from a verified idle bus. *)
Theorem DigitalRead_decodes_pin pin w r w' :
  1 <= pin ->
  DigitalRead P pin w = Returned r w' ->
  r = (if pin <=? 8 then
         Z.b2z (Z.testbit (snd (DigitalRead_inputRegister P w)) (pin - 1))
       else if pin <=? 10 then
         Z.b2z (Z.testbit (fst (DigitalRead_inputRegister P w)) (pin - 9))
       else -1) /\
  (pin <= 10 -> r = 0 \/ r = 1) /\
  idle_verified P w'.
Proof.
  intros Hpin E. destruct (Z.le_gt_cases pin 10) as [H10 | H10].
  - pose proof (DigitalRead_valid_pin P pin w ltac:(lia)) as C.
    rewrite E in C. destruct C as (Hr & H01 & Hv).
    split; [ | split; [ intros _; exact H01 | exact Hv ] ].
    rewrite Hr. destruct (Z.le_gt_cases pin 8).
    + replace (pin <=? 8) with true by lia. reflexivity.
    + replace (pin <=? 8) with false by lia.
      replace (pin <=? 10) with true by lia. reflexivity.
  - pose proof (DigitalRead_above_10 P pin w H10) as C.
    rewrite E in C. destruct C as (Hr & Hv).
    split; [ | split; [ intros; lia | exact Hv ] ].
    replace (pin <=? 8) with false by lia.
    replace (pin <=? 10) with false by lia. exact Hr.
Qed.

(** X15: whatever the channel and whatever the converter answers, a
    returning [AnalogRead] yields a value in 0..4095; for a channel above 7
    it yields 0 having done nothing but log. *)
Theorem AnalogRead_at_most_4095 port w r w' :
  0 <= port ->
  AnalogRead P port w = Returned r w' ->
  0 <= r <= ADC_MAXIMUM /\
  (7 < port -> r = 0 /\ w' = after [Ev_LOG LOG_ERROR] w).
Proof.
  intros Hport E. destruct (Z.le_gt_cases port 7) as [H7 | H7].
  - split; [ | intros; lia ].
    rewrite AnalogRead_run in E by lia. cbv zeta in E.
    assert (B0 : byte (fst (AnalogRead_rbuf P port w)))
      by apply to_uint8_byte.
    assert (B1 : byte (snd (AnalogRead_rbuf P port w)))
      by apply to_uint8_byte.
    destruct (Z.gtb_spec
                (Z.shiftl (fst (AnalogRead_rbuf P port w)) 8 +
                 snd (AnalogRead_rbuf P port w)) ADC_MAXIMUM) as [Hov | Hok].
    + injection E as <- _. apply masked_bound. exact B1.
    + assert (Hnn : 0 <= Z.shiftl (fst (AnalogRead_rbuf P port w)) 8 +
                         snd (AnalogRead_rbuf P port w)).
      { rewrite Z.shiftl_mul_pow2 by lia. change (2 ^ 8) with 256.
        unfold byte in *. lia. }
      destruct (idle_sequence P _) as [[] w1 | | | ]; try discriminate E.
      injection E as <- _.
      split; [ exact Hnn | exact Hok ].
  - unfold AnalogRead in E. replace (port >? 7) with true in E by lia.
    injection E as <- <-. unfold ADC_MAXIMUM.
    split; [ lia | intros _; split; reflexivity ].
Qed.

(** The run of [AnalogWrite] for inputs inside the bounds. *)
Lemma AnalogWrite_in_range_run adc_addr mv_value w :
  adc_addr <= 1 -> mv_value <= 2230 ->
  AnalogWrite P adc_addr mv_value w =
    idle_sequence P
      (after [Ev_spi_writenb
                [to_uint8 (0x30 + adc_addr);
                 to_uint8 (fst (dac_data P mv_value));
                 to_uint8 (snd (dac_data P mv_value))];
              Ev_usleep (spi_delay_usecs w); Ev_LOG LOG_NOTICE]
         (switched DAC
            (after [Ev_spi_writenb [48]; Ev_usleep (spi_delay_usecs w);
                    Ev_spi_writenb [48]; Ev_usleep (spi_delay_usecs w);
                    Ev_spi_transfern [0; 0]; Ev_usleep (spi_delay_usecs w)]
               (switched ADC w)))).
Proof.
  intros Ha Hm. unfold AnalogWrite.
  replace (mv_value >? 2230) with false by lia.
  replace (adc_addr >? 1) with false by lia.
  rewrite !bind_ret. cbv beta zeta.
  rewrite bind_SetShieldMode. mstep.
  rewrite bind_transfern. mstep.
  rewrite bind_SetShieldMode. mstep.
  rewrite !after_after, !spi_delay_after.
  destruct (switched_frame ADC w) as (_ & _ & Hd & _).
  rewrite !Hd.
  match goal with |- context [spi_delay_usecs (switched DAC ?w0)] =>
    destruct (switched_frame DAC w0) as (_ & _ & Hd' & _);
    rewrite !Hd'
  end.
  rewrite !spi_delay_after, !Hd.
  unfold idle_sequence. reflexivity.
Qed.

(** The boundary checks of [AnalogWrite]. *)
Lemma AnalogWrite_clamp_run adc_addr mv_value w :
  AnalogWrite P adc_addr mv_value w =
    AnalogWrite P (Z.min adc_addr 1) (Z.min mv_value 2230)
      (after ((if mv_value >? 2230 then [Ev_LOG LOG_WARNING] else []) ++
              (if adc_addr >? 1 then [Ev_LOG LOG_WARNING] else [])) w).
Proof.
  unfold AnalogWrite.
  replace (Z.min mv_value 2230 >? 2230) with false by lia.
  replace (Z.min adc_addr 1 >? 1) with false by lia.
  rewrite !bind_clamp. cbv beta.
  rewrite !bind_ret. cbv beta.
  replace (if mv_value >? 2230 then 2230 else mv_value)
    with (Z.min mv_value 2230) by (destruct (Z.gtb_spec mv_value 2230); lia).
  replace (if adc_addr >? 1 then 1 else adc_addr)
    with (Z.min adc_addr 1) by (destruct (Z.gtb_spec adc_addr 1); lia).
  destruct (mv_value >? 2230), (adc_addr >? 1);
    cbn [app]; rewrite ?after_after, ?after_nil; reflexivity.
Qed.

(** X16: [AnalogWrite] never rejects: a millivolt value above 2230 and a
    bank above 1 are each replaced by the bound, with one warning logged
    for each, and the call then proceeds as for the bounds. *)
Theorem AnalogWrite_clamps adc_addr mv_value w :
  AnalogWrite P adc_addr mv_value w =
    AnalogWrite P (Z.min adc_addr 1) (Z.min mv_value 2230)
      (after ((if mv_value >? 2230 then [Ev_LOG LOG_WARNING] else []) ++
              (if adc_addr >? 1 then [Ev_LOG LOG_WARNING] else [])) w).
Proof. exact (AnalogWrite_clamp_run adc_addr mv_value w). Qed.

Lemma idle_final_registers w0 w' :
  final_world (idle_sequence P w0) = Some w' -> registers w' = registers w0.
Proof.
  intros H. pose proof (idle_sequence_cases P w0) as C.
  destruct (idle_sequence P w0) as [[] w1 | s w1 | w1 | ];
    try contradiction; injection H as <-; apply C.
Qed.

(** X17: [DigitalRead], [AnalogRead] and [AnalogWrite] never change the
    three registers the module keeps, however they end. *)
Theorem reads_and_converters_keep_registers :
  (forall pin w w',
     final_world (DigitalRead P pin w) = Some w' ->
     registers w' = registers w) /\
  (forall port w w',
     0 <= port ->
     final_world (AnalogRead P port w) = Some w' ->
     registers w' = registers w) /\
  (forall adc_addr mv_value w w',
     final_world (AnalogWrite P adc_addr mv_value w) = Some w' ->
     registers w' = registers w).
Proof.
  assert (Hidle : forall {A} (a : A) w0 w',
    final_world
      match idle_sequence P w0 with
      | Returned _ w1 => Returned a w1
      | Exited s w1 => Exited s w1
      | Undefined w1 => Undefined w1
      | OutOfFuel => OutOfFuel
      end = Some w' ->
    registers w' = registers w0).
  { intros A a w0 w' H. pose proof (idle_sequence_cases P w0) as C.
    destruct (idle_sequence P w0) as [[] w1 | s w1 | w1 | ];
      try contradiction; injection H as <-; apply C. }
  split; [ | split ].
  - intros pin w w' H. rewrite DigitalRead_run in H.
    apply Hidle in H. rewrite H, registers_after.
    apply switched_registers.
  - intros port w w' Hport H. destruct (Z.le_gt_cases port 7) as [H7 | H7].
    + rewrite AnalogRead_run in H by lia. cbv zeta in H.
      destruct (_ >? ADC_MAXIMUM).
      * injection H as <-. rewrite !registers_after.
        unfold AnalogRead_rx_world. rewrite registers_after.
        apply switched_registers.
      * apply Hidle in H. rewrite H, !registers_after.
        unfold AnalogRead_rx_world. rewrite registers_after.
        apply switched_registers.
    + unfold AnalogRead in H. replace (port >? 7) with true in H by lia.
      injection H as <-. reflexivity.
  - intros adc_addr mv_value w w' H.
    rewrite AnalogWrite_clamp_run, AnalogWrite_in_range_run in H by lia.
    apply idle_final_registers in H. rewrite H.
    rewrite registers_after, switched_registers, registers_after,
      switched_registers, registers_after. reflexivity.
Qed.

End ReadsMore.

(** Input pin 10 on a board that answers 0x02, 0x04: bit 1 of element 0. *)
Lemma DigitalRead_decodes_pin_10 :
  1 <= 10 /\
  exists w',
    DigitalRead (answering [0x02; 0x04]) 10 boot = Returned 1 w' /\
    (10 <= 10 -> 1 = 0 \/ 1 = 1) /\
    idle_verified (answering [0x02; 0x04]) w'.
Proof.
  split; [ lia | ].
  run_returned (DigitalRead (answering [0x02; 0x04]) 10 boot) w' E.
  exists w'. split; [ exact E | ].
  destruct (DigitalRead_decodes_pin (answering [0x02; 0x04]) 10 boot 1 w'
              ltac:(lia) E) as (_ & H & Hv).
  split; [ exact H | exact Hv ].
Defined.

(** Channel 2 on a board that answers 0x0A, 0xBC. *)
Lemma AnalogRead_at_most_4095_channel_2 :
  0 <= 2 /\
  exists w',
    AnalogRead (answering [0x0A; 0xBC]) 2 boot = Returned 0xABC w' /\
    0 <= 0xABC <= ADC_MAXIMUM.
Proof.
  split; [ lia | ].
  run_returned (AnalogRead (answering [0x0A; 0xBC]) 2 boot) w' E.
  exists w'. split; [ exact E | ].
  destruct (AnalogRead_at_most_4095 (answering [0x0A; 0xBC]) 2 boot _ w'
              ltac:(lia) E) as (H & _).
  exact H.
Defined.

(** [DigitalRead] of pin 4 leaves the registers of the initial world. *)
Lemma reads_and_converters_keep_registers_pin_4 :
  exists w',
    final_world (DigitalRead loopback 4 boot) = Some w' /\
    registers w' = registers boot.
Proof.
  run_returned (DigitalRead loopback 4 boot) w' E.
  exists w'.
  assert (F : final_world (DigitalRead loopback 4 boot) = Some w')
    by (rewrite E; reflexivity).
  split; [ exact F | ].
  destruct (reads_and_converters_keep_registers loopback) as (H & _).
  exact (H 4 boot w' F).
Defined.

(** ** Name-based wrappers *)

Lemma isdigit_value c : isdigit c = true -> 0 <= code c - 48 <= 9.
Proof. unfold isdigit. lia. Qed.

(** [atoi] of at most one character is that digit, or 0. *)
Lemma atoi_one_char s :
  (String.length s <= 1)%nat -> exists n, atoi s = Some n /\ 0 <= n <= 9.
Proof.
  intros Hlen. destruct s as [ | c [ | c' s']]; [ | | cbn in Hlen; lia ].
  - exists 0. split; [ reflexivity | lia ].
  - unfold atoi. cbn [skip_spaces].
    destruct (isspace c).
    + exists 0. split; [ reflexivity | lia ].
    + destruct (Ascii.eqb c "-"); [ exists 0; split; [ reflexivity | lia ] | ].
      destruct (Ascii.eqb c "+"); [ exists 0; split; [ reflexivity | lia ] | ].
      cbn [digits]. destruct (isdigit c) eqn:Hd.
      * pose proof (isdigit_value c Hd) as Hv.
        exists (code c - 48). change (0 * 10 + (code c - 48)) with (code c - 48).
        replace ((- 2 ^ 31 <=? code c - 48) && (code c - 48 <? 2 ^ 31))
          with true by lia.
        split; [ reflexivity | exact Hv ].
      * exists 0. split; [ reflexivity | lia ].
Qed.

(** The value of [atoi] is bounded by the length of the string. *)
Lemma atoi_bound s n :
  atoi s = Some n ->
  - 10 ^ Z.of_nat (String.length s) < n < 10 ^ Z.of_nat (String.length s).
Proof.
  unfold atoi. intros H.
  pose proof (skip_spaces_length s) as Hs.
  assert (Hmono : forall k, (k <= String.length s)%nat ->
            0 < 10 ^ Z.of_nat k <= 10 ^ Z.of_nat (String.length s)).
  { intros k Hk. split; [ apply Z.pow_pos_nonneg; lia
                        | apply Z.pow_le_mono_r; lia ]. }
  match type of H with (if ?c then _ else _) = _ =>
    destruct c; [ injection H as <- | discriminate H ] end.
  destruct (skip_spaces s) as [ | c s'].
  - specialize (Hmono 0%nat ltac:(lia)). cbn in Hmono. lia.
  - cbn [String.length] in Hs.
    pose proof (digits_bound s' 0 ltac:(lia)) as B1.
    pose proof (digits_bound (String c s') 0 ltac:(lia)) as B2.
    pose proof (Hmono (String.length s') ltac:(lia)) as P1.
    pose proof (Hmono (String.length (String c s')) ltac:(cbn; lia)) as P2.
    cbv iota.
    destruct (Ascii.eqb c "-"); [ lia | ].
    destruct (Ascii.eqb c "+"); [ lia | ].
    change (if isdigit c then digits (code c - 48) s' else 0)
      with (digits 0 (String c s')).
    lia.
Qed.

Lemma prefix_sp_not_d c2 value :
  prefix (String "s" (String c2 EmptyString)) value = true ->
  prefix "d" value = false.
Proof.
  destruct value as [ | a v]; [ discriminate | ].
  cbn [prefix]. destruct (ascii_dec "s" a) as [<- | ]; [ | discriminate ].
  intros _. reflexivity.
Qed.

Lemma prefix_si_not_sp value :
  prefix "si" value = true -> prefix "sp" value = false.
Proof.
  destruct value as [ | a [ | b v]]; [ discriminate | | ].
  - cbn [prefix]. destruct (ascii_dec "s" a); discriminate.
  - cbn [prefix]. destruct (ascii_dec "s" a); [ | discriminate ].
    destruct (ascii_dec "i" b) as [<- | ]; [ | discriminate ].
    intros _. reflexivity.
Qed.

Section RpcMore.

Variable P : Platform.

(** X18: [RpcDigitalRead] of a name of at least ten characters reads the
    input pin named by the character at index 10: pin d for a digit d in
    1..9, pin 10 for '0', for any other character and for a name that
    ends there.  It first sets that segment to [DIO] with [PinMode], which
    cannot fail for such a pin, and then returns what [DigitalRead] of the
    pin returns: 0 or 1, never -1. *)
Theorem RpcDigitalRead_reads_named_pin param w :
  (10 <= String.length param)%nat ->
  exists k,
    1 <= k <= 10 /\
    atoi (substring 10 1 param) = Some (k mod 10) /\
    RpcDigitalRead P (Some param) w =
      (PinMode P k DIO ;; DigitalRead P k) w /\
    forall r w',
      RpcDigitalRead P (Some param) w = Returned r w' -> r = 0 \/ r = 1.
Proof.
  intros Hlen.
  destruct (atoi_one_char (substring 10 1 param)) as (n & Hn & Hr);
    [ apply substring_length | ].
  set (k := if 0 =? n then 10 else n).
  assert (Hk : 1 <= k <= 10) by (subst k; destruct (Z.eqb_spec 0 n); lia).
  assert (Hmod : k mod 10 = n).
  { subst k. destruct (Z.eqb_spec 0 n) as [<- | ]; [ reflexivity | ].
    apply Z.mod_small. lia. }
  destruct (PinMode_accept P k DIO w Hk) as (w1 & E1 & _).
  { cbn. tauto. }
  { unfold assignable, DIO, SPI, SIO. lia. }
  assert (E : RpcDigitalRead P (Some param) w =
              (PinMode P k DIO ;; DigitalRead P k) w).
  { unfold RpcDigitalRead.
    replace (String.length param <? 10)%nat with false
      by (symmetry; apply Nat.ltb_ge; exact Hlen).
    rewrite Hn. cbv zeta. fold k.
    replace (to_uint k) with k
      by (unfold to_uint; rewrite Z.mod_small by lia; reflexivity).
    rewrite !(bind_Returned _ _ _ _ _ E1).
    change (-1 =? 0) with false. cbv iota. apply bind_ret_r. }
  exists k. split; [ exact Hk | ]. split; [ rewrite Hmod; exact Hn | ].
  split; [ exact E | ].
  intros r w' H. rewrite E, (bind_Returned _ _ _ _ _ E1) in H.
  pose proof (DigitalRead_valid_pin P k w1 Hk) as C.
  rewrite H in C. apply C.
Qed.

(** X19: [RpcChangeMode] compares only the first character of the value
    with 'd' and only the first two with "sp" and "si": a value that begins
    with "d" selects [DIO], one that begins with "sp" selects [SPI], one
    that begins with "si" selects [SIO], whatever follows; the call returns
    what [PinMode] returns for the segment parsed from the name. *)
Theorem RpcChangeMode_selects_by_prefix param value w :
  (9 <= String.length param)%nat ->
  exists n,
    atoi (substring 9 2 param) = Some n /\
    (prefix "d" value = true ->
     RpcChangeMode P (Some param) (Some value) w =
       PinMode P (to_uint (n - 10)) DIO w) /\
    (prefix "sp" value = true ->
     RpcChangeMode P (Some param) (Some value) w =
       PinMode P (to_uint (n - 10)) SPI w) /\
    (prefix "si" value = true ->
     RpcChangeMode P (Some param) (Some value) w =
       PinMode P (to_uint (n - 10)) SIO w).
Proof.
  intros Hlen.
  destruct (atoi_short (substring 9 2 param)) as (n & Hn).
  { pose proof (substring_length 9 2 param). lia. }
  exists n. split; [ exact Hn | ].
  assert (Hrun : forall mode,
    (if strncmp "dio" value 1 =? 0 then DIO
     else if strncmp "spi" value 2 =? 0 then SPI
     else if strncmp "sio" value 2 =? 0 then SIO
     else SPI) = mode ->
    RpcChangeMode P (Some param) (Some value) w =
      PinMode P (to_uint (n - 10)) mode w).
  { intros mode Hm. unfold RpcChangeMode.
    replace (String.length param <? 9)%nat with false
      by (symmetry; apply Nat.ltb_ge; exact Hlen).
    rewrite Hn. cbv zeta. rewrite Hm. apply bind_ret_r. }
  split; [ | split ].
  - intros Hd. apply Hrun. now rewrite strncmp_dio, Hd.
  - intros Hsp. apply Hrun.
    rewrite strncmp_dio, (prefix_sp_not_d _ _ Hsp).
    rewrite strncmp_2 by discriminate. now rewrite Hsp.
  - intros Hsi. apply Hrun.
    rewrite strncmp_dio, (prefix_sp_not_d _ _ Hsi).
    rewrite !strncmp_2 by discriminate.
    rewrite (prefix_si_not_sp _ Hsi), Hsi. reflexivity.
Qed.

(** X20: when the two characters after "shield.cn" do not parse to a
    number in 11..20 (a short name, no digits, a segment such as 21),
    [RpcChangeMode] returns -1 having done nothing but log, whatever the
    value: a negative difference wraps to a large [unsigned int] and is
    turned down by [PinMode]'s range check like a large one. *)
Theorem RpcChangeMode_segment_out_of_range param value w n :
  (9 <= String.length param)%nat ->
  atoi (substring 9 2 param) = Some n ->
  n < 11 \/ 20 < n ->
  RpcChangeMode P (Some param) (Some value) w =
    Returned (-1) (after [Ev_LOG LOG_ERROR] w).
Proof.
  intros Hlen Hn Hout.
  pose proof (atoi_bound _ _ Hn) as Hb.
  pose proof (substring_length 9 2 param) as Hl.
  assert (Hb' : -100 < n < 100).
  { assert (10 ^ Z.of_nat (String.length (substring 9 2 param)) <= 10 ^ 2)
      by (apply Z.pow_le_mono_r; lia).
    change (10 ^ 2) with 100 in *. lia. }
  assert (Hu : to_uint (n - 10) < 1 \/ 10 < to_uint (n - 10)).
  { unfold to_uint. change (2 ^ 32) with 4294967296.
    destruct (Z.lt_ge_cases (n - 10) 0) as [Hneg | Hpos].
    - right.
      replace (n - 10) with ((n - 10 + 4294967296) + (-1) * 4294967296) by lia.
      rewrite Z.mod_add by lia. rewrite Z.mod_small by lia. lia.
    - rewrite Z.mod_small by lia. lia. }
  unfold RpcChangeMode.
  replace (String.length param <? 9)%nat with false
    by (symmetry; apply Nat.ltb_ge; exact Hlen).
  rewrite Hn. cbv zeta. rewrite bind_ret_r.
  apply PinMode_segment_out_of_range. exact Hu.
Qed.

End RpcMore.

(** The switch of [RpcPinWrite] on a digit: output pin 2s-1 for pin
    component 2 and 2s for pin component 4 of segment s. *)
Lemma pin_map_digit d pin_num :
  isdigit d = true -> pin_num = 2 \/ pin_num = 4 ->
  pin_map d pin_num =
    Some (Some (2 * digit_segment d - (if pin_num =? 2 then 1 else 0))).
Proof.
  intros Hd Hp.
  destruct d as [b0 b1 b2 b3 b4 b5 b6 b7].
  destruct b0, b1, b2, b3, b4, b5, b6, b7; try discriminate Hd;
    destruct Hp as [-> | ->]; reflexivity.
Qed.

Lemma skipn_app_length_plus {A} (pre l : list A) k :
  skipn (List.length pre + k) (pre ++ l) = skipn k l.
Proof. induction pre as [ | x pre IH]; [ reflexivity | exact IH ]. Qed.

(** The string [port_str] points to once the three tokens are cut. *)
Lemma port_str_at a b c :
  component b -> (2 <= String.length b)%nat ->
  string_at (list_ascii_of_string a ++ zero ::
             list_ascii_of_string b ++ zero ::
             list_ascii_of_string c ++ [zero])
            (S (List.length (list_ascii_of_string a)) + 2) = after_cn b.
Proof.
  intros [_ Hb] Hlen.
  destruct b as [ | x [ | y rest]]; cbn in Hlen; try lia.
  cbn [list_ascii_of_string after_cn] in *.
  inversion Hb as [ | ? ? _ Hb1 ]; subst.
  inversion Hb1 as [ | ? ? _ Hb2 ]; subst.
  unfold string_at.
  change (list_ascii_of_string a ++ zero ::
          (x :: y :: list_ascii_of_string rest) ++ zero ::
          list_ascii_of_string c ++ [zero])
    with (list_ascii_of_string a ++ [zero] ++
          (x :: y :: list_ascii_of_string rest ++ zero ::
           list_ascii_of_string c ++ [zero])).
  rewrite app_assoc.
  replace (S (List.length (list_ascii_of_string a)) + 2)%nat
    with (List.length (list_ascii_of_string a ++ [zero]) + 2)%nat
    by (rewrite length_app; cbn; lia).
  rewrite skipn_app_length_plus. cbn [skipn].
  rewrite cstr_plain by exact Hb2.
  apply string_of_list_ascii_of_string.
Qed.

Section RpcWriteMore.

Variable P : Platform.

(** X21: a well-formed call of [RpcPinWrite].  For a name of three
    components whose second has a digit d at index 3, a pin component that
    parses to 2 or 4 and a value that parses to 0 or 1, the call sets the
    segment parsed from the text after "cn" to [DIO] with [PinMode] (whose
    result it ignores) and returns what [DigitalWrite] returns for output
    pin 2s-1 (pin component 2) or 2s (pin component 4), s being the
    segment of the digit d alone. *)
Theorem RpcPinWrite_well_formed a b c value v pin_num port w :
  component a -> component b -> component c ->
  (forall rest, a <> String "g" rest) ->
  atoi value = Some v -> v = 0 \/ v = 1 ->
  atoi c = Some pin_num -> pin_num = 2 \/ pin_num = 4 ->
  isdigit (nth 3 (list_ascii_of_string b) zero) = true ->
  atoi (after_cn b) = Some port ->
  RpcPinWrite P (Some (a ++ "." ++ b ++ "." ++ c)%string) (Some value) w =
    (PinMode P (to_uint (port - 10)) DIO ;;
     DigitalWrite P
       (2 * digit_segment (nth 3 (list_ascii_of_string b) zero) -
        (if pin_num =? 2 then 1 else 0)) v) w.
Proof.
  intros Ha Hb Hc Hg Hv Hv01 Hpin Hpin24 Hdig Hport.
  assert (Hlen : (4 <= String.length b)%nat).
  { destruct (Nat.le_gt_cases 4 (String.length b)) as [H | H]; [ exact H | ].
    rewrite nth_overflow in Hdig
      by (rewrite list_ascii_of_string_length; lia).
    discriminate Hdig. }
  destruct (strtok_three_components a b c Ha Hb Hc)
    as (T1 & T2 & T3 & Hs & Hn3).
  pose proof (port_str_at a b c Hb ltac:(lia)) as Hps.
  destruct a as [ | c0 a']; [ destruct Ha as [Ha _]; contradiction | ].
  change ((String c0 a' ++ "." ++ b ++ "." ++ c)%string)
    with (String c0 (a' ++ "." ++ b ++ "." ++ c)) in *.
  unfold RpcPinWrite.
  destruct (Ascii.eqb_spec c0 "g") as [-> | _];
    [ exfalso; exact (Hg a' eq_refl) | ].
  cbn [option_map]. rewrite Hv.
  replace (negb (0 =? v) && negb (1 =? v)) with false
    by (destruct Hv01 as [-> | ->]; reflexivity).
  rewrite T1. cbv beta iota. rewrite T2. cbv beta iota.
  rewrite T3. cbv beta iota.
  rewrite Hs, Hpin.
  rewrite Hn3 by (rewrite list_ascii_of_string_length; lia).
  rewrite pin_map_digit by assumption.
  rewrite Hps, Hport.
  unfold bind at 1 3.
  destruct (PinMode P (to_uint (port - 10)) DIO w); try reflexivity.
  apply bind_ret_r.
Qed.

End RpcWriteMore.

(** The name "shield.cn20" on a board that answers 0x02, 0x04. *)
Lemma RpcDigitalRead_reads_named_pin_cn20 :
  (10 <= String.length "shield.cn20")%nat /\
  exists k,
    1 <= k <= 10 /\
    atoi (substring 10 1 "shield.cn20") = Some (k mod 10) /\
    RpcDigitalRead (answering [0x02; 0x04]) (Some "shield.cn20"%string) boot =
      (PinMode (answering [0x02; 0x04]) k DIO ;;
       DigitalRead (answering [0x02; 0x04]) k) boot /\
    forall r w',
      RpcDigitalRead (answering [0x02; 0x04]) (Some "shield.cn20"%string) boot
        = Returned r w' -> r = 0 \/ r = 1.
Proof.
  assert (H : (10 <= String.length "shield.cn20")%nat) by (cbn; lia).
  split; [ exact H | ].
  exact (RpcDigitalRead_reads_named_pin (answering [0x02; 0x04])
           "shield.cn20" boot H).
Defined.

(** The value "digital" on segment CN13 selects [DIO]. *)
Lemma RpcChangeMode_selects_by_prefix_digital :
  (9 <= String.length "shield.cn13")%nat /\
  prefix "d" "digital" = true /\
  RpcChangeMode loopback (Some "shield.cn13"%string) (Some "digital"%string)
                boot
    = PinMode loopback 3 DIO boot.
Proof.
  assert (H : (9 <= String.length "shield.cn13")%nat) by (cbn; lia).
  assert (Hd : prefix "d" "digital" = true) by reflexivity.
  split; [ exact H | ]. split; [ exact Hd | ].
  destruct (RpcChangeMode_selects_by_prefix loopback "shield.cn13" "digital"
              boot H) as (n & Hn & Hdio & _).
  assert (n = 13) by (vm_compute in Hn; congruence). subst n.
  exact (Hdio Hd).
Defined.

(** The name "shield.cn" has no segment digits. *)
Lemma RpcChangeMode_segment_out_of_range_no_digits :
  (9 <= String.length "shield.cn")%nat /\
  atoi (substring 9 2 "shield.cn") = Some 0 /\
  (0 < 11 \/ 20 < 0) /\
  RpcChangeMode loopback (Some "shield.cn"%string) (Some "dio"%string) boot
    = Returned (-1) (after [Ev_LOG LOG_ERROR] boot).
Proof.
  assert (H1 : (9 <= String.length "shield.cn")%nat) by (cbn; lia).
  assert (H2 : atoi (substring 9 2 "shield.cn") = Some 0) by reflexivity.
  assert (H3 : 0 < 11 \/ 20 < 0) by lia.
  split; [ exact H1 | ]. split; [ exact H2 | ]. split; [ exact H3 | ].
  exact (RpcChangeMode_segment_out_of_range loopback "shield.cn" "dio" boot 0
           H1 H2 H3).
Defined.

Lemma component_letters s :
  s <> EmptyString ->
  forallb (fun c => negb (Ascii.eqb c ".") && negb (Ascii.eqb c zero))
          (list_ascii_of_string s) = true ->
  component s.
Proof.
  intros Hne H. split; [ exact Hne | ].
  unfold plain. apply Forall_forall. intros c Hc.
  rewrite forallb_forall in H. specialize (H c Hc).
  apply andb_prop in H. destruct H as [H1 H2].
  split; intros ->; discriminate.
Qed.

(** "shield.cn13.4" with value "1": segment 3 to [DIO], output pin 6. *)
Lemma RpcPinWrite_well_formed_cn13_4 :
  RpcPinWrite loopback (Some "shield.cn13.4"%string) (Some "1"%string) boot =
    (PinMode loopback 3 DIO ;; DigitalWrite loopback 6 1) boot.
Proof.
  apply (RpcPinWrite_well_formed loopback "shield" "cn13" "4" "1" 1 4 13 boot).
  - apply component_letters; [ discriminate | reflexivity ].
  - apply component_letters; [ discriminate | reflexivity ].
  - apply component_letters; [ discriminate | reflexivity ].
  - intros rest. discriminate.
  - reflexivity.
  - right. reflexivity.
  - reflexivity.
  - right. reflexivity.
  - reflexivity.
  - reflexivity.
Defined.
